(** * DragAction: the drag-and-drop controller of coral-spectrum

    A shallow embedding of [DragAction] (the controller class whose text
    follows the shell header style sheet in
    [src/coral-component-shell/src/styles/header/index.styl]) together with
    the part of the browser it talks to, and the properties of its geometry
    and event sequencing.

    Conventions of the embedding.
    - Pixel quantities are integers ([Z]); the browser's fractional pixels
      are not represented, and a length is kept exactly however large it
      is.  A layout engine holds lengths in a fixed-point unit and clamps
      what does not fit, which is not modelled: [maxLength] is the engine's
      bound, and [held] says of a length that it is within it.  A JavaScript
      number that may be [NaN] or [undefined] is a [num]; [undefined]
      entering arithmetic is read as [NaN], the two are not told apart.
    - DOM elements and controller instances are objects with identity: they
      live in stores indexed by [ElemId] and [CtrlId], and every method
      takes the store and returns the updated one.
    - The browser (layout, computed style, scroll clamping, selector
      matching) is the collaborator the controller assumes; it is modelled
      in [Host model] below by the smallest contract the code relies on. *)

From Stdlib Require Import ZArith List String Bool Lia DecimalString.
Import ListNotations.
Local Open Scope string_scope.
Local Open Scope list_scope.
Local Open Scope Z_scope.

(** ** JavaScript numbers and values *)

Inductive num : Type :=
| Num (z : Z)
| NaN.

Definition nadd (a b : num) : num :=
  match a, b with Num x, Num y => Num (x + y) | _, _ => NaN end.

Definition nsub (a b : num) : num :=
  match a, b with Num x, Num y => Num (x - y) | _, _ => NaN end.

(** Comparisons with [NaN] are false, whichever the operator. *)
Definition nle (a b : num) : bool :=
  match a, b with Num x, Num y => x <=? y | _, _ => false end.

Definition nge (a b : num) : bool :=
  match a, b with Num x, Num y => x >=? y | _, _ => false end.

Definition truthy_num (a : num) : bool :=
  match a with Num z => negb (z =? 0) | NaN => false end.

(** [a || b] on numbers. *)
Definition num_or (a b : num) : num := if truthy_num a then a else b.

Definition ElemId := nat.
Definition CtrlId := nat.

(** The values a caller can hand to the constructor and to the [handle] and
    [dropZone] setters.  [VElement e] is a reference to an element of the
    document, an [HTMLElement] or not (an SVG element is not). *)
Inductive JSValue : Type :=
| VUndefined
| VNull
| VBool (b : bool)
| VNumber (n : num)
| VString (s : string)
| VElement (e : ElemId)
| VNodeList (l : list ElemId)
| VObject.

Definition truthy (v : JSValue) : bool :=
  match v with
  | VUndefined | VNull => false
  | VBool b => b
  | VNumber n => truthy_num n
  | VString s => negb (String.eqb s "")
  | VElement _ | VNodeList _ | VObject => true
  end.

Definition is_string (v : JSValue) : bool :=
  match v with VString _ => true | _ => false end.

(** ** Errors *)

Inductive JSError : Type :=
| Error (message : string)
| TypeError (message : string)
| SyntaxError (message : string).   (* the DOMException of the selector parser *)

(** ** Pointer and touch events *)

Record Touch : Type := mkTouch {
  touch_pageX : num;
  touch_pageY : num
}.

Record PointerEvent : Type := mkPointerEvent {
  changedTouches : list Touch;
  touches : list Touch;
  pageX : num;
  pageY : num;
  target_tagName : string
}.

Record PagePosition : Type := mkPagePosition {
  x : num;
  y : num
}.

(** ** Listeners and notifications *)

Inductive Namespace : Type :=
| NsDragAction
| NsDragActionId (id : nat).

Definition ns_eqb (a b : Namespace) : bool :=
  match a, b with
  | NsDragAction, NsDragAction => true
  | NsDragActionId i, NsDragActionId j => Nat.eqb i j
  | _, _ => false
  end.

Inductive Handler : Type :=
| H_dragStart (c : CtrlId)
| H_drag (c : CtrlId)
| H_dragEnd (c : CtrlId)
| H_preventDefault.

Record Listener : Type := mkListener {
  l_type : string;
  l_ns : Namespace;
  l_handler : Handler
}.

(** Modelled from the spec: the Vent registries ([@adobe/vent], and the
    window-level [events] of coral-utils) are missing; "map instance-id →
    listener closures, with bulk removal by key".  [off] is
    [vent.off('.ns')]: every listener registered under the namespace goes. *)
Definition off (ns : Namespace) (ls : list Listener) : list Listener :=
  filter (fun l => negb (ns_eqb (l_ns l) ns)) ls.

(** Modelled from the spec: [vent.on('type.ns', handler)] of the same
    registries. *)
Definition on (type : string) (ns : Namespace) (h : Handler)
  (ls : list Listener) : list Listener :=
  ls ++ [mkListener type ns h].

Inductive EventType : Type :=
| dragstart | drag | dragenter | dragover | dragleave | drop | dragend.

Definition EventType_eqb (a b : EventType) : bool :=
  match a, b with
  | dragstart, dragstart | drag, drag | dragenter, dragenter
  | dragover, dragover | dragleave, dragleave | drop, drop
  | dragend, dragend => true
  | _, _ => false
  end.

(** The [detail] of a dispatched [coral-dragaction:*] event. *)
Record Notification : Type := mkNotification {
  n_type : EventType;
  n_dragElement : ElemId;
  n_pageX : num;
  n_pageY : num;
  n_dropElement : option ElemId
}.

(** ** DOM elements *)

Inductive CssLength : Type :=
| Auto
| Px (z : Z).

(** Computed style of an element, as [window.getComputedStyle] reports it.
    A write to [element.style] is modelled by its effect on the computed
    style (an inline declaration wins). *)
Record Style : Type := mkStyle {
  style_position : string;
  style_top : CssLength;
  style_left : CssLength;
  style_overflow : string;
  style_overflowX : string;
  style_overflowY : string
}.

(** What the controller never writes: tag, attributes, and the layout data
    of the box ([flowTop], [flowLeft]: its document position at zero offsets
    and zero scroll). *)
Record ElemInfo : Type := mkElemInfo {
  tagName : string;
  isHTMLElement : bool;
  attr_handle : option string;
  attr_dropzone : option string;
  attr_axis : option string;
  attr_scroll : bool;
  attr_containment : bool;
  flowTop : Z;
  flowLeft : Z;
  width : Z;
  height : Z;
  scrollHeight : Z;
  scrollWidth : Z
}.

Record Element : Type := mkElement {
  info : ElemInfo;
  classList : list string;
  style : Style;
  scrollTop : Z;
  scrollLeft : Z;
  _overflow : option string;        (* expando set by _dragStart *)
  dragAction : option CtrlId;       (* expando: the owning controller *)
  el_dragEvents : list Listener     (* expando [_dragEvents]: the handle's Vent *)
}.

(** ** Controller instances *)

Record InitialPosition : Type := mkInitialPosition {
  ip_position : string;
  ip_left : CssLength;
  ip_top : CssLength
}.

Record DragAction : Type := mkDragAction {
  _id : nat;
  _dragElementValue : JSValue;
  _dragElement : ElemId;
  _initialPosition : InitialPosition;
  _dragEvents : list Listener;
  _handle : JSValue;
  _handles : option (list ElemId);  (* [None]: not yet assigned *)
  _dropZone : JSValue;
  _dropZoneEntered : bool;
  _dropZones : list ElemId;
  _dropElement : option ElemId;
  _axis : string;
  _scroll : bool;
  _containment : bool;
  _container : option ElemId;
  _dragPosition : PagePosition
}.

(** ** The document and the state of the page *)

Record Document : Type := mkDocument {
  body : ElemId;
  scrollingElement : ElemId;   (* document.scrollingElement || documentElement *)
  innerWidth : Z;
  innerHeight : Z;
  ancestors : ElemId -> list ElemId;          (* parent elements, nearest first *)
  rooted : ElemId -> bool;     (* above the last parent element there is a node
                                  that is no element (the document, a shadow
                                  root), not a null parent *)
  parses : string -> bool;                    (* text the selector parser accepts *)
  querySelectorAll : string -> list ElemId;   (* matches in document order *)
  maxLength : Z                (* the largest length the layout engine holds *)
}.


Record State : Type := mkState {
  doc : Document;
  elems : ElemId -> Element;
  ctrls : CtrlId -> DragAction;
  uid : nat;                        (* next id of commons.getUID *)
  events : list Listener;           (* the window-level [events] Vent *)
  dispatched : list Notification;   (* notifications dispatched so far *)
  prevented : nat;                  (* preventDefault calls so far *)
  rangeCount : nat                  (* ranges of the window's selection *)
}.

(** ** Field updates *)

Definition with_style_position (v : string) (s : Style) : Style :=
  mkStyle v (style_top s) (style_left s) (style_overflow s) (style_overflowX s)
    (style_overflowY s).

Definition with_style_top (v : CssLength) (s : Style) : Style :=
  mkStyle (style_position s) v (style_left s) (style_overflow s) (style_overflowX s)
    (style_overflowY s).

Definition with_style_left (v : CssLength) (s : Style) : Style :=
  mkStyle (style_position s) (style_top s) v (style_overflow s) (style_overflowX s)
    (style_overflowY s).

Definition el_with_classList (v : list string) (e : Element) : Element :=
  mkElement (info e) v (style e) (scrollTop e) (scrollLeft e) (_overflow e)
    (dragAction e) (el_dragEvents e).

Definition el_with_style (v : Style) (e : Element) : Element :=
  mkElement (info e) (classList e) v (scrollTop e) (scrollLeft e) (_overflow e)
    (dragAction e) (el_dragEvents e).

Definition el_with_scrollTop (v : Z) (e : Element) : Element :=
  mkElement (info e) (classList e) (style e) v (scrollLeft e) (_overflow e)
    (dragAction e) (el_dragEvents e).

Definition el_with_scrollLeft (v : Z) (e : Element) : Element :=
  mkElement (info e) (classList e) (style e) (scrollTop e) v (_overflow e)
    (dragAction e) (el_dragEvents e).

Definition el_with_overflow (v : option string) (e : Element) : Element :=
  mkElement (info e) (classList e) (style e) (scrollTop e) (scrollLeft e) v
    (dragAction e) (el_dragEvents e).

Definition el_with_dragAction (v : option CtrlId) (e : Element) : Element :=
  mkElement (info e) (classList e) (style e) (scrollTop e) (scrollLeft e) (_overflow e)
    v (el_dragEvents e).

Definition el_with_dragEvents (v : list Listener) (e : Element) : Element :=
  mkElement (info e) (classList e) (style e) (scrollTop e) (scrollLeft e) (_overflow e)
    (dragAction e) v.

Definition with_dragEvents (v : list Listener) (this : DragAction) : DragAction :=
  mkDragAction (_id this) (_dragElementValue this) (_dragElement this)
    (_initialPosition this) v (_handle this) (_handles this) (_dropZone this)
    (_dropZoneEntered this) (_dropZones this) (_dropElement this) (_axis this)
    (_scroll this) (_containment this) (_container this) (_dragPosition this).

Definition with_handle (v : JSValue) (this : DragAction) : DragAction :=
  mkDragAction (_id this) (_dragElementValue this) (_dragElement this)
    (_initialPosition this) (_dragEvents this) v (_handles this) (_dropZone this)
    (_dropZoneEntered this) (_dropZones this) (_dropElement this) (_axis this)
    (_scroll this) (_containment this) (_container this) (_dragPosition this).

Definition with_handles (v : option (list ElemId)) (this : DragAction) : DragAction :=
  mkDragAction (_id this) (_dragElementValue this) (_dragElement this)
    (_initialPosition this) (_dragEvents this) (_handle this) v (_dropZone this)
    (_dropZoneEntered this) (_dropZones this) (_dropElement this) (_axis this)
    (_scroll this) (_containment this) (_container this) (_dragPosition this).

Definition with_dropZone (v : JSValue) (this : DragAction) : DragAction :=
  mkDragAction (_id this) (_dragElementValue this) (_dragElement this)
    (_initialPosition this) (_dragEvents this) (_handle this) (_handles this) v
    (_dropZoneEntered this) (_dropZones this) (_dropElement this) (_axis this)
    (_scroll this) (_containment this) (_container this) (_dragPosition this).

Definition with_dropZoneEntered (v : bool) (this : DragAction) : DragAction :=
  mkDragAction (_id this) (_dragElementValue this) (_dragElement this)
    (_initialPosition this) (_dragEvents this) (_handle this) (_handles this)
    (_dropZone this) v (_dropZones this) (_dropElement this) (_axis this)
    (_scroll this) (_containment this) (_container this) (_dragPosition this).

Definition with_dropZones (v : list ElemId) (this : DragAction) : DragAction :=
  mkDragAction (_id this) (_dragElementValue this) (_dragElement this)
    (_initialPosition this) (_dragEvents this) (_handle this) (_handles this)
    (_dropZone this) (_dropZoneEntered this) v (_dropElement this) (_axis this)
    (_scroll this) (_containment this) (_container this) (_dragPosition this).

Definition with_dropElement (v : option ElemId) (this : DragAction) : DragAction :=
  mkDragAction (_id this) (_dragElementValue this) (_dragElement this)
    (_initialPosition this) (_dragEvents this) (_handle this) (_handles this)
    (_dropZone this) (_dropZoneEntered this) (_dropZones this) v (_axis this)
    (_scroll this) (_containment this) (_container this) (_dragPosition this).

Definition with_axis (v : string) (this : DragAction) : DragAction :=
  mkDragAction (_id this) (_dragElementValue this) (_dragElement this)
    (_initialPosition this) (_dragEvents this) (_handle this) (_handles this)
    (_dropZone this) (_dropZoneEntered this) (_dropZones this) (_dropElement this) v
    (_scroll this) (_containment this) (_container this) (_dragPosition this).

Definition with_scroll (v : bool) (this : DragAction) : DragAction :=
  mkDragAction (_id this) (_dragElementValue this) (_dragElement this)
    (_initialPosition this) (_dragEvents this) (_handle this) (_handles this)
    (_dropZone this) (_dropZoneEntered this) (_dropZones this) (_dropElement this)
    (_axis this) v (_containment this) (_container this) (_dragPosition this).

Definition with_containment (v : bool) (this : DragAction) : DragAction :=
  mkDragAction (_id this) (_dragElementValue this) (_dragElement this)
    (_initialPosition this) (_dragEvents this) (_handle this) (_handles this)
    (_dropZone this) (_dropZoneEntered this) (_dropZones this) (_dropElement this)
    (_axis this) (_scroll this) v (_container this) (_dragPosition this).

Definition with_container (v : option ElemId) (this : DragAction) : DragAction :=
  mkDragAction (_id this) (_dragElementValue this) (_dragElement this)
    (_initialPosition this) (_dragEvents this) (_handle this) (_handles this)
    (_dropZone this) (_dropZoneEntered this) (_dropZones this) (_dropElement this)
    (_axis this) (_scroll this) (_containment this) v (_dragPosition this).

Definition with_dragPosition (v : PagePosition) (this : DragAction) : DragAction :=
  mkDragAction (_id this) (_dragElementValue this) (_dragElement this)
    (_initialPosition this) (_dragEvents this) (_handle this) (_handles this)
    (_dropZone this) (_dropZoneEntered this) (_dropZones this) (_dropElement this)
    (_axis this) (_scroll this) (_containment this) (_container this) v.

Definition with_elems (v : ElemId -> Element) (st : State) : State :=
  mkState (doc st) v (ctrls st) (uid st) (events st) (dispatched st)
    (prevented st) (rangeCount st).

Definition with_ctrls (v : CtrlId -> DragAction) (st : State) : State :=
  mkState (doc st) (elems st) v (uid st) (events st) (dispatched st)
    (prevented st) (rangeCount st).

Definition with_uid (v : nat) (st : State) : State :=
  mkState (doc st) (elems st) (ctrls st) v (events st) (dispatched st)
    (prevented st) (rangeCount st).

Definition with_events (v : list Listener) (st : State) : State :=
  mkState (doc st) (elems st) (ctrls st) (uid st) v (dispatched st)
    (prevented st) (rangeCount st).

Definition with_dispatched (v : list Notification) (st : State) : State :=
  mkState (doc st) (elems st) (ctrls st) (uid st) (events st) v
    (prevented st) (rangeCount st).

Definition with_prevented (v : nat) (st : State) : State :=
  mkState (doc st) (elems st) (ctrls st) (uid st) (events st) (dispatched st) v
    (rangeCount st).

Definition with_rangeCount (v : nat) (st : State) : State :=
  mkState (doc st) (elems st) (ctrls st) (uid st) (events st) (dispatched st)
    (prevented st) v.

(** The keywords of an [overflow] shorthand: the text before the first
    space is for the x axis and the text after it for the y axis; a single
    keyword is for both. *)
Fixpoint overflow_first (v : string) : string :=
  match v with
  | EmptyString => EmptyString
  | String c rest =>
      if Ascii.eqb c Ascii.Space then EmptyString else String c (overflow_first rest)
  end.

Fixpoint overflow_second (v : string) : option string :=
  match v with
  | EmptyString => None
  | String c rest => if Ascii.eqb c Ascii.Space then Some rest else overflow_second rest
  end.

(** [style.overflow = v]: the shorthand sets both axes. *)
Definition with_style_overflow (v : string) (s : Style) : Style :=
  mkStyle (style_position s) (style_top s) (style_left s) v
    (overflow_first v)
    (match overflow_second v with Some y => y | None => v end).

(** ** Stores *)

Definition upd {A : Type} (f : nat -> A) (k : nat) (v : A) : nat -> A :=
  fun i => if Nat.eqb i k then v else f i.

Definition modify_elem (e : ElemId) (f : Element -> Element) (st : State) : State :=
  with_elems (upd (elems st) e (f (elems st e))) st.

Definition modify_ctrl (c : CtrlId) (f : DragAction -> DragAction) (st : State) : State :=
  with_ctrls (upd (ctrls st) c (f (ctrls st c))) st.

Definition forEach {A : Type} (l : list A) (f : A -> State -> State) (st : State) : State :=
  fold_left (fun s a => f a s) l st.

(** Results of the methods that can throw. *)
Inductive Result (A : Type) : Type :=
| Ok (a : A) (st : State)
| Throw (e : JSError) (st : State).

Arguments Ok {A} a st.
Arguments Throw {A} e st.

Definition bind {A B : Type} (r : Result A) (k : A -> State -> Result B) : Result B :=
  match r with
  | Ok a st => k a st
  | Throw e st => Throw e st
  end.

(** ** Host model

    The contract of the browser the controller relies on.
    - Layout: a box sits at its flow position displaced by its computed
      [top]/[left] ([auto] displaces by nothing) and by the scroll offsets
      of its ancestors; [getBoundingClientRect] is relative to the viewport,
      the document's scrolling element being an ancestor like the others.
      Every box is taken as positioned: the controller makes a static drag
      element relative before it moves it.  The browser ignores the
      declared offsets of a box that is static; the bounds here are the
      browser's for a box that is positioned or has no declared offsets
      ([laid_out]).
    - Lengths are exact; the engine's clamping of lengths beyond
      [maxLength] is not modelled, and [held] says of a length that the
      engine holds it as it is.
    - CSSOM: assigning text that is no valid value ([NaNpx], [undefined])
      leaves the declaration as it was.
    - Scrolling: an assigned scroll offset is clamped to
      [0 .. scrollHeight - clientHeight]; the client height of the
      document's scrolling element is the window's inner height.
    - Selectors: [querySelector] and [querySelectorAll] throw a
      [SyntaxError] for text the selector parser does not accept, the empty
      string always; [querySelectorAll] of the document gives the matches
      of the text it accepts.
    - Parent chains: above the last parent element of a chain there is
      either no parent at all or a node that is no element and has no
      [matches] method ([rooted]).
    - Selection: [removeAllRanges], and [empty] where the host has
      [document.selection], empty the window's selection. *)

Record Rect : Type := mkRect {
  r_left : Z;
  r_top : Z;
  r_width : Z;
  r_height : Z
}.

Definition used_offset (l : CssLength) : Z :=
  match l with Px z => z | Auto => 0 end.

Definition scrolled (f : Element -> Z) (st : State) (e : ElemId) : Z :=
  fold_right (fun a acc => f (elems st a) + acc) 0 (ancestors (doc st) e).

Definition getBoundingClientRect (st : State) (e : ElemId) : Rect :=
  let el := elems st e in
  mkRect
    (flowLeft (info el) + used_offset (style_left (style el)) - scrolled scrollLeft st e)
    (flowTop (info el) + used_offset (style_top (style el)) - scrolled scrollTop st e)
    (width (info el))
    (height (info el)).

Definition clamp (lo hi v : Z) : Z := Z.max lo (Z.min hi v).

Definition clientHeight (st : State) (e : ElemId) : Z :=
  if Nat.eqb e (scrollingElement (doc st)) then innerHeight (doc st)
  else height (info (elems st e)).

Definition clientWidth (st : State) (e : ElemId) : Z :=
  if Nat.eqb e (scrollingElement (doc st)) then innerWidth (doc st)
  else width (info (elems st e)).

Definition scrollTopMax (st : State) (e : ElemId) : Z :=
  Z.max 0 (scrollHeight (info (elems st e)) - clientHeight st e).

Definition scrollLeftMax (st : State) (e : ElemId) : Z :=
  Z.max 0 (scrollWidth (info (elems st e)) - clientWidth st e).

(** [e.scrollTop = v] and [e.scrollLeft = v]. *)
Definition write_scrollTop (e : ElemId) (v : Z) (st : State) : State :=
  modify_elem e (el_with_scrollTop (clamp 0 (scrollTopMax st e) v)) st.

Definition write_scrollLeft (e : ElemId) (v : Z) (st : State) : State :=
  modify_elem e (el_with_scrollLeft (clamp 0 (scrollLeftMax st e) v)) st.

(** The text [`${n}px`] as the CSS parser reads it. *)
Definition px (n : num) : option CssLength :=
  match n with Num z => Some (Px z) | NaN => None end.

(** [e.style.top = v], [e.style.left = v]: [None] is text the parser rejects. *)
Definition write_style_top (e : ElemId) (v : option CssLength) (st : State) : State :=
  match v with
  | Some l => modify_elem e (fun el => el_with_style (with_style_top l (style el)) el) st
  | None => st
  end.

Definition write_style_left (e : ElemId) (v : option CssLength) (st : State) : State :=
  match v with
  | Some l => modify_elem e (fun el => el_with_style (with_style_left l (style el)) el) st
  | None => st
  end.

Definition write_style_position (e : ElemId) (v : string) (st : State) : State :=
  modify_elem e (fun el => el_with_style (with_style_position v (style el)) el) st.

(** [e.style.overflow = v]; [None] is [undefined]. *)
Definition write_style_overflow (e : ElemId) (v : option string) (st : State) : State :=
  match v with
  | Some s => modify_elem e (fun el => el_with_style (with_style_overflow s (style el)) el) st
  | None => st
  end.

(** [parseFloat] of a computed [top]/[left]. *)
Definition parseFloat (l : CssLength) : num :=
  match l with Px z => Num z | Auto => NaN end.

Definition classList_contains (cls : string) (l : list string) : bool :=
  existsb (String.eqb cls) l.

Definition classList_add (cls : string) (l : list string) : list string :=
  if classList_contains cls l then l else l ++ [cls].

Definition classList_remove (cls : string) (l : list string) : list string :=
  filter (fun c => negb (String.eqb c cls)) l.

Definition add_class (e : ElemId) (cls : string) (st : State) : State :=
  modify_elem e (fun el => el_with_classList (classList_add cls (classList el)) el) st.

Definition remove_class (e : ElemId) (cls : string) (st : State) : State :=
  modify_elem e (fun el => el_with_classList (classList_remove cls (classList el)) el) st.

Definition has_class (st : State) (e : ElemId) (cls : string) : bool :=
  classList_contains cls (classList (elems st e)).

(** [e.matches('body')]. *)
Definition matches_body (st : State) (e : ElemId) : bool :=
  String.eqb (tagName (info (elems st e))) "BODY".

(** The selector parser refuses the empty string and whatever else it
    cannot read. *)
Definition valid_selector (st : State) (selector : string) : bool :=
  negb (String.eqb selector "") && parses (doc st) selector.

Definition invalid_selector : JSError := SyntaxError "not a valid selector".

(** The first match of a selector the parser accepts. *)
Definition querySelector (st : State) (selector : string) : option ElemId :=
  hd_error (querySelectorAll (doc st) selector).

(** A length the layout engine holds exactly. *)
Definition held (st : State) (z : Z) : Prop :=
  - maxLength (doc st) <= z <= maxLength (doc st).

(** [window.getSelection().removeAllRanges()], or [document.selection.empty()]
    on a host that has [document.selection]: the selection is emptied. *)
Definition removeAllRanges (st : State) : State := with_rangeCount 0 st.

(** [getAttribute]: the value, or [null]. *)
Definition getAttribute (a : option string) : JSValue :=
  match a with Some s => VString s | None => VNull end.

(** Modelled from the spec: [vent.dispatch] of a [coral-dragaction:*]
    event is missing with the Vent library; the notification joins the
    "emitted notification stream". *)
Definition dispatch (n : Notification) (st : State) : State :=
  with_dispatched (dispatched st ++ [n]) st.

Definition preventDefault (st : State) : State :=
  with_prevented (S (prevented st)) st.

(** [vent.off('.DragAction')] on a handle's Vent, and the two bindings of
    [_dragStart] on it (mousedown first, as the handle setter writes them). *)
Definition vent_off (handle : ElemId) (st : State) : State :=
  modify_elem handle (fun el =>
    el_with_dragEvents (off NsDragAction (el_dragEvents el)) el) st.

Definition vent_on (c : CtrlId) (handle : ElemId) (st : State) : State :=
  modify_elem handle (fun el =>
    el_with_dragEvents
      (on "touchstart" NsDragAction (H_dragStart c)
         (on "mousedown" NsDragAction (H_dragStart c) (el_dragEvents el)))
      el) st.

(** The same on the controller's own Vent, [this._dragEvents] (touchstart
    first there). *)
Definition this_vent_off (c : CtrlId) (st : State) : State :=
  modify_ctrl c (fun this =>
    with_dragEvents (off NsDragAction (_dragEvents this)) this) st.

Definition this_vent_on (c : CtrlId) (st : State) : State :=
  modify_ctrl c (fun this =>
    with_dragEvents
      (on "mousedown" NsDragAction (H_dragStart c)
         (on "touchstart" NsDragAction (H_dragStart c) (_dragEvents this)))
      this) st.

(** [e._overflow = window.getComputedStyle(e).overflow] *)
Definition save_overflow (e : ElemId) (st : State) : State :=
  modify_elem e (fun el => el_with_overflow (Some (style_overflow (style el))) el) st.

(** [e.dragAction = v] *)
Definition set_dragAction (e : ElemId) (v : option CtrlId) (st : State) : State :=
  modify_elem e (el_with_dragAction v) st.

(** ** coral-utils helpers

    [transform] and [validate] come from coral-utils, which is not among
    the sources at hand. *)

(** Modelled from the spec: [transform.boolean] of coral-utils is missing;
    "non-boolean scroll/containment inputs are coerced", read as
    JavaScript's conversion to boolean. *)
Definition transform_boolean (value : JSValue) : bool := truthy value.

(** Modelled from the spec: [transform.string] of coral-utils is missing;
    the spec fixes only its use by the axis setter ("unrecognized axis →
    free"): a string is passed through, [null] and [undefined] give the
    empty string, any other value its JavaScript string form (an object's
    is abbreviated to ["[object Object]"]). *)
Definition transform_string (value : JSValue) : string :=
  match value with
  | VString s => s
  | VUndefined | VNull => ""
  | VBool true => "true"
  | VBool false => "false"
  | VNumber (Num z) => NilZero.string_of_int (Z.to_int z)
  | VNumber NaN => "NaN"
  | VElement _ | VNodeList _ | VObject => "[object Object]"
  end.

(** Modelled from the spec: [validate.enumeration] of coral-utils is
    missing; it recognises exactly the values of the enumeration it is
    given. *)
Definition validate_enumeration (values : list string) (value : string) : bool :=
  existsb (String.eqb value) values.

(** ** DragAction: constants *)

Definition OPEN_HAND_CLASS : string := "u-coral-openHand".
Definition CLOSE_HAND_CLASS : string := "u-coral-closedHand".
Definition IS_DRAGGING_CLASS : string := "is-dragging".

Definition DEFAULT_SCROLL_OFFSET : Z := 20.
Definition DEFAULT_SCROLL_BY : Z := 10.

Definition FREE : string := "free".
Definition VERTICAL : string := "vertical".
Definition HORIZONTAL : string := "horizontal".

(** The values of the [axis] enumeration, in declaration order. *)
Definition axis : list string := [FREE; VERTICAL; HORIZONTAL].

(** ** DragAction: module-level functions *)

Definition overflow_clips (s : Style) : bool :=
  let overflow := style_overflow s in
  (String.eqb overflow "hidden" || String.eqb overflow "auto" || String.eqb overflow "scroll")
  && String.eqb overflow (style_overflowX s)
  && String.eqb overflow (style_overflowY s).

(** The loop of [getViewContainer] over the parent elements: [None] is a
    chain that ends with no element answered. *)
Fixpoint getViewContainer_loop (st : State) (chain : list ElemId) : option ElemId :=
  match chain with
  | [] => None
  | p :: rest =>
      if matches_body st p then Some p
      else if overflow_clips (style (elems st p)) then Some p
      else getViewContainer_loop st rest
  end.

Definition getViewContainer (st : State) (element : ElemId) : option ElemId :=
  getViewContainer_loop st (ancestors (doc st) element).

Definition not_an_element : JSError := TypeError "p.matches is not a function".

(** The call of [getViewContainer]: it answers the element the loop finds;
    when the parent elements are exhausted the next parent is null, which it
    answers, or a node without [matches], on which it throws. *)
Definition getViewContainer_call (st : State) (element : ElemId)
  : Result (option ElemId) :=
  match getViewContainer st element with
  | Some p => Ok (Some p) st
  | None =>
      if rooted (doc st) element then Throw not_an_element st else Ok None st
  end.

Definition instanceof_HTMLElement (st : State) (v : JSValue) : bool :=
  match v with
  | VElement e => isHTMLElement (info (elems st e))
  | _ => false
  end.

Definition is_NodeList (v : JSValue) : bool :=
  match v with VNodeList _ => true | _ => false end.

(** What [transformToArray] answers; [None] is the [undefined] of a call no
    branch answers.  For a string this is the answer of [querySelectorAll],
    which the parser must have accepted. *)
Definition transformToArray (st : State) (el : JSValue) : option (list ElemId) :=
  match el with
  | VString s => Some (querySelectorAll (doc st) s)
  | VElement e => if isHTMLElement (info (elems st e)) then Some [e] else None
  | VNodeList l => Some l
  | _ => None
  end.

(** The call of [transformToArray]: [querySelectorAll] throws for a string
    that is no valid selector. *)
Definition transformToArray_call (st : State) (el : JSValue)
  : Result (option (list ElemId)) :=
  match el with
  | VString s =>
      if valid_selector st s then Ok (transformToArray st el) st
      else Throw invalid_selector st
  | _ => Ok (transformToArray st el) st
  end.

Definition getPagePosition (event : PointerEvent) : PagePosition :=
  let touch :=
    match changedTouches event with
    | t :: _ => Some t
    | [] => match touches event with
            | t :: _ => Some t
            | [] => None
            end
    end in
  let touch_x := match touch with Some t => touch_pageX t | None => NaN end in
  let touch_y := match touch with Some t => touch_pageY t | None => NaN end in
  mkPagePosition (num_or touch_x (pageX event)) (num_or touch_y (pageY event)).

Definition within (st : State) (scrollingElement a b : ElemId) : bool :=
  let aBoundingClientRect := getBoundingClientRect st a in
  let bBoundingClientRect := getBoundingClientRect st b in
  let documentScrollTop := scrollTop (elems st scrollingElement) in
  let documentScrollLeft := scrollLeft (elems st scrollingElement) in
  let al := r_left aBoundingClientRect + documentScrollLeft in
  let ar := al + r_width aBoundingClientRect in
  let bl := r_left bBoundingClientRect + documentScrollLeft in
  let br := bl + r_width bBoundingClientRect in
  let a_t := r_top aBoundingClientRect + documentScrollTop in
  let ab := a_t + r_height aBoundingClientRect in
  let bt := r_top bBoundingClientRect + documentScrollTop in
  let bb := bt + r_height bBoundingClientRect in
  negb ((bl >? ar) || (br <? al) || ((bt >? ab) || (bb <? a_t))).

Definition isOverDropZone (st : State) (c : CtrlId) : option ElemId :=
  let dragAction := ctrls st c in
  find (fun dropZone =>
          within st (scrollingElement (doc st)) (_dragElement dragAction) dropZone)
       (_dropZones dragAction).

(** [this._handles && this._handles.length] *)
Definition nonempty (l : option (list ElemId)) : bool :=
  match l with Some (_ :: _) => true | _ => false end.

Definition the_list (l : option (list ElemId)) : list ElemId :=
  match l with Some l => l | None => [] end.

(** ** DragAction: setters

    [set_handle] and [set_dropZone] are the setters run to their end, as
    they run whenever [transformToArray] answers; [set_handle_call] and
    [set_dropZone_call] are the same setters with the failure of that call,
    which leaves them where they were when they made it. *)

Definition accepts (st : State) (value : JSValue) : bool :=
  is_string value || instanceof_HTMLElement st value || is_NodeList value.

Definition set_handle (c : CtrlId) (value : JSValue) (st : State) : State :=
  let dragElement := _dragElement (ctrls st c) in
  (* Set new value *)
  let st := modify_ctrl c (with_handle value) st in
  (* Unbind events *)
  let st := this_vent_off c st in
  (* Remove classes *)
  let st := remove_class (body (doc st)) CLOSE_HAND_CLASS st in
  let st := remove_class dragElement IS_DRAGGING_CLASS st in
  let st :=
    if nonempty (_handles (ctrls st c)) then
      forEach (the_list (_handles (ctrls st c))) (fun handle s =>
        remove_class handle OPEN_HAND_CLASS (vent_off handle s)) st
    else remove_class dragElement OPEN_HAND_CLASS st in
  if accepts st value then
    let st := modify_ctrl c (with_handles (transformToArray st value)) st in
    (* Bind events *)
    if nonempty (_handles (ctrls st c)) then
      forEach (the_list (_handles (ctrls st c))) (fun handle s =>
        add_class handle OPEN_HAND_CLASS (vent_on c handle s)) st
    else
      add_class dragElement OPEN_HAND_CLASS (this_vent_on c st)
  else
    (* Defaults to the dragElement *)
    let st := modify_ctrl c (with_handles (Some [])) st in
    add_class dragElement OPEN_HAND_CLASS (this_vent_on c st).

Definition set_handle_call (c : CtrlId) (value : JSValue) (st : State) : Result unit :=
  let dragElement := _dragElement (ctrls st c) in
  (* Set new value *)
  let st := modify_ctrl c (with_handle value) st in
  (* Unbind events *)
  let st := this_vent_off c st in
  (* Remove classes *)
  let st := remove_class (body (doc st)) CLOSE_HAND_CLASS st in
  let st := remove_class dragElement IS_DRAGGING_CLASS st in
  let st :=
    if nonempty (_handles (ctrls st c)) then
      forEach (the_list (_handles (ctrls st c))) (fun handle s =>
        remove_class handle OPEN_HAND_CLASS (vent_off handle s)) st
    else remove_class dragElement OPEN_HAND_CLASS st in
  if accepts st value then
    bind (transformToArray_call st value) (fun handles st =>
      let st := modify_ctrl c (with_handles handles) st in
      (* Bind events *)
      Ok tt
        (if nonempty (_handles (ctrls st c)) then
           forEach (the_list (_handles (ctrls st c))) (fun handle s =>
             add_class handle OPEN_HAND_CLASS (vent_on c handle s)) st
         else
           add_class dragElement OPEN_HAND_CLASS (this_vent_on c st)))
  else
    (* Defaults to the dragElement *)
    let st := modify_ctrl c (with_handles (Some [])) st in
    Ok tt (add_class dragElement OPEN_HAND_CLASS (this_vent_on c st)).

Definition set_dropZone (c : CtrlId) (value : JSValue) (st : State) : State :=
  (* Set new value *)
  let st := modify_ctrl c (with_dropZone value) st in
  let st := modify_ctrl c (with_dropZoneEntered false) st in
  if accepts st value then
    modify_ctrl c (with_dropZones (the_list (transformToArray st value))) st
  else
    modify_ctrl c (with_dropZones []) st.

Definition set_dropZone_call (c : CtrlId) (value : JSValue) (st : State) : Result unit :=
  (* Set new value *)
  let st := modify_ctrl c (with_dropZone value) st in
  let st := modify_ctrl c (with_dropZoneEntered false) st in
  if accepts st value then
    bind (transformToArray_call st value) (fun dropZones st =>
      Ok tt (modify_ctrl c (with_dropZones (the_list dropZones)) st))
  else
    Ok tt (modify_ctrl c (with_dropZones []) st).

(** [validate.enumeration(axis)(value) && value || axis.FREE] *)
Definition axis_of (value : JSValue) : string :=
  let value := transform_string value in
  if validate_enumeration axis value && negb (String.eqb value "") then value
  else FREE.

Definition set_axis (c : CtrlId) (value : JSValue) (st : State) : State :=
  modify_ctrl c (with_axis (axis_of value)) st.

Definition set_scroll (c : CtrlId) (value : JSValue) (st : State) : State :=
  modify_ctrl c (with_scroll (transform_boolean value)) st.

Definition set_containment (c : CtrlId) (value : JSValue) (st : State) : State :=
  modify_ctrl c (with_containment (transform_boolean value)) st.

(** The calls of the three setters that look nothing up: with the helpers of
    coral-utils as the spec has them, nothing in them can throw. *)
Definition set_axis_call (c : CtrlId) (value : JSValue) (st : State) : Result unit :=
  Ok tt (set_axis c value st).

Definition set_scroll_call (c : CtrlId) (value : JSValue) (st : State) : Result unit :=
  Ok tt (set_scroll c value st).

Definition set_containment_call (c : CtrlId) (value : JSValue) (st : State)
  : Result unit :=
  Ok tt (set_containment c value st).

(** ** DragAction: destroy *)

(** Truthiness of an expando holding a string or [undefined]. *)
Definition truthy_string (o : option string) : bool :=
  match o with
  | Some s => negb (String.eqb s "")
  | None => false
  end.

Definition restore_overflow (e : ElemId) (st : State) : State :=
  let st := write_style_overflow e (_overflow (elems st e)) st in
  modify_elem e (el_with_overflow None) st.

Definition destroy (c : CtrlId) (restorePosition : bool) (st : State) : State :=
  let this := ctrls st c in
  let dragElement := _dragElement this in
  (* Unbind events and remove classes *)
  let st := remove_class (body (doc st)) CLOSE_HAND_CLASS st in
  let st := remove_class dragElement IS_DRAGGING_CLASS st in
  let st :=
    if nonempty (_handles this) then
      forEach (the_list (_handles this)) (fun handle s =>
        remove_class handle OPEN_HAND_CLASS (vent_off handle s)) st
    else remove_class dragElement OPEN_HAND_CLASS (this_vent_off c st) in
  let st := with_events (off (NsDragActionId (_id this)) (events st)) st in
  (* Restore overflow *)
  let st :=
    if truthy_string (_overflow (elems st (body (doc st)))) then
      restore_overflow (body (doc st)) st
    else st in
  (* Container might not have been initialized *)
  let st :=
    match _container this with
    | Some container =>
        if negb (matches_body st container)
           && truthy_string (_overflow (elems st container))
        then restore_overflow container st
        else st
    | None => st
    end in
  (* Set to initial position *)
  let st :=
    if restorePosition then
      let st := write_style_position dragElement
                  (ip_position (_initialPosition this)) st in
      let st := write_style_top dragElement (Some (ip_top (_initialPosition this))) st in
      write_style_left dragElement (Some (ip_left (_initialPosition this))) st
    else st in
  (* Remove reference *)
  set_dragAction dragElement None st.

(** ** DragAction: constructor *)

(** The resolution of the argument to an element; [Ok None] is [el] left
    [null].  [document.querySelector] throws for a string that is no valid
    selector. *)
Definition resolve (dragElement : JSValue) (st : State) : Result (option ElemId) :=
  match dragElement with
  | VElement e =>
      if isHTMLElement (info (elems st e)) then Ok (Some e) st else Ok None st
  | VString selector =>
      if valid_selector st selector then
        match querySelector st selector with
        | Some el => Ok (Some el) st
        | None => Throw (Error "Coral.DragAction: dragElement is null") st
        end
      else Throw invalid_selector st
  | _ => Ok None st
  end.

(** The constructor from [const computedStyle = ...] on, run to its end:
    the new instance [id] on the element [el]. *)
Definition initialise (id : nat) (dragElement : JSValue) (el : ElemId) (st : State) : State :=
  let computedStyle := style (elems st el) in
  let this :=
    mkDragAction id dragElement el
      (* Store initial position *)
      (mkInitialPosition (style_position computedStyle)
                         (style_left computedStyle)
                         (style_top computedStyle))
      (* Prepare Vent *)
      []
      VUndefined None VUndefined false [] None "" false false None
      (mkPagePosition NaN NaN) in
  let st := with_ctrls (upd (ctrls st) id this) st in
  let st := set_handle id (getAttribute (attr_handle (info (elems st el)))) st in
  let st := set_dropZone id (getAttribute (attr_dropzone (info (elems st el)))) st in
  let st := set_axis id (getAttribute (attr_axis (info (elems st el)))) st in
  let st := set_scroll id (VBool (attr_scroll (info (elems st el)))) st in
  let st := set_containment id (VBool (attr_containment (info (elems st el)))) st in
  let ns := NsDragActionId id in
  let st := with_events
              (on "mouseup" ns (H_dragEnd id)
                 (on "touchend" ns (H_dragEnd id)
                    (on "mousemove" ns (H_drag id)
                       (on "touchmove" ns (H_drag id) (events st))))) st in
  (* Store reference on dragElement *)
  set_dragAction el (Some id) st.

(** The instance as the constructor has it before it assigns the options:
    nothing is set but the identity, the drag element and its initial
    position. *)
Definition new_instance (id : nat) (dragElement : JSValue) (el : ElemId) (st : State)
  : DragAction :=
  let computedStyle := style (elems st el) in
  mkDragAction id dragElement el
    (mkInitialPosition (style_position computedStyle)
                       (style_left computedStyle)
                       (style_top computedStyle))
    []
    VUndefined None VUndefined false [] None "" false false None
    (mkPagePosition NaN NaN).

(** The same part of the constructor as it is called: the [handle] and
    [dropZone] setters fail on an attribute that is no valid selector, and
    the constructor with them. *)
Definition initialise_call (id : nat) (dragElement : JSValue) (el : ElemId) (st : State)
  : Result unit :=
  let st := with_ctrls (upd (ctrls st) id (new_instance id dragElement el st)) st in
  bind (set_handle_call id (getAttribute (attr_handle (info (elems st el)))) st)
    (fun _ st =>
  bind (set_dropZone_call id (getAttribute (attr_dropzone (info (elems st el)))) st)
    (fun _ st =>
  let st := set_axis id (getAttribute (attr_axis (info (elems st el)))) st in
  let st := set_scroll id (VBool (attr_scroll (info (elems st el)))) st in
  let st := set_containment id (VBool (attr_containment (info (elems st el)))) st in
  let ns := NsDragActionId id in
  let st := with_events
              (on "mouseup" ns (H_dragEnd id)
                 (on "touchend" ns (H_dragEnd id)
                    (on "mousemove" ns (H_drag id)
                       (on "touchmove" ns (H_drag id) (events st))))) st in
  (* Store reference on dragElement *)
  Ok tt (set_dragAction el (Some id) st))).

(** Destroy instance if existing *)
Definition destroy_existing (el : ElemId) (st : State) : State :=
  match dragAction (elems st el) with
  | Some prior => destroy prior false st
  | None => st
  end.

Definition constructor (dragElement : JSValue) (st : State) : Result CtrlId :=
  if negb (truthy dragElement) then
    Throw (Error "Coral.DragAction: dragElement is missing") st
  else
    bind (resolve dragElement st) (fun el st =>
      (* this._id = commons.getUID(): the next id of the page *)
      let id := uid st in
      let st := with_uid (S (uid st)) st in
      match el with
      | None =>
          Throw (TypeError "Cannot read properties of null (reading 'dragAction')") st
      | Some el =>
          bind (initialise_call id dragElement el (destroy_existing el st))
            (fun _ st => Ok id st)
      end).

(** ** DragAction: _dragStart *)

(** The body of [_dragStart], block by block.  First the container is
    recorded, the ghost image of an [IMG] prevented and the guard against
    touch scrolling installed. *)
Definition start_container (c : CtrlId) (container : ElemId) (event : PointerEvent)
  (st : State) : State :=
  let st := modify_ctrl c (with_container (Some container)) st in
  (* Prevent dragging ghost image *)
  let st := if String.eqb (target_tagName event) "IMG" then preventDefault st else st in
  (* Prevent touchscreen windows to scroll while dragging *)
  with_events (on "touchmove" NsDragAction H_preventDefault (events st)) st.

(** Then overflow is saved and hidden, on the body and on a container that
    is not the body. *)
Definition start_overflow (c : CtrlId) (body container : ElemId) (st : State) : State :=
  let st := save_overflow body st in
  let st := write_style_overflow body (Some "hidden") st in
  if negb (matches_body st container) then
    let st := save_overflow container st in
    write_style_overflow container
      (Some (if _scroll (ctrls st c) then "scroll" else "hidden")) st
  else st.

(** Then the pointer's offset from the drag element's corner is taken, in
    document coordinates. *)
Definition start_offset (c : CtrlId) (dragElement scrollingElement : ElemId)
  (event : PointerEvent) (st : State) : State :=
  let dragElementBoundingClientRect := getBoundingClientRect st dragElement in
  let dragPosition := getPagePosition event in
  let dragPosition :=
    mkPagePosition
      (x dragPosition)
      (nsub (y dragPosition)
            (Num (r_top dragElementBoundingClientRect
                  + scrollTop (elems st scrollingElement)))) in
  let dragPosition :=
    mkPagePosition
      (nsub (x dragPosition)
            (Num (r_left dragElementBoundingClientRect
                  + scrollLeft (elems st scrollingElement))))
      (y dragPosition) in
  modify_ctrl c (with_dragPosition dragPosition) st.

(** Then the classes are set (Handle classes). *)
Definition start_classes (c : CtrlId) (body dragElement : ElemId) (st : State) : State :=
  let st := add_class body CLOSE_HAND_CLASS st in
  let st :=
    if nonempty (_handles (ctrls st c)) then
      forEach (the_list (_handles (ctrls st c))) (fun handle s =>
        remove_class handle OPEN_HAND_CLASS s) st
    else remove_class dragElement OPEN_HAND_CLASS st in
  add_class dragElement IS_DRAGGING_CLASS st.

(** Last a static element is made relative (Apply relative position by
    default). *)
Definition start_relative (dragElement : ElemId) (st : State) : State :=
  if String.eqb (style_position (style (elems st dragElement))) "static"
  then write_style_position dragElement "relative" st
  else st.

(** [_dragStart] is the handler from the point where [getViewContainer]
    has answered; [_dragStart_call] below is the handler with the failure
    of that call, its first. *)
Definition _dragStart (c : CtrlId) (event : PointerEvent) (st : State) : State :=
  let dragElement := _dragElement (ctrls st c) in
  let body := body (doc st) in
  let scrollingElement := scrollingElement (doc st) in
  (* Container *)
  let container :=
    match getViewContainer st dragElement with
    | Some p => p
    | None => body
    end in
  let st := start_container c container event st in
  let st := start_overflow c body container st in
  let pagePosition := getPagePosition event in
  let st := start_offset c dragElement scrollingElement event st in
  let st := start_classes c body dragElement st in
  let st := start_relative dragElement st in
  dispatch (mkNotification dragstart dragElement (x pagePosition) (y pagePosition) None) st.

Definition _dragStart_call (c : CtrlId) (event : PointerEvent) (st : State)
  : Result unit :=
  bind (getViewContainer_call st (_dragElement (ctrls st c)))
    (fun _ st => Ok tt (_dragStart c event st)).

(** ** DragAction: _drag *)

(** What [_drag] reads before it writes anything. *)
Record Measurement : Type := mkMeasurement {
  pagePosition : PagePosition;
  documentScrollTop : Z;
  documentScrollLeft : Z;
  dragElementBoundingClientRect : Rect;
  dragElementPosition_top : Z;
  dragElementPosition_left : Z;
  dragElementCSSPosition_top : num;
  dragElementCSSPosition_left : num;
  containerBoundingClientRect : Rect;
  containerPosition_top : Z;
  containerPosition_left : Z
}.

Definition dragElementHeight (m : Measurement) : Z := r_height (dragElementBoundingClientRect m).
Definition dragElementWidth (m : Measurement) : Z := r_width (dragElementBoundingClientRect m).
Definition containerWidth (m : Measurement) : Z := r_width (containerBoundingClientRect m).
Definition containerHeight (m : Measurement) : Z := r_height (containerBoundingClientRect m).

Definition measure (c : CtrlId) (container : ElemId) (event : PointerEvent) (st : State)
  : Measurement :=
  let dragElement := _dragElement (ctrls st c) in
  let scrollingElement := scrollingElement (doc st) in
  let documentScrollTop := scrollTop (elems st scrollingElement) in
  let documentScrollLeft := scrollLeft (elems st scrollingElement) in
  let dragElementBoundingClientRect := getBoundingClientRect st dragElement in
  let dragElementComputedStyle := style (elems st dragElement) in
  let containerBoundingClientRect := getBoundingClientRect st container in
  mkMeasurement
    (getPagePosition event)
    documentScrollTop
    documentScrollLeft
    dragElementBoundingClientRect
    (r_top dragElementBoundingClientRect + documentScrollTop)
    (r_left dragElementBoundingClientRect + documentScrollLeft)
    (num_or (parseFloat (style_top dragElementComputedStyle)) (Num 0))
    (num_or (parseFloat (style_left dragElementComputedStyle)) (Num 0))
    containerBoundingClientRect
    (r_top containerBoundingClientRect + documentScrollTop)
    (r_left containerBoundingClientRect + documentScrollLeft).

(** Need to scroll ? *)
Definition drag_scroll (c : CtrlId) (container : ElemId) (m : Measurement) (st : State)
  : State :=
  let scrollingElement := scrollingElement (doc st) in
  let dragRect := dragElementBoundingClientRect m in
  let containerRect := containerBoundingClientRect m in
  if _scroll (ctrls st c) then
    (* Scroll element is the document *)
    if Nat.eqb container (body (doc st)) then
      let st :=
        (* Scroll to the top *)
        if r_top dragRect <? DEFAULT_SCROLL_OFFSET then
          write_scrollTop scrollingElement (documentScrollTop m - DEFAULT_SCROLL_BY) st
        (* Scroll to the bottom but don't go further than the maximum scroll
           position of the document *)
        else if (r_top dragRect + r_height dragRect
                   >? innerHeight (doc st) - DEFAULT_SCROLL_OFFSET)
                && (dragElementPosition_top m + r_height dragRect + DEFAULT_SCROLL_OFFSET
                      <? scrollHeight (info (elems st scrollingElement))) then
          write_scrollTop scrollingElement (documentScrollTop m + DEFAULT_SCROLL_BY) st
        else st in
      (* Scroll to the left *)
      if r_left dragRect <? DEFAULT_SCROLL_OFFSET then
        write_scrollLeft scrollingElement (documentScrollLeft m - DEFAULT_SCROLL_BY) st
      (* Scroll to the right but don't go further than the maximum scroll
         position of the document *)
      else if (r_left dragRect + r_width dragRect
                 >? innerWidth (doc st) - DEFAULT_SCROLL_OFFSET)
              && (dragElementPosition_left m + r_width dragRect + DEFAULT_SCROLL_OFFSET
                    <? scrollWidth (info (elems st scrollingElement))) then
        write_scrollLeft scrollingElement (documentScrollLeft m + DEFAULT_SCROLL_BY) st
      else st
    (* Scroll element is an element other than the document *)
    else
      let st :=
        (* Scroll to the top *)
        if r_top dragRect - r_top containerRect <? DEFAULT_SCROLL_OFFSET then
          write_scrollTop container
            (scrollTop (elems st container) - DEFAULT_SCROLL_BY) st
        (* Scroll to the bottom but don't go further than the maximum scroll
           position of the container *)
        else if (r_top dragRect - r_top containerRect + r_height dragRect
                   >? r_height containerRect - DEFAULT_SCROLL_OFFSET)
                && (r_top dragRect - r_top containerRect + r_height dragRect
                      <? r_height containerRect) then
          write_scrollTop container
            (scrollTop (elems st container) + DEFAULT_SCROLL_BY) st
        else st in
      (* Scroll to the left *)
      if r_left dragRect - r_left containerRect <? DEFAULT_SCROLL_OFFSET then
        write_scrollLeft container
          (scrollLeft (elems st container) - DEFAULT_SCROLL_BY) st
      (* Scroll to the bottom but don't go further than the maximum scroll
         position of the container *)
      else if (r_left dragRect - r_left containerRect + r_width dragRect
                 >? r_width containerRect - DEFAULT_SCROLL_OFFSET)
              && (r_left dragRect - r_left containerRect + r_width dragRect
                    <? r_width containerRect) then
        write_scrollLeft container
          (scrollLeft (elems st container) + DEFAULT_SCROLL_BY) st
      else st
  else st.

(** Applying container containment: the three branches the code writes out
    once for [top] and once for [left].  [NaN] is the component of
    [newPosition] left unassigned when no branch fires. *)
Definition contain (candidate pointer : num) (containerStart containerSize size : Z) : num :=
  if nge candidate (Num containerStart)
     && nle (nadd candidate (Num size)) (Num (containerStart + containerSize))
  then candidate
  (* put the drag element to the container's top (left) *)
  else if nle pointer (Num containerStart) then Num containerStart
  (* put the drag element to the container's bottom (right) *)
  else if nge pointer (Num (containerStart + containerSize))
  then Num (containerStart + containerSize - size)
  else NaN.

Definition newPosition_top (this : DragAction) (m : Measurement) : num :=
  if negb (String.eqb (_axis this) "horizontal") then
    let top := nsub (y (pagePosition m)) (y (_dragPosition this)) in
    (* Applying container containment for y movements *)
    if _containment this then
      contain top (y (pagePosition m))
        (containerPosition_top m) (containerHeight m) (dragElementHeight m)
    else top
  else NaN.

Definition newPosition_left (this : DragAction) (m : Measurement) : num :=
  if negb (String.eqb (_axis this) "vertical") then
    let left := nsub (x (pagePosition m)) (x (_dragPosition this)) in
    (* Applying container containment for x movements *)
    if _containment this then
      contain left (x (pagePosition m))
        (containerPosition_left m) (containerWidth m) (dragElementWidth m)
    else left
  else NaN.

(** Set the new position *)
Definition drag_position (c : CtrlId) (m : Measurement) (st : State) : State :=
  let this := ctrls st c in
  let st := write_style_top (_dragElement this)
              (px (nadd (nsub (newPosition_top this m) (Num (dragElementPosition_top m)))
                        (dragElementCSSPosition_top m))) st in
  write_style_left (_dragElement this)
    (px (nadd (nsub (newPosition_left this m) (Num (dragElementPosition_left m)))
              (dragElementCSSPosition_left m))) st.

(** Trigger dropzone related events *)
Definition drag_dropzone (c : CtrlId) (pagePosition : PagePosition) (st : State) : State :=
  let dragElement := _dragElement (ctrls st c) in
  match isOverDropZone st c with
  | Some dropZone =>
      let st := modify_ctrl c (with_dropElement (Some dropZone)) st in
      let st :=
        if negb (_dropZoneEntered (ctrls st c)) then
          let st := modify_ctrl c (with_dropZoneEntered true) st in
          dispatch (mkNotification dragenter dragElement
                      (x pagePosition) (y pagePosition)
                      (_dropElement (ctrls st c))) st
        else st in
      dispatch (mkNotification dragover dragElement
                  (x pagePosition) (y pagePosition)
                  (_dropElement (ctrls st c))) st
  | None =>
      if _dropZoneEntered (ctrls st c) then
        let st := dispatch (mkNotification dragleave dragElement
                              (x pagePosition) (y pagePosition)
                              (_dropElement (ctrls st c))) st in
        modify_ctrl c (with_dropZoneEntered false) st
      else st
  end.

Definition drag_body (c : CtrlId) (container : ElemId) (event : PointerEvent) (st : State)
  : State :=
  let m := measure c container event st in
  let st := dispatch (mkNotification drag (_dragElement (ctrls st c))
                        (x (pagePosition m)) (y (pagePosition m)) None) st in
  (* Remove selection *)
  let st := removeAllRanges st in
  let st := drag_scroll c container m st in
  let st := drag_position c m st in
  drag_dropzone c (pagePosition m) st.

Definition is_dragging (st : State) (c : CtrlId) : bool :=
  has_class st (_dragElement (ctrls st c)) IS_DRAGGING_CLASS.

Definition no_container : JSError :=
  TypeError "Cannot read properties of undefined".

Definition _drag (c : CtrlId) (event : PointerEvent) (st : State) : Result unit :=
  if is_dragging st c then
    match _container (ctrls st c) with
    | Some container => Ok tt (drag_body c container event st)
    | None => Throw no_container st
    end
  else Ok tt st.

(** ** DragAction: _dragEnd *)

(** The blocks of [_dragEnd] after the overflow is restored: the classes
    go back to what they were before the session ... *)
Definition end_classes (c : CtrlId) (body dragElement : ElemId) (st : State) : State :=
  let st := remove_class body CLOSE_HAND_CLASS st in
  let st := remove_class dragElement IS_DRAGGING_CLASS st in
  if nonempty (_handles (ctrls st c)) then
    forEach (the_list (_handles (ctrls st c))) (fun handle s =>
      add_class handle OPEN_HAND_CLASS s) st
  else add_class dragElement OPEN_HAND_CLASS st.

(** ... and, if a zone is entered and one is found under the drag element,
    the drop is notified. *)
Definition end_drop (c : CtrlId) (dragElement : ElemId) (pagePosition : PagePosition)
  (st : State) : State :=
  if _dropZoneEntered (ctrls st c) then
    match isOverDropZone st c with
    | Some dropZone =>
        let st := modify_ctrl c (with_dropElement (Some dropZone)) st in
        dispatch (mkNotification drop dragElement
                    (x pagePosition) (y pagePosition)
                    (_dropElement (ctrls st c))) st
    | None => st
    end
  else st.

Definition dragEnd_finish (c : CtrlId) (pagePosition : PagePosition) (st : State) : State :=
  let dragElement := _dragElement (ctrls st c) in
  let st := end_classes c (body (doc st)) dragElement st in
  let st := end_drop c dragElement pagePosition st in
  dispatch (mkNotification dragend dragElement
              (x pagePosition) (y pagePosition) None) st.

Definition _dragEnd (c : CtrlId) (event : PointerEvent) (st : State) : Result unit :=
  if is_dragging st c then
    let pagePosition := getPagePosition event in
    (* Restore overflow *)
    let st := restore_overflow (body (doc st)) st in
    match _container (ctrls st c) with
    | Some container =>
        let st :=
          if negb (matches_body st container) then restore_overflow container st
          else st in
        Ok tt (dragEnd_finish c pagePosition st)
    | None => Throw no_container st
    end
  else Ok tt st.

(** ** Sessions *)

(** The moves of a session, in delivery order. *)
Fixpoint drag_moves (c : CtrlId) (moves : list PointerEvent) (st : State) : Result unit :=
  match moves with
  | [] => Ok tt st
  | event :: rest => bind (_drag c event st) (fun _ st => drag_moves c rest st)
  end.

(** A session: pointer down on a handle, moves, pointer up. *)
Definition session (c : CtrlId) (down : PointerEvent) (moves : list PointerEvent)
  (up : PointerEvent) (st : State) : Result unit :=
  bind (drag_moves c moves (_dragStart c down st)) (fun _ st => _dragEnd c up st).

(** ** DragAction: getters *)

Definition get_dragElement (st : State) (c : CtrlId) : JSValue :=
  _dragElementValue (ctrls st c).



Definition get_axis (st : State) (c : CtrlId) : string := _axis (ctrls st c).

Definition get_scroll (st : State) (c : CtrlId) : bool := _scroll (ctrls st c).

Definition get_containment (st : State) (c : CtrlId) : bool := _containment (ctrls st c).

(** ** DragAction: the methods block by block

    The handle setter, [destroy] and the constructor once more, cut at the
    points where the properties below look at the state in between; each is
    shown equal to the method it is cut from ([set_handle_steps],
    [destroy_steps], [initialise_steps]). *)

(** The state in which the handle setter looks the new handles up: the old
    ones are unbound and have lost the open hand. *)
Definition set_handle_unbound (c : CtrlId) (value : JSValue) (st : State) : State :=
  let dragElement := _dragElement (ctrls st c) in
  let st := modify_ctrl c (with_handle value) st in
  let st := this_vent_off c st in
  let st := remove_class (body (doc st)) CLOSE_HAND_CLASS st in
  let st := remove_class dragElement IS_DRAGGING_CLASS st in
  if nonempty (_handles (ctrls st c)) then
    forEach (the_list (_handles (ctrls st c))) (fun handle s =>
      remove_class handle OPEN_HAND_CLASS (vent_off handle s)) st
  else remove_class dragElement OPEN_HAND_CLASS st.

(** The state in which the dropZone setter looks the new zones up: the
    value is stored and the zone no longer entered. *)
Definition set_dropZone_stored (c : CtrlId) (value : JSValue) (st : State) : State :=
  let st := modify_ctrl c (with_dropZone value) st in
  modify_ctrl c (with_dropZoneEntered false) st.

(** The blocks of [destroy]: the listeners of the pointer-down are unbound
    and the classes removed ... *)
Definition destroy_unbound (c : CtrlId) (st : State) : State :=
  let this := ctrls st c in
  let dragElement := _dragElement this in
  let st := remove_class (body (doc st)) CLOSE_HAND_CLASS st in
  let st := remove_class dragElement IS_DRAGGING_CLASS st in
  if nonempty (_handles this) then
    forEach (the_list (_handles this)) (fun handle s =>
      remove_class handle OPEN_HAND_CLASS (vent_off handle s)) st
  else remove_class dragElement OPEN_HAND_CLASS (this_vent_off c st).

(** ... the window listeners of the instance removed and the overflow a
    session has saved restored ... *)
Definition destroy_overflow (this : DragAction) (st : State) : State :=
  let st := with_events (off (NsDragActionId (_id this)) (events st)) st in
  let st :=
    if truthy_string (_overflow (elems st (body (doc st)))) then
      restore_overflow (body (doc st)) st
    else st in
  match _container this with
  | Some container =>
      if negb (matches_body st container)
         && truthy_string (_overflow (elems st container))
      then restore_overflow container st
      else st
  | None => st
  end.

(** ... the initial position set again if asked for, and the reference on
    the drag element removed. *)
Definition destroy_position (this : DragAction) (restorePosition : bool) (st : State)
  : State :=
  let dragElement := _dragElement this in
  let st :=
    if restorePosition then
      let st := write_style_position dragElement
                  (ip_position (_initialPosition this)) st in
      let st := write_style_top dragElement (Some (ip_top (_initialPosition this))) st in
      write_style_left dragElement (Some (ip_left (_initialPosition this))) st
    else st in
  set_dragAction dragElement None st.

(** The state of the constructor once the new instance exists and its handle
    is assigned. *)
Definition initialised_handle (id : nat) (dragElement : JSValue) (el : ElemId)
  (st : State) : State :=
  let st := with_ctrls (upd (ctrls st) id (new_instance id dragElement el st)) st in
  set_handle id (getAttribute (attr_handle (info (elems st el)))) st.

(** ** AnchorButtonLabel

    The label element of an anchor button
    ([src/coral-component-anchorbutton/src/scripts/AnchorButtonLabel.js]). *)

Definition CLASSNAME : string := "_coral-Button-label".

Definition connectedCallback (this : ElemId) (st : State) : State :=
  add_class this CLASSNAME st.


(** ** A page to evaluate the controller on

    [html] (the scrolling element, window 1000 x 800) holds [body]; [body]
    holds a scrollable [panel] (300 x 200 at (100, 100)) and a drop [zone]
    (100 x 100 at (400, 400)); the [card] lives in the panel at (110, 110).
    The card's size and attributes are left to the example.  Every element
    is in the document; the selector parser does not read a lone [#]; one
    range of text is selected. *)

Definition html : ElemId := 0%nat.
Definition page_body : ElemId := 1%nat.
Definition panel : ElemId := 2%nat.
Definition card : ElemId := 3%nat.
Definition zone : ElemId := 4%nat.

Definition plain_style : Style :=
  mkStyle "static" Auto Auto "visible" "visible" "visible".

Definition box (tag : string) (left top w h sw sh : Z) : ElemInfo :=
  mkElemInfo tag true None None None false false top left w h sh sw.

Definition element_of (i : ElemInfo) (s : Style) : Element :=
  mkElement i [] s 0 0 None None [].

Definition card_info (w h : Z) (dropzone axis_attr : option string)
  (scroll_attr containment_attr : bool) : ElemInfo :=
  mkElemInfo "DIV" true None dropzone axis_attr scroll_attr containment_attr
    110 110 w h h w.

Definition page_document : Document :=
  mkDocument page_body html 1000 800
    (fun e => match e with
              | 1%nat => [html]
              | 2%nat | 4%nat => [page_body; html]
              | 3%nat => [panel; page_body; html]
              | _ => []
              end)
    (fun _ => true)
    (fun selector => negb (String.eqb selector "#"))
    (fun selector =>
       if String.eqb selector "#card" then [card]
       else if String.eqb selector ".zone" then [zone]
       else if String.eqb selector "#zone" then [zone]
       else [])
    33554432.

Definition no_controller : DragAction :=
  mkDragAction 0 VUndefined 0%nat (mkInitialPosition "" Auto Auto) []
    VUndefined None VUndefined false [] None "" false false None
    (mkPagePosition NaN NaN).

Definition page (the_card : ElemInfo) : State :=
  mkState page_document
    (fun e => match e with
              | 0%nat => element_of (box "HTML" 0 0 1000 800 1000 2000) plain_style
              | 1%nat => element_of (box "BODY" 0 0 1000 2000 1000 2000) plain_style
              | 2%nat => element_of (box "DIV" 100 100 300 200 300 600)
                           (mkStyle "static" Auto Auto "auto" "auto" "auto")
              | 3%nat => element_of the_card plain_style
              | _ => element_of (box "DIV" 400 400 100 100 100 100) plain_style
              end)
    (fun _ => no_controller)
    1%nat [] [] 0%nat 1%nat.

Definition mouse (px py : Z) : PointerEvent :=
  mkPointerEvent [] [] (Num px) (Num py) "DIV".

Definition state_of {A : Type} (r : Result A) : State :=
  match r with Ok _ st => st | Throw _ st => st end.

(** The controller built on the card from its selector, and its first session
    under way after a press at the given point. *)
Definition built (the_card : ElemInfo) : State :=
  state_of (constructor (VString "#card") (page the_card)).

Definition pressed (the_card : ElemInfo) (px py : Z) : State :=
  _dragStart 1%nat (mouse px py) (built the_card).

Definition moved (px py : Z) (st : State) : State :=
  state_of (_drag 1%nat (mouse px py) st).

Definition released (px py : Z) (st : State) : State :=
  state_of (_dragEnd 1%nat (mouse px py) st).

(** A free 50 x 50 card that knows the zone, and the same over the zone. *)
Definition free_card : ElemInfo := card_info 50 50 (Some ".zone") None false false.

Definition over_zone : State := moved 450 450 (pressed free_card 120 120).

(** Cards confined to one axis. *)
Definition horizontal_card : ElemInfo :=
  card_info 50 50 (Some ".zone") (Some "horizontal") false false.

Definition vertical_card : ElemInfo :=
  card_info 50 50 (Some ".zone") (Some "vertical") false false.

(** The card dropped on the zone, and its next session begun where it lies. *)
Definition dropped : State := released 450 450 over_zone.

Definition pressed_again : State := _dragStart 1%nat (mouse 460 460) dropped.

(** A second controller, on the zone, drags the zone away from under the
    dropped card; the card is then pressed and released without a move. *)
Definition zone_built : State := state_of (constructor (VString "#zone") dropped).

Definition zone_away : State :=
  state_of (_dragEnd 2%nat (mouse 810 110)
    (state_of (_drag 2%nat (mouse 810 110)
      (_dragStart 2%nat (mouse 410 410) zone_built)))).

Definition card_pressed : State := _dragStart 1%nat (mouse 460 460) zone_away.

(** A card that scrolls its container and is confined to it, pushed past
    the bottom edge of the panel: it lies flush with that edge. *)
Definition confined_scroll_card : ElemInfo :=
  card_info 50 50 (Some ".zone") None true true.

Definition flush_bottom : State := moved 250 400 (pressed confined_scroll_card 120 120).

(** A card that scrolls its container, brought near the bottom edge of the
    panel (its bottom 15px above the edge). *)
Definition scroll_card : ElemInfo := card_info 50 50 (Some ".zone") None true false.

Definition near_bottom : State := moved 250 245 (pressed scroll_card 120 120).

(** Confined cards: one that fits the panel, one wider than the panel. *)
Definition confined_card : ElemInfo := card_info 50 50 (Some ".zone") None false true.

Definition wide_card : ElemInfo := card_info 400 50 (Some ".zone") None false true.

(** The confined, scrolling card near the bottom edge of the panel. *)
Definition near_bottom_confined : State :=
  moved 250 245 (pressed confined_scroll_card 120 120).

(** The free card dropped on the zone, outside the panel, then confined by
    the [containment] setter and pressed again. *)
Definition pressed_outside : State :=
  _dragStart 1%nat (mouse 460 460) (set_containment 1%nat (VBool true) dropped).

(** The free card carried fully inside the zone, and dropped there. *)
Definition in_zone : State := moved 435 435 (pressed free_card 120 120).

(** A free card swept over the zone and out again, twice. *)
Definition sweep : list PointerEvent :=
  [mouse 300 300; mouse 420 420; mouse 450 450; mouse 700 450; mouse 460 460;
   mouse 470 470; mouse 120 120].

(** Two controllers that share a handle: the first on the card, the second
    on the zone, both taking the pointer-down on the card. *)
Definition shared_handle : State :=
  set_handle 1%nat (VString "#card")
    (set_handle 2%nat (VString "#card")
       (state_of (constructor (VString "#zone") (built free_card)))).


(** A card whose handle attribute is empty. *)
Definition unhandled_card : ElemInfo :=
  mkElemInfo "DIV" true (Some "") (Some ".zone") None false false 110 110 50 50 50 50.

Definition moved_by (c : CtrlId) (px py : Z) (st : State) : State :=
  state_of (_drag c (mouse px py) st).

(** A second controller, on the zone, with scroll-on-drag: the zone's
    container is the body.  The zone is dragged until it lies flush with the
    bottom of the window. *)
Definition zone_flush : State :=
  moved_by 2%nat 410 710
    (_dragStart 2%nat (mouse 410 410)
       (set_scroll 2%nat (VBool true)
          (state_of (constructor (VString "#zone") (built free_card))))).

(** ** Vocabulary of the properties *)

(** Bounds of an element in document coordinates, as [_drag] and [within]
    compute them: the client rectangle shifted by the document's scroll. *)
Definition bounds (st : State) (e : ElemId) : Rect :=
  let r := getBoundingClientRect st e in
  let s := elems st (scrollingElement (doc st)) in
  mkRect (r_left r + scrollLeft s) (r_top r + scrollTop s) (r_width r) (r_height r).

Definition covers (r : Rect) (px py : Z) : Prop :=
  r_left r <= px <= r_left r + r_width r /\ r_top r <= py <= r_top r + r_height r.

(** The closed rectangles of [a] and [b] share a point. *)
Definition intersects (st : State) (a b : ElemId) : Prop :=
  exists px py, covers (bounds st a) px py /\ covers (bounds st b) px py.

(** Boxes have non-negative sizes. *)
Definition well_sized (st : State) : Prop :=
  forall e, 0 <= width (info (elems st e)) /\ 0 <= height (info (elems st e)).

Definition raises {A : Type} (r : Result A) : Prop :=
  exists e st, r = Throw e st.

(** The failure the constructor documents: one of its two [Error]s. *)
Definition raises_documented {A : Type} (r : Result A) : Prop :=
  exists message st, r = Throw (Error message) st.

(** No target is supplied: the argument is falsy. *)
Definition missing (dragElement : JSValue) : Prop := truthy dragElement = false.

(** A selector string that resolves to no element. *)
Definition unresolved (st : State) (dragElement : JSValue) : Prop :=
  exists selector,
    dragElement = VString selector
    /\ valid_selector st selector = true
    /\ querySelector st selector = None.

(** The value is a string that is no valid selector. *)
Definition selector_fails (st : State) (value : JSValue) : bool :=
  match value with
  | VString selector => negb (valid_selector st selector)
  | _ => false
  end.

(** A selector that takes part in the construction does not parse: the
    selector argument itself, or the handle or dropzone attribute of the
    element the argument resolves to. *)
Definition malformed (st : State) (dragElement : JSValue) : Prop :=
  selector_fails st dragElement = true
  \/ exists el,
       resolve dragElement st = Ok (Some el) st
       /\ (selector_fails st (getAttribute (attr_handle (info (elems st el)))) = true
           \/ selector_fails st (getAttribute (attr_dropzone (info (elems st el))))
              = true).

(** The failure of the selector parser. *)
Definition raises_syntax {A : Type} (r : Result A) : Prop :=
  exists message st, r = Throw (SyntaxError message) st.

(** An argument of the documented type [String|HTMLElement], or none. *)
Definition documented_argument (st : State) (dragElement : JSValue) : Prop :=
  truthy dragElement = false
  \/ is_string dragElement = true
  \/ instanceof_HTMLElement st dragElement = true.

Definition is_some {A : Type} (o : option A) : bool :=
  match o with Some _ => true | None => false end.

(** The notifications dispatched between two states of a run. *)
Definition emitted (st st' : State) : list Notification :=
  skipn (List.length (dispatched st)) (dispatched st').

Definition is_zone_event (t : EventType) : bool :=
  match t with
  | dragenter | dragover | dragleave => true
  | _ => false
  end.

(** The drop-zone notifications among them, by type. *)
Definition zone_events (st st' : State) : list EventType :=
  filter is_zone_event (map n_type (emitted st st')).

(** What one move owes the zones, in the words of the spec: a zone newly
    intersected gives drag-enter then drag-over, a zone still intersected
    drag-over alone, a zone no longer intersected drag-leave. *)
Definition zone_notifications (entered over : bool) : list EventType :=
  match over, entered with
  | true, false => [dragenter; dragover]
  | true, true => [dragover]
  | false, true => [dragleave]
  | false, false => []
  end.

Fixpoint zone_trace (entered : bool) (overs : list bool) : list EventType :=
  match overs with
  | [] => []
  | over :: rest => zone_notifications entered over ++ zone_trace over rest
  end.

(** Whether some zone intersects the drag element after each move of a run. *)
Fixpoint observations (c : CtrlId) (moves : list PointerEvent) (st : State) : list bool :=
  match moves with
  | [] => []
  | event :: rest =>
      let st' := state_of (_drag c event st) in
      is_some (isOverDropZone st' c) :: observations c rest st'
  end.

(** The overlap intervals that begin, and those that end, in a run of
    observations that starts [entered]. *)
Fixpoint beginnings (entered : bool) (overs : list bool) : nat :=
  match overs with
  | [] => 0%nat
  | over :: rest =>
      ((if over && negb entered then 1 else 0) + beginnings over rest)%nat
  end.

Fixpoint endings (entered : bool) (overs : list bool) : nat :=
  match overs with
  | [] => 0%nat
  | over :: rest =>
      ((if negb over && entered then 1 else 0) + endings over rest)%nat
  end.

Definition count (t : EventType) (l : list EventType) : nat :=
  List.length (filter (EventType_eqb t) l).

(** Enter and leave alternate: no enter while entered, no leave while not. *)
Fixpoint alternates (entered : bool) (l : list EventType) : bool :=
  match l with
  | [] => true
  | dragenter :: rest => negb entered && alternates true rest
  | dragleave :: rest => entered && alternates false rest
  | _ :: rest => alternates entered rest
  end.

(** The container a session resolves at its start. *)
Definition container_of (st : State) (c : CtrlId) : ElemId :=
  match getViewContainer st (_dragElement (ctrls st c)) with
  | Some p => p
  | None => body (doc st)
  end.

(** Two states lay the page out alike: same document, and for every element
    the same box, offsets and scroll position. *)
Definition same_layout (st st' : State) : Prop :=
  doc st' = doc st
  /\ forall i,
       info (elems st' i) = info (elems st i)
       /\ style_top (style (elems st' i)) = style_top (style (elems st i))
       /\ style_left (style (elems st' i)) = style_left (style (elems st i))
       /\ scrollTop (elems st' i) = scrollTop (elems st i)
       /\ scrollLeft (elems st' i) = scrollLeft (elems st i).

(** The scroll offset a move leaves: moved back by the step when the drag
    element is near the start edge, else forward by the step when it is near
    the end edge, clamped by the host; else as it was. *)
Definition nudge (near_start near_end : bool) (current maximum : Z) : Z :=
  if near_start then clamp 0 maximum (current - DEFAULT_SCROLL_BY)
  else if near_end then clamp 0 maximum (current + DEFAULT_SCROLL_BY)
  else current.

(** The state a move measures and scrolls in: the drag notification is out
    and the selection is removed. *)
Definition moving (c : CtrlId) (k : ElemId) (event : PointerEvent) (st : State) : State :=
  removeAllRanges
    (dispatch (mkNotification drag (_dragElement (ctrls st c))
                 (x (getPagePosition event)) (y (getPagePosition event)) None) st).


(** The bounds of [e] lie within the bounds of [k]. *)
Definition inside (st : State) (e k : ElemId) : Prop :=
  let r := bounds st e in
  let kr := bounds st k in
  r_left kr <= r_left r
  /\ r_left r + r_width r <= r_left kr + r_width kr
  /\ r_top kr <= r_top r
  /\ r_top r + r_height r <= r_top kr + r_height kr.

(** [e] is no larger than [k]. *)
Definition fits (st : State) (e k : ElemId) : Prop :=
  width (info (elems st e)) <= width (info (elems st k))
  /\ height (info (elems st e)) <= height (info (elems st k)).

(** At [t] an extent stays within the container's [start .. start + size]. *)
Definition keeps_inside (t start size extent : Z) : Prop :=
  start <= t /\ t + extent <= start + size.

(** Where containment puts the drag element on one axis, [before] being
    where it was: at the candidate position when that keeps it inside; if
    not, at the start edge when the pointer is at or before that edge, with
    its end at the end edge when the pointer is at or past that one, and
    where it was while the pointer is strictly between the edges. *)
Definition placed (candidate pointer : num) (start size extent before after : Z) : Prop :=
  (forall t, candidate = Num t -> keeps_inside t start size extent -> after = t)
  /\ ((forall t, candidate = Num t -> ~ keeps_inside t start size extent) ->
      (forall p, pointer = Num p -> p <= start -> after = start)
      /\ (forall p, pointer = Num p -> start < p -> start + size <= p ->
                    after = start + size - extent)
      /\ (forall p, pointer = Num p -> start < p < start + size -> after = before)
      /\ (pointer = NaN -> after = before)).

(** A component of [newPosition], read as a position: an unassigned one
    leaves the element where it was. *)
Definition position_or (n : num) (before : Z) : Z :=
  match n with Num t => t | NaN => before end.

(** ** Vocabulary of the further properties *)

(** The computed overflow of [p] clips on both axes: it is [hidden], [auto]
    or [scroll], and the same for x and for y. *)
Definition clips (st : State) (p : ElemId) : Prop :=
  let s := style (elems st p) in
  (style_overflow s = "hidden" \/ style_overflow s = "auto"
   \/ style_overflow s = "scroll")
  /\ style_overflowX s = style_overflow s
  /\ style_overflowY s = style_overflow s.

(** What stops the search for a view container: the body, or a clipping box. *)
Definition view_container (st : State) (p : ElemId) : Prop :=
  matches_body st p = true \/ clips st p.

Definition mem (e : ElemId) (l : list ElemId) : bool := existsb (Nat.eqb e) l.

(** The elements a controller takes the pointer-down on: its handles, or
    the drag element when it has none. *)
Definition grips (this : DragAction) : list ElemId :=
  if nonempty (_handles this) then the_list (_handles this) else [_dragElement this].

(** The elements a value designates for the [handle] and [dropZone] setters:
    the matches of a selector in document order, an [HTMLElement] itself, the
    elements of a node list; none for any other value. *)
Definition designated (st : State) (value : JSValue) : list ElemId :=
  match value with
  | VString selector => querySelectorAll (doc st) selector
  | VElement e => if isHTMLElement (info (elems st e)) then [e] else []
  | VNodeList l => l
  | _ => []
  end.

(** The element a move may scroll: the document's scrolling element when the
    container is the body, the container otherwise. *)
Definition scroller (st : State) (k : ElemId) : ElemId :=
  if Nat.eqb k (body (doc st)) then scrollingElement (doc st) else k.

(** The guard against touch scrolling that a press installs on the window. *)
Definition is_guard (l : Listener) : bool :=
  String.eqb (l_type l) "touchmove"
  && ns_eqb (l_ns l) NsDragAction
  && match l_handler l with H_preventDefault => true | _ => false end.

Definition guards (st : State) : nat := List.length (filter is_guard (events st)).


(** The bounds of [e] are those the browser lays it out with: a box that is
    static has no declared offsets. *)
Definition laid_out (st : State) (e : ElemId) : Prop :=
  style_position (style (elems st e)) = "static" ->
  style_top (style (elems st e)) = Auto /\ style_left (style (elems st e)) = Auto.

(** The lengths a move of [e] to the document position [(left, top)] deals
    in are lengths the engine holds: the position it takes the element to,
    and the offsets it writes to take it there. *)
Definition reachable (st : State) (e : ElemId) (left top : Z) : Prop :=
  held st left
  /\ held st top
  /\ held st (left - r_left (bounds st e)
              + used_offset (style_left (style (elems st e))))
  /\ held st (top - r_top (bounds st e)
              + used_offset (style_top (style (elems st e)))).

(** The same for a pointer event of a session begun by [down] on [e] as it
    lay in [st]: the element follows the pointer's displacement, where the
    displacement is a number. *)
Definition follows (st : State) (e : ElemId) (down event : PointerEvent) : Prop :=
  (forall p q,
     x (getPagePosition down) = Num p -> x (getPagePosition event) = Num q ->
     held st (r_left (bounds st e) + (q - p))
     /\ held st (used_offset (style_left (style (elems st e))) + (q - p)))
  /\ (forall p q,
        y (getPagePosition down) = Num p -> y (getPagePosition event) = Num q ->
        held st (r_top (bounds st e) + (q - p))
        /\ held st (used_offset (style_top (style (elems st e))) + (q - p))).

(** * Properties *)

(** ** Stores and frames *)

Lemma upd_same {A : Type} (f : nat -> A) (k : nat) (v : A) : upd f k v k = v.
Proof. unfold upd. now rewrite Nat.eqb_refl. Qed.

Lemma upd_other {A : Type} (f : nat -> A) (k i : nat) (v : A) :
  i <> k -> upd f k v i = f i.
Proof. intros H. unfold upd. apply Nat.eqb_neq in H. now rewrite H. Qed.

Lemma elems_modify_same (e : ElemId) (f : Element -> Element) (st : State) :
  elems (modify_elem e f st) e = f (elems st e).
Proof. apply upd_same. Qed.

Lemma elems_modify_other (e i : ElemId) (f : Element -> Element) (st : State) :
  i <> e -> elems (modify_elem e f st) i = elems st i.
Proof. apply upd_other. Qed.

Lemma ctrls_modify_same (c : CtrlId) (f : DragAction -> DragAction) (st : State) :
  ctrls (modify_ctrl c f st) c = f (ctrls st c).
Proof. apply upd_same. Qed.

Lemma ctrls_modify_other (c i : CtrlId) (f : DragAction -> DragAction) (st : State) :
  i <> c -> ctrls (modify_ctrl c f st) i = ctrls st i.
Proof. apply upd_other. Qed.

(** A field of an element survives an update that does not write it. *)
Lemma elem_field {B : Type} (F : Element -> B) (e : ElemId) (f : Element -> Element)
  (st : State) (i : ElemId) :
  (forall el, F (f el) = F el) -> F (elems (modify_elem e f st) i) = F (elems st i).
Proof.
  intros H. destruct (Nat.eq_dec i e) as [->|Hne].
  - rewrite elems_modify_same. apply H.
  - now rewrite elems_modify_other.
Qed.

Lemma ctrl_field {B : Type} (G : DragAction -> B) (c : CtrlId)
  (f : DragAction -> DragAction) (st : State) (i : CtrlId) :
  (forall this, G (f this) = G this) -> G (ctrls (modify_ctrl c f st) i) = G (ctrls st i).
Proof.
  intros H. destruct (Nat.eq_dec i c) as [->|Hne].
  - rewrite ctrls_modify_same. apply H.
  - now rewrite ctrls_modify_other.
Qed.

Section StyleWrites.

Context {B : Type} (F : Element -> B).

Lemma write_style_top_field (e : ElemId) (v : option CssLength) (st : State) (i : ElemId) :
  (forall l el, F (el_with_style (with_style_top l (style el)) el) = F el) ->
  F (elems (write_style_top e v st) i) = F (elems st i).
Proof. intros H. destruct v; [apply elem_field; intro; apply H | reflexivity]. Qed.

Lemma write_style_left_field (e : ElemId) (v : option CssLength) (st : State) (i : ElemId) :
  (forall l el, F (el_with_style (with_style_left l (style el)) el) = F el) ->
  F (elems (write_style_left e v st) i) = F (elems st i).
Proof. intros H. destruct v; [apply elem_field; intro; apply H | reflexivity]. Qed.

Lemma write_style_overflow_field (e : ElemId) (v : option string) (st : State) (i : ElemId) :
  (forall s el, F (el_with_style (with_style_overflow s (style el)) el) = F el) ->
  F (elems (write_style_overflow e v st) i) = F (elems st i).
Proof. intros H. destruct v; [apply elem_field; intro; apply H | reflexivity]. Qed.

End StyleWrites.

Section StateFrames.

Context {B : Type} (P : State -> B).

Lemma write_style_top_state (e : ElemId) (v : option CssLength) (st : State) :
  (forall f s, P (modify_elem e f s) = P s) -> P (write_style_top e v st) = P st.
Proof. intros H. destruct v; [apply H | reflexivity]. Qed.

Lemma write_style_left_state (e : ElemId) (v : option CssLength) (st : State) :
  (forall f s, P (modify_elem e f s) = P s) -> P (write_style_left e v st) = P st.
Proof. intros H. destruct v; [apply H | reflexivity]. Qed.

Lemma write_style_overflow_state (e : ElemId) (v : option string) (st : State) :
  (forall f s, P (modify_elem e f s) = P s) -> P (write_style_overflow e v st) = P st.
Proof. intros H. destruct v; [apply H | reflexivity]. Qed.

Lemma forEach_state {A : Type} (l : list A) (f : A -> State -> State) (st : State) :
  (forall a s, P (f a s) = P s) -> P (forEach l f st) = P st.
Proof.
  intros H. unfold forEach. revert st.
  induction l as [|a l IH]; simpl; intros st; [reflexivity|].
  now rewrite IH, H.
Qed.

End StateFrames.

Lemma forEach_elem {A B : Type} (F : Element -> B) (l : list A)
  (f : A -> State -> State) (st : State) (i : ElemId) :
  (forall a s j, F (elems (f a s) j) = F (elems s j)) ->
  F (elems (forEach l f st) i) = F (elems st i).
Proof.
  intros H. apply (forEach_state (fun s => F (elems s i))). intros a s. apply H.
Qed.

Lemma forEach_ctrl {A B : Type} (G : DragAction -> B) (l : list A)
  (f : A -> State -> State) (st : State) (i : CtrlId) :
  (forall a s j, G (ctrls (f a s) j) = G (ctrls s j)) ->
  G (ctrls (forEach l f st) i) = G (ctrls st i).
Proof.
  intros H. apply (forEach_state (fun s => G (ctrls s i))). intros a s. apply H.
Qed.

(** The primitives that are one update of the element or controller store. *)
Ltac prims :=
  unfold restore_overflow, save_overflow, set_dragAction, vent_off, vent_on,
    this_vent_off, this_vent_on, add_class, remove_class, write_style_position,
    write_scrollTop, write_scrollLeft, dispatch, preventDefault, removeAllRanges.

Ltac records :=
  cbn [doc elems ctrls uid events dispatched prevented rangeCount
       with_elems with_ctrls with_uid with_events with_dispatched with_prevented
       with_rangeCount
       write_style_top write_style_left write_style_overflow].

(** Pushing a projection of the state through the writes that do not touch
    it: through one update of a store, through a loop over the handles, and
    through a conditional whose branches agree on the projection. *)
Ltac frame1 :=
  match goal with
  | |- context [elems (modify_ctrl ?c ?f ?s)] =>
      change (elems (modify_ctrl c f s)) with (elems s)
  | |- context [ctrls (modify_elem ?e ?f ?s)] =>
      change (ctrls (modify_elem e f s)) with (ctrls s)
  | |- context [ctrls (write_style_top ?e ?v ?s)] =>
      rewrite (write_style_top_state ctrls e v s) by reflexivity
  | |- context [ctrls (write_style_left ?e ?v ?s)] =>
      rewrite (write_style_left_state ctrls e v s) by reflexivity
  | |- context [ctrls (write_style_overflow ?e ?v ?s)] =>
      rewrite (write_style_overflow_state ctrls e v s) by reflexivity
  | |- context [?F (elems (modify_elem ?e ?f ?s) ?i)] =>
      rewrite (elem_field F e f s i) by (intro; reflexivity)
  | |- context [?F (elems (write_style_top ?e ?v ?s) ?i)] =>
      rewrite (write_style_top_field F e v s i) by (intros; reflexivity)
  | |- context [?F (elems (write_style_left ?e ?v ?s) ?i)] =>
      rewrite (write_style_left_field F e v s i) by (intros; reflexivity)
  | |- context [?F (elems (write_style_overflow ?e ?v ?s) ?i)] =>
      rewrite (write_style_overflow_field F e v s i) by (intros; reflexivity)
  | |- context [?G (ctrls (modify_ctrl ?c ?f ?s) ?i)] =>
      rewrite (ctrl_field G c f s i) by (intro; reflexivity)
  | |- context [?P (modify_elem ?e ?f ?s)] =>
      change (P (modify_elem e f s)) with (P s)
  | |- context [?P (modify_ctrl ?c ?f ?s)] =>
      change (P (modify_ctrl c f s)) with (P s)
  | |- context [?P (write_style_top ?e ?v ?s)] =>
      rewrite (write_style_top_state P e v s) by reflexivity
  | |- context [?P (write_style_left ?e ?v ?s)] =>
      rewrite (write_style_left_state P e v s) by reflexivity
  | |- context [?P (write_style_overflow ?e ?v ?s)] =>
      rewrite (write_style_overflow_state P e v s) by reflexivity
  end.

Ltac frame := prims; records; repeat (progress (repeat frame1; records)).

Ltac merge t b k :=
  let T := type of t in
  let X := fresh "X" in
  let H := fresh "H" in
  evar (X : T);
  assert (H : t = X) by (destruct b; k; unfold X; reflexivity);
  unfold X in H; clear X; rewrite H; clear H.

Ltac frames1 :=
  match goal with
  | |- context [?F (elems (forEach ?l ?f ?s) ?i)] =>
      rewrite (forEach_elem F l f s i) by (intros; frame; reflexivity)
  | |- context [?G (ctrls (forEach ?l ?f ?s) ?i)] =>
      rewrite (forEach_ctrl G l f s i) by (intros; frame; reflexivity)
  | |- context [?P (forEach ?l ?f ?s)] =>
      rewrite (forEach_state P l f s) by (intros; frame; reflexivity)
  | |- context [?F (elems (if ?b then ?s1 else ?s2) ?i)] =>
      merge (F (elems (if b then s1 else s2) i)) b frames
  | |- context [?G (ctrls (if ?b then ?s1 else ?s2) ?i)] =>
      merge (G (ctrls (if b then s1 else s2) i)) b frames
  | |- context [?P (if ?b then ?s1 else ?s2)] =>
      lazymatch type of s1 with State => merge (P (if b then s1 else s2)) b frames end
  end
with frames := frame; repeat (progress (repeat frames1; frame)).

Lemma find_first {A : Type} (f : A -> bool) (l : list A) :
  match find f l with
  | Some a => exists before after,
      l = before ++ a :: after /\ f a = true /\ forall b, In b before -> f b = false
  | None => forall b, In b l -> f b = false
  end.
Proof.
  induction l as [|a l IH]; simpl.
  - intros b [].
  - destruct (f a) eqn:Ha.
    + exists [], l. repeat split; auto. intros b [].
    + destruct (find f l) as [z|].
      * destruct IH as (before & after & -> & Hz & Hb).
        exists (a :: before), after. repeat split; auto.
        intros b [<- | Hin]; auto.
      * intros b [<- | Hin]; auto.
Qed.

(** ** Drop-zone evaluation *)

Lemma within_intersects (st : State) (a b : ElemId) :
  well_sized st ->
  within st (scrollingElement (doc st)) a b = true <-> intersects st a b.
Proof.
  intros Hsz. destruct (Hsz a) as [Hwa Hha]. destruct (Hsz b) as [Hwb Hhb].
  unfold within, intersects, covers, bounds. cbn [r_left r_top r_width r_height].
  set (sl := scrollLeft _). set (s_t := scrollTop _).
  set (ra := getBoundingClientRect st a). set (rb := getBoundingClientRect st b).
  assert (Ewa : r_width ra = width (info (elems st a))) by reflexivity.
  assert (Eha : r_height ra = height (info (elems st a))) by reflexivity.
  assert (Ewb : r_width rb = width (info (elems st b))) by reflexivity.
  assert (Ehb : r_height rb = height (info (elems st b))) by reflexivity.
  rewrite negb_true_iff, !orb_false_iff, !Z.gtb_ltb, !Z.ltb_ge.
  split.
  - intros [[H1 H2] [H3 H4]].
    exists (Z.max (r_left ra + sl) (r_left rb + sl)),
           (Z.max (r_top ra + s_t) (r_top rb + s_t)).
    lia.
  - intros (px & py & H1 & H2). lia.
Qed.

(** C5.  [isOverDropZone] answers the first zone, in configured order, whose
    closed rectangle shares a point with the drag element's, and no zone when
    none does. *)
Theorem isOverDropZone_first_intersecting (st : State) (c : CtrlId) :
  well_sized st ->
  match isOverDropZone st c with
  | Some zone =>
      exists before after,
        _dropZones (ctrls st c) = before ++ zone :: after
        /\ intersects st (_dragElement (ctrls st c)) zone
        /\ forall z, In z before -> ~ intersects st (_dragElement (ctrls st c)) z
  | None =>
      forall z, In z (_dropZones (ctrls st c)) ->
                ~ intersects st (_dragElement (ctrls st c)) z
  end.
Proof.
  intros Hsz. unfold isOverDropZone.
  pose proof (find_first
    (fun dropZone => within st (scrollingElement (doc st))
                       (_dragElement (ctrls st c)) dropZone)
    (_dropZones (ctrls st c))) as H.
  destruct (find _ _) as [zone|].
  - destruct H as (before & after & E & Hz & Hb).
    exists before, after. split; [exact E|]. split.
    + now apply within_intersects.
    + intros z Hin Hi. apply within_intersects in Hi; [|exact Hsz].
      rewrite (Hb z Hin) in Hi. discriminate.
  - intros z Hin Hi. apply within_intersects in Hi; [|exact Hsz].
    rewrite (H z Hin) in Hi. discriminate.
Qed.

Lemma isOverDropZone_first_intersecting_witness :
  exists before after,
    _dropZones (ctrls over_zone 1%nat) = before ++ zone :: after
    /\ intersects over_zone (_dragElement (ctrls over_zone 1%nat)) zone
    /\ forall z, In z before ->
                 ~ intersects over_zone (_dragElement (ctrls over_zone 1%nat)) z.
Proof.
  assert (E : isOverDropZone over_zone 1%nat = Some zone) by (vm_compute; reflexivity).
  pose proof (isOverDropZone_first_intersecting over_zone 1%nat) as H.
  rewrite E in H. apply H.
  intros e. do 5 (destruct e as [|e]; [split; vm_compute; discriminate|]).
  split; vm_compute; discriminate.
Defined.

(** ** Configuration setters *)

Lemma string_of_int_not_axis (z : Z) :
  validate_enumeration axis (NilZero.string_of_int (Z.to_int z)) = false.
Proof.
  destruct (Z.to_int z) as [d|d]; destruct d; reflexivity.
Qed.

Lemma axis_of_enumerated (value : JSValue) : In (axis_of value) axis.
Proof.
  unfold axis_of.
  destruct (validate_enumeration axis (transform_string value)) eqn:E; simpl.
  - destruct (String.eqb (transform_string value) "") eqn:E0; simpl.
    + left. reflexivity.
    + unfold validate_enumeration in E. apply existsb_exists in E.
      destruct E as (s & Hin & Hs). apply String.eqb_eq in Hs. now subst.
  - left. reflexivity.
Qed.

Lemma axis_of_unrecognized (value : JSValue) :
  (forall s, value = VString s -> ~ In s axis) -> axis_of value = FREE.
Proof.
  intros H. unfold axis_of.
  destruct (validate_enumeration axis (transform_string value)) eqn:E; [|reflexivity].
  exfalso.
  destruct value as [| |[|]|[z|]|s| | |]; try discriminate E.
  - cbn [transform_string] in E. rewrite string_of_int_not_axis in E. discriminate.
  - apply (H s eq_refl). unfold validate_enumeration in E.
    apply existsb_exists in E. destruct E as (s' & Hin & Hs).
    apply String.eqb_eq in Hs. now subst.
Qed.

Lemma axis_of_recognized (s : string) : In s axis -> axis_of (VString s) = s.
Proof.
  intros [<- | [<- | [<- | []]]]; reflexivity.
Qed.

(** ** Construction *)

Lemma constructor_missing (dragElement : JSValue) (st : State) :
  truthy dragElement = false ->
  constructor dragElement st = Throw (Error "Coral.DragAction: dragElement is missing") st.
Proof. intros H. unfold constructor. now rewrite H. Qed.

Lemma constructor_unresolved (selector : string) (st : State) :
  truthy (VString selector) = true ->
  valid_selector st selector = true ->
  querySelector st selector = None ->
  constructor (VString selector) st
  = Throw (Error "Coral.DragAction: dragElement is null") st.
Proof. intros H Hv Hq. unfold constructor, resolve. rewrite H, Hv, Hq. reflexivity. Qed.

Lemma constructor_invalid (selector : string) (st : State) :
  truthy (VString selector) = true ->
  valid_selector st selector = false ->
  constructor (VString selector) st = Throw invalid_selector st.
Proof. intros H Hv. unfold constructor, resolve. rewrite H, Hv. reflexivity. Qed.

Lemma constructor_null (dragElement : JSValue) (st : State) :
  truthy dragElement = true ->
  is_string dragElement = false ->
  instanceof_HTMLElement st dragElement = false ->
  constructor dragElement st
  = Throw (TypeError "Cannot read properties of null (reading 'dragAction')")
          (with_uid (S (uid st)) st).
Proof.
  intros H Hs Hi. unfold constructor, resolve. rewrite H.
  destruct dragElement; try discriminate; try reflexivity.
  simpl in Hi. rewrite Hi. reflexivity.
Qed.

(** What [destroy] leaves of a controller: its window listeners are gone
    and its element has no owner. *)
Lemma off_gone (ns : Namespace) (ls : list Listener) (l : Listener) :
  In l (off ns ls) -> ns_eqb (l_ns l) ns = false.
Proof.
  unfold off. intros H. apply filter_In in H. destruct H as [_ H].
  now apply negb_true_iff in H.
Qed.

Lemma destroy_events (c : CtrlId) (r : bool) (st : State) :
  events (destroy c r st) = off (NsDragActionId (_id (ctrls st c))) (events st).
Proof.
  unfold destroy.
  repeat match goal with
  | |- context [if ?b then _ else _] => destruct b
  | |- context [match ?o with Some _ => _ | None => _ end] => destruct o
  end; frames; reflexivity.
Qed.

Lemma destroy_dragAction (c : CtrlId) (r : bool) (st : State) :
  dragAction (elems (destroy c r st) (_dragElement (ctrls st c))) = None.
Proof.
  unfold destroy, set_dragAction. rewrite elems_modify_same. reflexivity.
Qed.

(** C10.  A truthy argument that is neither a string nor an [HTMLElement]
    leaves [el] null: the constructor fails on reading [dragAction] of
    [null], with a [TypeError], neither with one of its documented errors nor
    with a controller. *)
Theorem constructor_null_dereference (dragElement : JSValue) (st : State) :
  truthy dragElement = true ->
  is_string dragElement = false ->
  instanceof_HTMLElement st dragElement = false ->
  resolve dragElement st = Ok None st
  /\ constructor dragElement st
     = Throw (TypeError "Cannot read properties of null (reading 'dragAction')")
             (with_uid (S (uid st)) st)
  /\ ~ raises_documented (constructor dragElement st)
  /\ forall id st', constructor dragElement st <> Ok id st'.
Proof.
  intros Ht Hs Hi. pose proof (constructor_null _ _ Ht Hs Hi) as E.
  split; [|split; [exact E|split]].
  - destruct dragElement; try discriminate; try reflexivity.
    simpl in *. now rewrite Hi.
  - rewrite E. intros (message & st' & H). discriminate H.
  - rewrite E. intros id st' H. discriminate H.
Qed.

Lemma constructor_null_dereference_witness :
  constructor (VNodeList [zone]) (page free_card)
  = Throw (TypeError "Cannot read properties of null (reading 'dragAction')")
          (with_uid 2%nat (page free_card))
  /\ constructor (VNumber (Num 42)) (page free_card)
     = Throw (TypeError "Cannot read properties of null (reading 'dragAction')")
             (with_uid 2%nat (page free_card)).
Proof.
  split.
  - apply (constructor_null_dereference (VNodeList [zone]) (page free_card));
      reflexivity.
  - apply (constructor_null_dereference (VNumber (Num 42)) (page free_card));
      reflexivity.
Defined.

(** ** Drag moves: what each phase leaves alone *)

Ltac branches :=
  repeat match goal with
  | |- context [if ?b then _ else _] => destruct b
  end.

Lemma drag_scroll_ctrls (c : CtrlId) (k : ElemId) (m : Measurement) (st : State) :
  ctrls (drag_scroll c k m st) = ctrls st.
Proof. unfold drag_scroll. branches; frames; reflexivity. Qed.

Lemma drag_scroll_doc (c : CtrlId) (k : ElemId) (m : Measurement) (st : State) :
  doc (drag_scroll c k m st) = doc st.
Proof. unfold drag_scroll. branches; frames; reflexivity. Qed.

Lemma drag_scroll_dispatched (c : CtrlId) (k : ElemId) (m : Measurement) (st : State) :
  dispatched (drag_scroll c k m st) = dispatched st.
Proof. unfold drag_scroll. branches; frames; reflexivity. Qed.

Lemma drag_scroll_field {B : Type} (F : Element -> B) (c : CtrlId) (k : ElemId)
  (m : Measurement) (st : State) (i : ElemId) :
  (forall v el, F (el_with_scrollTop v el) = F el) ->
  (forall v el, F (el_with_scrollLeft v el) = F el) ->
  F (elems (drag_scroll c k m st) i) = F (elems st i).
Proof.
  intros Ht Hl. unfold drag_scroll, write_scrollTop, write_scrollLeft.
  branches; repeat (rewrite elem_field by (intro; auto)); reflexivity.
Qed.

Lemma drag_position_ctrls (c : CtrlId) (m : Measurement) (st : State) :
  ctrls (drag_position c m st) = ctrls st.
Proof. unfold drag_position. frames. reflexivity. Qed.

Lemma drag_position_doc (c : CtrlId) (m : Measurement) (st : State) :
  doc (drag_position c m st) = doc st.
Proof. unfold drag_position. frames. reflexivity. Qed.

Lemma drag_position_dispatched (c : CtrlId) (m : Measurement) (st : State) :
  dispatched (drag_position c m st) = dispatched st.
Proof. unfold drag_position. frames. reflexivity. Qed.

Lemma drag_position_field {B : Type} (F : Element -> B) (c : CtrlId)
  (m : Measurement) (st : State) (i : ElemId) :
  (forall l el, F (el_with_style (with_style_top l (style el)) el) = F el) ->
  (forall l el, F (el_with_style (with_style_left l (style el)) el) = F el) ->
  F (elems (drag_position c m st) i) = F (elems st i).
Proof.
  intros Ht Hl. unfold drag_position.
  rewrite write_style_left_field by exact Hl.
  now rewrite write_style_top_field by exact Ht.
Qed.

Lemma drag_position_top_unassigned (c : CtrlId) (m : Measurement) (st : State) (i : ElemId) :
  newPosition_top (ctrls st c) m = NaN ->
  style_top (style (elems (drag_position c m st) i)) = style_top (style (elems st i)).
Proof.
  intros H. unfold drag_position. rewrite H. cbn [nsub nadd px write_style_top].
  apply (write_style_left_field (fun el => style_top (style el))). reflexivity.
Qed.

Lemma drag_position_left_unassigned (c : CtrlId) (m : Measurement) (st : State) (i : ElemId) :
  newPosition_left (ctrls st c) m = NaN ->
  style_left (style (elems (drag_position c m st) i)) = style_left (style (elems st i)).
Proof.
  intros H. unfold drag_position. rewrite H. cbn [nsub nadd px write_style_left].
  apply (write_style_top_field (fun el => style_left (style el))). reflexivity.
Qed.

Lemma drag_dropzone_elems (c : CtrlId) (p : PagePosition) (st : State) :
  elems (drag_dropzone c p st) = elems st.
Proof.
  unfold drag_dropzone. destruct (isOverDropZone st c); branches; reflexivity.
Qed.

Lemma drag_dropzone_doc (c : CtrlId) (p : PagePosition) (st : State) :
  doc (drag_dropzone c p st) = doc st.
Proof.
  unfold drag_dropzone. destruct (isOverDropZone st c); branches; reflexivity.
Qed.

(** The fields of a controller that the drop-zone phase does not write. *)
Lemma drag_dropzone_ctrl_field {B : Type} (G : DragAction -> B) (c : CtrlId)
  (p : PagePosition) (st : State) (i : CtrlId) :
  (forall v this, G (with_dropElement v this) = G this) ->
  (forall v this, G (with_dropZoneEntered v this) = G this) ->
  G (ctrls (drag_dropzone c p st) i) = G (ctrls st i).
Proof.
  intros He Hz. unfold drag_dropzone, dispatch.
  destruct (isOverDropZone st c); branches; records;
    repeat (rewrite ctrl_field by (intro; auto)); reflexivity.
Qed.

Lemma drag_body_ctrl_field {B : Type} (G : DragAction -> B) (c : CtrlId) (k : ElemId)
  (event : PointerEvent) (st : State) (i : CtrlId) :
  (forall v this, G (with_dropElement v this) = G this) ->
  (forall v this, G (with_dropZoneEntered v this) = G this) ->
  G (ctrls (drag_body c k event st) i) = G (ctrls st i).
Proof.
  intros He Hz. unfold drag_body.
  rewrite drag_dropzone_ctrl_field by assumption.
  rewrite drag_position_ctrls, drag_scroll_ctrls. reflexivity.
Qed.

Lemma drag_body_doc (c : CtrlId) (k : ElemId) (event : PointerEvent) (st : State) :
  doc (drag_body c k event st) = doc st.
Proof.
  unfold drag_body.
  rewrite drag_dropzone_doc, drag_position_doc, drag_scroll_doc. reflexivity.
Qed.

(** The fields of an element that no phase of a move writes. *)
Lemma drag_body_field {B : Type} (F : Element -> B) (c : CtrlId) (k : ElemId)
  (event : PointerEvent) (st : State) (i : ElemId) :
  (forall v el, F (el_with_scrollTop v el) = F el) ->
  (forall v el, F (el_with_scrollLeft v el) = F el) ->
  (forall l el, F (el_with_style (with_style_top l (style el)) el) = F el) ->
  (forall l el, F (el_with_style (with_style_left l (style el)) el) = F el) ->
  F (elems (drag_body c k event st) i) = F (elems st i).
Proof.
  intros H1 H2 H3 H4. unfold drag_body.
  rewrite drag_dropzone_elems, drag_position_field, drag_scroll_field by assumption.
  reflexivity.
Qed.

(** [_drag] either completes or throws before it has written anything. *)
Lemma drag_cases (c : CtrlId) (event : PointerEvent) (st : State) :
  (exists k, is_dragging st c = true /\ _container (ctrls st c) = Some k
             /\ _drag c event st = Ok tt (drag_body c k event st))
  \/ (is_dragging st c = false /\ _drag c event st = Ok tt st)
  \/ (is_dragging st c = true /\ _container (ctrls st c) = None
      /\ _drag c event st = Throw no_container st).
Proof.
  unfold _drag. destruct (is_dragging st c); [|now right; left].
  destruct (_container (ctrls st c)) as [k|].
  - left. now exists k.
  - right. right. auto.
Qed.

(** Induction over the moves of a session. *)
Lemma drag_moves_invariant (P : State -> Prop) (c : CtrlId) :
  (forall event s, P s -> P (state_of (_drag c event s))) ->
  forall moves st, P st -> P (state_of (drag_moves c moves st)).
Proof.
  intros Hstep moves. induction moves as [|event rest IH]; intros st H; [exact H|].
  simpl. specialize (Hstep event st H).
  destruct (_drag c event st) as [[] s|e s]; simpl in *; auto.
Qed.

Lemma drag_axis (c : CtrlId) (event : PointerEvent) (st : State) :
  _axis (ctrls (state_of (_drag c event st)) c) = _axis (ctrls st c).
Proof.
  destruct (drag_cases c event st) as [(k & _ & _ & ->) | [[_ ->] | (_ & _ & ->)]];
    simpl; [|reflexivity|reflexivity].
  now apply (drag_body_ctrl_field _axis).
Qed.

Lemma drag_style_top_horizontal (c : CtrlId) (event : PointerEvent) (st : State) (e : ElemId) :
  _axis (ctrls st c) = HORIZONTAL ->
  style_top (style (elems (state_of (_drag c event st)) e)) = style_top (style (elems st e)).
Proof.
  intros Hax.
  destruct (drag_cases c event st) as [(k & _ & _ & ->) | [[_ ->] | (_ & _ & ->)]];
    simpl; [|reflexivity|reflexivity].
  unfold drag_body. rewrite drag_dropzone_elems.
  rewrite drag_position_top_unassigned.
  - etransitivity;
      [apply (drag_scroll_field (fun el => style_top (style el))); reflexivity|].
    reflexivity.
  - rewrite drag_scroll_ctrls. cbn [dispatch removeAllRanges ctrls with_dispatched with_rangeCount].
    unfold newPosition_top. rewrite Hax. reflexivity.
Qed.

Lemma drag_style_left_vertical (c : CtrlId) (event : PointerEvent) (st : State) (e : ElemId) :
  _axis (ctrls st c) = VERTICAL ->
  style_left (style (elems (state_of (_drag c event st)) e)) = style_left (style (elems st e)).
Proof.
  intros Hax.
  destruct (drag_cases c event st) as [(k & _ & _ & ->) | [[_ ->] | (_ & _ & ->)]];
    simpl; [|reflexivity|reflexivity].
  unfold drag_body. rewrite drag_dropzone_elems.
  rewrite drag_position_left_unassigned.
  - etransitivity;
      [apply (drag_scroll_field (fun el => style_left (style el))); reflexivity|].
    reflexivity.
  - rewrite drag_scroll_ctrls. cbn [dispatch removeAllRanges ctrls with_dispatched with_rangeCount].
    unfold newPosition_left. rewrite Hax. reflexivity.
Qed.

(** C2.  With the axis set to horizontal no sequence of drag moves changes
    the [top] style of any element, whatever the pointer does; with the axis
    set to vertical none changes [left]. *)
Theorem drag_moves_permitted_axis_only (c : CtrlId) (moves : list PointerEvent) (st : State) :
  (_axis (ctrls st c) = HORIZONTAL ->
   forall e, style_top (style (elems (state_of (drag_moves c moves st)) e))
             = style_top (style (elems st e)))
  /\ (_axis (ctrls st c) = VERTICAL ->
      forall e, style_left (style (elems (state_of (drag_moves c moves st)) e))
                = style_left (style (elems st e))).
Proof.
  split; intros Hax.
  - apply (drag_moves_invariant
             (fun s => _axis (ctrls s c) = HORIZONTAL
                       /\ forall e, style_top (style (elems s e))
                                    = style_top (style (elems st e)))).
    + intros event s [Ha Hs]. split.
      * now rewrite drag_axis.
      * intros e. now rewrite drag_style_top_horizontal.
    + now split.
  - apply (drag_moves_invariant
             (fun s => _axis (ctrls s c) = VERTICAL
                       /\ forall e, style_left (style (elems s e))
                                    = style_left (style (elems st e)))).
    + intros event s [Ha Hs]. split.
      * now rewrite drag_axis.
      * intros e. now rewrite drag_style_left_vertical.
    + now split.
Qed.

Lemma drag_moves_permitted_axis_only_witness :
  let st := pressed horizontal_card 120 120 in
  style_top (style (elems (state_of (drag_moves 1%nat [mouse 300 333; mouse 20 500] st)) card))
  = style_top (style (elems st card)).
Proof.
  intros st.
  apply (proj1 (drag_moves_permitted_axis_only 1%nat [mouse 300 333; mouse 20 500] st)).
  vm_compute. reflexivity.
Defined.

(** ** Sessions: start, moves, end *)

Lemma find_ext' {A : Type} (f g : A -> bool) (l : list A) :
  (forall a, f a = g a) -> find f l = find g l.
Proof.
  intros H. induction l as [|a l IH]; simpl; [reflexivity|].
  now rewrite H, IH.
Qed.

Lemma classList_add_contains (cls : string) (l : list string) :
  classList_contains cls (classList_add cls l) = true.
Proof.
  unfold classList_add. destruct (classList_contains cls l) eqn:E; [exact E|].
  unfold classList_contains. rewrite existsb_app. simpl.
  rewrite String.eqb_refl. now rewrite orb_true_r.
Qed.

Lemma dragStart_steps (c : CtrlId) (event : PointerEvent) (st : State) :
  _dragStart c event st
  = dispatch (mkNotification dragstart (_dragElement (ctrls st c))
                (x (getPagePosition event)) (y (getPagePosition event)) None)
      (start_relative (_dragElement (ctrls st c))
         (start_classes c (body (doc st)) (_dragElement (ctrls st c))
            (start_offset c (_dragElement (ctrls st c)) (scrollingElement (doc st)) event
               (start_overflow c (body (doc st)) (container_of st c)
                  (start_container c (container_of st c) event st))))).
Proof. reflexivity. Qed.

Lemma start_container_ctrl_field {B : Type} (G : DragAction -> B) (c : CtrlId)
  (k : ElemId) (event : PointerEvent) (st : State) (i : CtrlId) :
  (forall v this, G (with_container v this) = G this) ->
  G (ctrls (start_container c k event st) i) = G (ctrls st i).
Proof.
  intros H. unfold start_container, preventDefault.
  destruct (String.eqb _ _); records; now rewrite ctrl_field by (intro; auto).
Qed.

Lemma start_container_elems (c : CtrlId) (k : ElemId) (event : PointerEvent) (st : State) :
  elems (start_container c k event st) = elems st.
Proof. unfold start_container. destruct (String.eqb _ _); reflexivity. Qed.

Lemma start_container_doc (c : CtrlId) (k : ElemId) (event : PointerEvent) (st : State) :
  doc (start_container c k event st) = doc st.
Proof. unfold start_container. destruct (String.eqb _ _); reflexivity. Qed.

Lemma start_container_dispatched (c : CtrlId) (k : ElemId) (event : PointerEvent) (st : State) :
  dispatched (start_container c k event st) = dispatched st.
Proof. unfold start_container. destruct (String.eqb _ _); reflexivity. Qed.

Lemma start_container_container (c : CtrlId) (k : ElemId) (event : PointerEvent) (st : State) :
  _container (ctrls (start_container c k event st) c) = Some k.
Proof.
  unfold start_container, preventDefault.
  destruct (String.eqb _ _); records; now rewrite ctrls_modify_same.
Qed.

Lemma start_overflow_ctrls (c : CtrlId) (b k : ElemId) (st : State) :
  ctrls (start_overflow c b k st) = ctrls st.
Proof. unfold start_overflow. frames. reflexivity. Qed.

Lemma start_overflow_doc (c : CtrlId) (b k : ElemId) (st : State) :
  doc (start_overflow c b k st) = doc st.
Proof. unfold start_overflow. frames. reflexivity. Qed.

Lemma start_overflow_dispatched (c : CtrlId) (b k : ElemId) (st : State) :
  dispatched (start_overflow c b k st) = dispatched st.
Proof. unfold start_overflow. frames. reflexivity. Qed.

(** The fields of an element that saving and hiding overflow leave alone. *)
Lemma start_overflow_field {B : Type} (F : Element -> B) (c : CtrlId) (b k : ElemId)
  (st : State) (i : ElemId) :
  (forall v el, F (el_with_overflow v el) = F el) ->
  (forall s el, F (el_with_style (with_style_overflow s (style el)) el) = F el) ->
  F (elems (start_overflow c b k st) i) = F (elems st i).
Proof.
  intros H1 H2. unfold start_overflow, save_overflow. cbn [write_style_overflow].
  destruct (negb _); repeat (rewrite elem_field by (intro; auto)); reflexivity.
Qed.

Lemma start_offset_ctrl_field {B : Type} (G : DragAction -> B) (c : CtrlId)
  (e s : ElemId) (event : PointerEvent) (st : State) (i : CtrlId) :
  (forall v this, G (with_dragPosition v this) = G this) ->
  G (ctrls (start_offset c e s event st) i) = G (ctrls st i).
Proof. intros H. unfold start_offset. now rewrite ctrl_field by (intro; auto). Qed.

Lemma start_classes_ctrls (c : CtrlId) (b e : ElemId) (st : State) :
  ctrls (start_classes c b e st) = ctrls st.
Proof. unfold start_classes. frames. reflexivity. Qed.

Lemma start_classes_doc (c : CtrlId) (b e : ElemId) (st : State) :
  doc (start_classes c b e st) = doc st.
Proof. unfold start_classes. frames. reflexivity. Qed.

Lemma start_classes_dispatched (c : CtrlId) (b e : ElemId) (st : State) :
  dispatched (start_classes c b e st) = dispatched st.
Proof. unfold start_classes. frames. reflexivity. Qed.

Lemma forEach_field {A B : Type} (F : Element -> B) (l : list A)
  (f : A -> State -> State) :
  (forall a s j, F (elems (f a s) j) = F (elems s j)) ->
  forall st i, F (elems (forEach l f st) i) = F (elems st i).
Proof. intros H st i. now apply forEach_elem. Qed.

(** The fields of an element that the class changes leave alone. *)
Lemma start_classes_field {B : Type} (F : Element -> B) (c : CtrlId) (b e : ElemId)
  (st : State) (i : ElemId) :
  (forall v el, F (el_with_classList v el) = F el) ->
  F (elems (start_classes c b e st) i) = F (elems st i).
Proof.
  intros H. unfold start_classes, add_class, remove_class.
  rewrite elem_field by (intro; auto).
  destruct (nonempty _).
  - rewrite forEach_field by (intros; now rewrite elem_field by (intro; auto)).
    now rewrite elem_field by (intro; auto).
  - now rewrite !elem_field by (intro; auto).
Qed.

Lemma start_classes_dragging (c : CtrlId) (b e : ElemId) (st : State) :
  has_class (start_classes c b e st) e IS_DRAGGING_CLASS = true.
Proof.
  unfold has_class, start_classes, add_class at 1.
  rewrite elems_modify_same. apply classList_add_contains.
Qed.

Lemma start_relative_ctrls (e : ElemId) (st : State) :
  ctrls (start_relative e st) = ctrls st.
Proof. unfold start_relative. destruct (String.eqb _ _); reflexivity. Qed.

Lemma start_relative_doc (e : ElemId) (st : State) :
  doc (start_relative e st) = doc st.
Proof. unfold start_relative. destruct (String.eqb _ _); reflexivity. Qed.

Lemma start_relative_dispatched (e : ElemId) (st : State) :
  dispatched (start_relative e st) = dispatched st.
Proof. unfold start_relative. destruct (String.eqb _ _); reflexivity. Qed.

Lemma start_relative_field {B : Type} (F : Element -> B) (e : ElemId) (st : State)
  (i : ElemId) :
  (forall s el, F (el_with_style (with_style_position s (style el)) el) = F el) ->
  F (elems (start_relative e st) i) = F (elems st i).
Proof.
  intros H. unfold start_relative, write_style_position.
  destruct (String.eqb _ _); [|reflexivity]. now rewrite elem_field by (intro; auto).
Qed.

Lemma dragStart_ctrl_field {B : Type} (G : DragAction -> B) (c : CtrlId)
  (event : PointerEvent) (st : State) (i : CtrlId) :
  (forall v this, G (with_container v this) = G this) ->
  (forall v this, G (with_dragPosition v this) = G this) ->
  G (ctrls (_dragStart c event st) i) = G (ctrls st i).
Proof.
  intros Hc Hp. rewrite dragStart_steps. cbn [dispatch ctrls with_dispatched].
  rewrite start_relative_ctrls, start_classes_ctrls.
  rewrite start_offset_ctrl_field by assumption.
  rewrite start_overflow_ctrls. now apply start_container_ctrl_field.
Qed.

Lemma dragStart_doc (c : CtrlId) (event : PointerEvent) (st : State) :
  doc (_dragStart c event st) = doc st.
Proof.
  rewrite dragStart_steps. cbn [dispatch doc with_dispatched].
  rewrite start_relative_doc, start_classes_doc. unfold start_offset.
  cbn [modify_ctrl doc with_ctrls].
  now rewrite start_overflow_doc, start_container_doc.
Qed.

Lemma dragStart_container (c : CtrlId) (event : PointerEvent) (st : State) :
  _container (ctrls (_dragStart c event st) c) = Some (container_of st c).
Proof.
  rewrite dragStart_steps. cbn [dispatch ctrls with_dispatched].
  rewrite start_relative_ctrls, start_classes_ctrls.
  rewrite (start_offset_ctrl_field _container) by reflexivity.
  rewrite start_overflow_ctrls. apply start_container_container.
Qed.

(** The fields of an element that a session's start leaves alone: all but
    its classes, its position, its overflow and the saved overflow. *)
Lemma dragStart_field {B : Type} (F : Element -> B) (c : CtrlId)
  (event : PointerEvent) (st : State) (i : ElemId) :
  (forall v el, F (el_with_classList v el) = F el) ->
  (forall v el, F (el_with_overflow v el) = F el) ->
  (forall s el, F (el_with_style (with_style_overflow s (style el)) el) = F el) ->
  (forall s el, F (el_with_style (with_style_position s (style el)) el) = F el) ->
  F (elems (_dragStart c event st) i) = F (elems st i).
Proof.
  intros H1 H2 H3 H4. rewrite dragStart_steps. cbn [dispatch elems with_dispatched].
  rewrite start_relative_field, start_classes_field by assumption.
  unfold start_offset. cbn [modify_ctrl elems with_ctrls].
  rewrite start_overflow_field by assumption.
  now rewrite start_container_elems.
Qed.

Lemma dragStart_dragging (c : CtrlId) (event : PointerEvent) (st : State) :
  is_dragging (_dragStart c event st) c = true.
Proof.
  unfold is_dragging.
  rewrite (dragStart_ctrl_field _dragElement) by reflexivity.
  rewrite dragStart_steps. unfold has_class. cbn [dispatch elems with_dispatched].
  rewrite start_relative_field by reflexivity.
  apply start_classes_dragging.
Qed.

Lemma dragStart_dispatched (c : CtrlId) (event : PointerEvent) (st : State) :
  dispatched (_dragStart c event st)
  = dispatched st
    ++ [mkNotification dragstart (_dragElement (ctrls st c))
          (x (getPagePosition event)) (y (getPagePosition event)) None].
Proof.
  rewrite dragStart_steps. cbn [dispatch dispatched with_dispatched].
  rewrite start_relative_dispatched, start_classes_dispatched. unfold start_offset.
  cbn [modify_ctrl dispatched with_ctrls].
  now rewrite start_overflow_dispatched, start_container_dispatched.
Qed.

(** Measurements read the layout only. *)
Lemma scrolled_ext (f : Element -> Z) (st st' : State) (e : ElemId) :
  doc st' = doc st ->
  (forall i, f (elems st' i) = f (elems st i)) ->
  scrolled f st' e = scrolled f st e.
Proof.
  intros Hd H. unfold scrolled. rewrite Hd.
  induction (ancestors (doc st) e) as [|a l IH]; simpl; [reflexivity|].
  now rewrite H, IH.
Qed.

Lemma bounds_ext_at (st st' : State) (e : ElemId) :
  doc st' = doc st ->
  info (elems st' e) = info (elems st e) ->
  style_top (style (elems st' e)) = style_top (style (elems st e)) ->
  style_left (style (elems st' e)) = style_left (style (elems st e)) ->
  (forall i, scrollTop (elems st' i) = scrollTop (elems st i)) ->
  (forall i, scrollLeft (elems st' i) = scrollLeft (elems st i)) ->
  bounds st' e = bounds st e.
Proof.
  intros Hd Hi Ht Hl Hst Hsl. unfold bounds, getBoundingClientRect.
  rewrite Hi, Ht, Hl, (scrolled_ext scrollLeft st st'), (scrolled_ext scrollTop st st'),
    Hd, Hst, Hsl by auto.
  reflexivity.
Qed.

Lemma getBoundingClientRect_ext (st st' : State) (e : ElemId) :
  same_layout st st' ->
  getBoundingClientRect st' e = getBoundingClientRect st e.
Proof.
  intros [Hd H]. unfold getBoundingClientRect.
  destruct (H e) as (-> & -> & -> & _ & _).
  rewrite (scrolled_ext scrollLeft st st'), (scrolled_ext scrollTop st st');
    auto; intros i; now destruct (H i) as (_ & _ & _ & ? & ?).
Qed.

Lemma bounds_ext (st st' : State) (e : ElemId) :
  same_layout st st' -> bounds st' e = bounds st e.
Proof.
  intros [Hd H]. destruct (H e) as (? & ? & ? & _ & _).
  apply bounds_ext_at; auto; intros i; now destruct (H i) as (_ & _ & _ & ? & ?).
Qed.

(** The drop-zone evaluation reads the layout and the controller's element
    and zones, nothing else. *)
Lemma isOverDropZone_ext (st st' : State) (c : CtrlId) :
  same_layout st st' ->
  _dragElement (ctrls st' c) = _dragElement (ctrls st c) ->
  _dropZones (ctrls st' c) = _dropZones (ctrls st c) ->
  isOverDropZone st' c = isOverDropZone st c.
Proof.
  intros H He Hz. unfold isOverDropZone. rewrite He, Hz.
  apply find_ext'. intros z. unfold within.
  rewrite !(getBoundingClientRect_ext st st') by exact H.
  destruct H as [-> H].
  now destruct (H (scrollingElement (doc st))) as (_ & _ & _ & -> & ->).
Qed.

(** ** Drop-zone notifications *)

Lemma skipn_app_exact {A : Type} (l l' : list A) : skipn (List.length l) (l ++ l') = l'.
Proof. induction l as [|a l IH]; simpl; auto. Qed.

Lemma emitted_app (st st' : State) (l : list Notification) :
  dispatched st' = dispatched st ++ l -> emitted st st' = l.
Proof. intros H. unfold emitted. rewrite H. apply skipn_app_exact. Qed.

(** The drop-zone phase of a move, branch by branch. *)
Lemma drag_dropzone_over (c : CtrlId) (p : PagePosition) (st : State) (z : ElemId) :
  isOverDropZone st c = Some z ->
  dispatched (drag_dropzone c p st)
  = dispatched st
    ++ (if _dropZoneEntered (ctrls st c) then []
        else [mkNotification dragenter (_dragElement (ctrls st c)) (x p) (y p) (Some z)])
    ++ [mkNotification dragover (_dragElement (ctrls st c)) (x p) (y p) (Some z)]
  /\ _dropZoneEntered (ctrls (drag_dropzone c p st) c) = true
  /\ _dropElement (ctrls (drag_dropzone c p st) c) = Some z.
Proof.
  intros H. unfold drag_dropzone. rewrite H.
  rewrite (ctrl_field _dropZoneEntered) by reflexivity.
  destruct (_dropZoneEntered (ctrls st c)) eqn:E; cbn [negb];
    unfold dispatch; records; rewrite ?ctrls_modify_same;
    cbn [_dropElement _dropZoneEntered with_dropElement with_dropZoneEntered].
  - rewrite E. auto.
  - rewrite <- app_assoc. auto.
Qed.

Lemma drag_dropzone_out (c : CtrlId) (p : PagePosition) (st : State) :
  isOverDropZone st c = None ->
  dispatched (drag_dropzone c p st)
  = dispatched st
    ++ (if _dropZoneEntered (ctrls st c)
        then [mkNotification dragleave (_dragElement (ctrls st c)) (x p) (y p)
                (_dropElement (ctrls st c))]
        else [])
  /\ _dropZoneEntered (ctrls (drag_dropzone c p st) c) = false.
Proof.
  intros H. unfold drag_dropzone. rewrite H.
  destruct (_dropZoneEntered (ctrls st c)) eqn:E; unfold dispatch; records.
  - rewrite ctrls_modify_same. auto.
  - rewrite app_nil_r. auto.
Qed.

Lemma drag_dropzone_layout (c : CtrlId) (p : PagePosition) (st : State) :
  same_layout st (drag_dropzone c p st).
Proof.
  split; [apply drag_dropzone_doc|]. intros i. rewrite drag_dropzone_elems. auto.
Qed.

Lemma drag_dropzone_isOver (c : CtrlId) (p : PagePosition) (st : State) :
  isOverDropZone (drag_dropzone c p st) c = isOverDropZone st c.
Proof.
  apply isOverDropZone_ext.
  - apply drag_dropzone_layout.
  - now apply (drag_dropzone_ctrl_field _dragElement).
  - now apply (drag_dropzone_ctrl_field _dropZones).
Qed.

(** One completed move: the notifications it adds, and the flag it leaves. *)
Lemma drag_body_zone (c : CtrlId) (k : ElemId) (event : PointerEvent) (st : State) :
  exists l,
    dispatched (drag_body c k event st) = dispatched st ++ l
    /\ filter is_zone_event (map n_type l)
       = zone_notifications (_dropZoneEntered (ctrls st c))
           (is_some (isOverDropZone (drag_body c k event st) c))
    /\ _dropZoneEntered (ctrls (drag_body c k event st) c)
       = is_some (isOverDropZone (drag_body c k event st) c)
    /\ forall z, isOverDropZone (drag_body c k event st) c = Some z ->
                 _dropElement (ctrls (drag_body c k event st) c) = Some z.
Proof.
  unfold drag_body.
  set (m := measure c k event st).
  set (n := mkNotification drag _ _ _ _).
  set (s := drag_position c m (drag_scroll c k m (removeAllRanges (dispatch n st)))).
  assert (Hd : dispatched s = dispatched st ++ [n]).
  { unfold s. now rewrite drag_position_dispatched, drag_scroll_dispatched. }
  assert (Hf : _dropZoneEntered (ctrls s c) = _dropZoneEntered (ctrls st c)).
  { unfold s. now rewrite drag_position_ctrls, drag_scroll_ctrls. }
  rewrite drag_dropzone_isOver.
  destruct (isOverDropZone s c) as [z|] eqn:E.
  - destruct (drag_dropzone_over c (pagePosition m) s z E) as (H1 & H2 & H3).
    eexists. split; [rewrite H1, Hd, <- app_assoc; reflexivity|].
    rewrite Hf. split; [|split].
    + destruct (_dropZoneEntered (ctrls st c)); reflexivity.
    + exact H2.
    + intros z' Hz. now injection Hz as <-.
  - destruct (drag_dropzone_out c (pagePosition m) s E) as (H1 & H2).
    eexists. split; [rewrite H1, Hd, <- app_assoc; reflexivity|].
    rewrite Hf. split; [|split].
    + destruct (_dropZoneEntered (ctrls st c)); reflexivity.
    + exact H2.
    + intros z' Hz. discriminate Hz.
Qed.

Lemma drag_body_dragging (c : CtrlId) (k : ElemId) (event : PointerEvent) (st : State) :
  is_dragging (drag_body c k event st) c = is_dragging st c.
Proof.
  unfold is_dragging, has_class.
  rewrite (drag_body_ctrl_field _dragElement) by reflexivity.
  now rewrite (drag_body_field classList).
Qed.

(** The moves of a session that is under way all complete. *)
Lemma drag_moves_zone (c : CtrlId) (k : ElemId) (moves : list PointerEvent) :
  forall st,
    is_dragging st c = true ->
    _container (ctrls st c) = Some k ->
    exists st' l,
      drag_moves c moves st = Ok tt st'
      /\ dispatched st' = dispatched st ++ l
      /\ filter is_zone_event (map n_type l)
         = zone_trace (_dropZoneEntered (ctrls st c)) (observations c moves st)
      /\ is_dragging st' c = true
      /\ _container (ctrls st' c) = Some k.
Proof.
  induction moves as [|event rest IH]; intros st Hdr Hk.
  - exists st, []. simpl. rewrite app_nil_r. auto.
  - assert (E : _drag c event st = Ok tt (drag_body c k event st)).
    { unfold _drag. now rewrite Hdr, Hk. }
    cbn [drag_moves observations]. rewrite E. cbn [bind state_of].
    destruct (drag_body_zone c k event st) as (l1 & H1 & H2 & H3 & _).
    destruct (IH (drag_body c k event st)) as (st' & l2 & H4 & H5 & H6 & H7 & H8).
    + now rewrite drag_body_dragging.
    + now rewrite (drag_body_ctrl_field _container).
    + exists st', (l1 ++ l2). split; [exact H4|]. split; [|split; [|now split]].
      * now rewrite H5, H1, app_assoc.
      * rewrite map_app, filter_app, H2, H6, H3. reflexivity.
Qed.

Lemma zone_trace_alternates (entered : bool) (overs : list bool) :
  alternates entered (zone_trace entered overs) = true.
Proof.
  revert entered. induction overs as [|over rest IH]; intros entered; [reflexivity|].
  destruct over, entered; simpl; apply IH.
Qed.

Lemma zone_trace_beginnings (entered : bool) (overs : list bool) :
  count dragenter (zone_trace entered overs) = beginnings entered overs.
Proof.
  unfold count. revert entered.
  induction overs as [|over rest IH]; intros entered; [reflexivity|].
  destruct over, entered; simpl; now rewrite IH.
Qed.

Lemma zone_trace_endings (entered : bool) (overs : list bool) :
  count dragleave (zone_trace entered overs) = endings entered overs.
Proof.
  unfold count. revert entered.
  induction overs as [|over rest IH]; intros entered; [reflexivity|].
  destruct over, entered; simpl; now rewrite IH.
Qed.

(** ** Drag end *)

Lemma same_layout_refl (st : State) : same_layout st st.
Proof. split; auto. Qed.

Lemma same_layout_trans (s1 s2 s3 : State) :
  same_layout s1 s2 -> same_layout s2 s3 -> same_layout s1 s3.
Proof.
  intros [Hd1 H1] [Hd2 H2]. split; [congruence|]. intros i.
  destruct (H1 i) as (? & ? & ? & ? & ?). destruct (H2 i) as (? & ? & ? & ? & ?).
  repeat split; congruence.
Qed.

Lemma restore_overflow_field {B : Type} (F : Element -> B) (e : ElemId) (st : State)
  (i : ElemId) :
  (forall v el, F (el_with_overflow v el) = F el) ->
  (forall s el, F (el_with_style (with_style_overflow s (style el)) el) = F el) ->
  F (elems (restore_overflow e st) i) = F (elems st i).
Proof.
  intros H1 H2. unfold restore_overflow.
  rewrite elem_field by (intro; auto).
  now apply write_style_overflow_field.
Qed.

Lemma restore_overflow_ctrls (e : ElemId) (st : State) :
  ctrls (restore_overflow e st) = ctrls st.
Proof. unfold restore_overflow. frames. reflexivity. Qed.

Lemma restore_overflow_doc (e : ElemId) (st : State) :
  doc (restore_overflow e st) = doc st.
Proof. unfold restore_overflow. frames. reflexivity. Qed.

Lemma restore_overflow_dispatched (e : ElemId) (st : State) :
  dispatched (restore_overflow e st) = dispatched st.
Proof. unfold restore_overflow. frames. reflexivity. Qed.

Lemma restore_overflow_layout (e : ElemId) (st : State) :
  same_layout st (restore_overflow e st).
Proof.
  split; [apply restore_overflow_doc|]. intros i.
  rewrite (restore_overflow_field info), (restore_overflow_field scrollTop),
    (restore_overflow_field scrollLeft) by reflexivity.
  repeat split.
  - apply (restore_overflow_field (fun el => style_top (style el))); reflexivity.
  - apply (restore_overflow_field (fun el => style_left (style el))); reflexivity.
Qed.

Lemma end_classes_ctrls (c : CtrlId) (b e : ElemId) (st : State) :
  ctrls (end_classes c b e st) = ctrls st.
Proof. unfold end_classes. frames. reflexivity. Qed.

Lemma end_classes_doc (c : CtrlId) (b e : ElemId) (st : State) :
  doc (end_classes c b e st) = doc st.
Proof. unfold end_classes. frames. reflexivity. Qed.

Lemma end_classes_dispatched (c : CtrlId) (b e : ElemId) (st : State) :
  dispatched (end_classes c b e st) = dispatched st.
Proof. unfold end_classes. frames. reflexivity. Qed.

Lemma end_classes_field {B : Type} (F : Element -> B) (c : CtrlId) (b e : ElemId)
  (st : State) (i : ElemId) :
  (forall v el, F (el_with_classList v el) = F el) ->
  F (elems (end_classes c b e st) i) = F (elems st i).
Proof.
  intros H. unfold end_classes, add_class, remove_class.
  destruct (nonempty _).
  - rewrite forEach_field by (intros; now rewrite elem_field by (intro; auto)).
    now rewrite !elem_field by (intro; auto).
  - now rewrite !elem_field by (intro; auto).
Qed.

Lemma end_classes_layout (c : CtrlId) (b e : ElemId) (st : State) :
  same_layout st (end_classes c b e st).
Proof.
  split; [apply end_classes_doc|]. intros i.
  rewrite (end_classes_field info), (end_classes_field style),
    (end_classes_field scrollTop), (end_classes_field scrollLeft) by reflexivity.
  auto.
Qed.

Lemma end_drop_dispatched (c : CtrlId) (e : ElemId) (p : PagePosition) (st : State) :
  dispatched (end_drop c e p st)
  = dispatched st
    ++ (if _dropZoneEntered (ctrls st c) then
          match isOverDropZone st c with
          | Some zone => [mkNotification drop e (x p) (y p) (Some zone)]
          | None => []
          end
        else []).
Proof.
  unfold end_drop.
  destruct (_dropZoneEntered (ctrls st c)); [|now rewrite app_nil_r].
  destruct (isOverDropZone st c); [|now rewrite app_nil_r].
  unfold dispatch. records. now rewrite ctrls_modify_same.
Qed.

(** The state in which [_dragEnd] evaluates the drop zones lays the page out
    as the state it was called in. *)
Lemma dragEnd_emits (c : CtrlId) (k : ElemId) (up : PointerEvent) (st : State) :
  is_dragging st c = true ->
  _container (ctrls st c) = Some k ->
  exists st',
    _dragEnd c up st = Ok tt st'
    /\ dispatched st'
       = dispatched st
         ++ (if _dropZoneEntered (ctrls st c) then
               match isOverDropZone st c with
               | Some zone =>
                   [mkNotification drop (_dragElement (ctrls st c))
                      (x (getPagePosition up)) (y (getPagePosition up)) (Some zone)]
               | None => []
               end
             else [])
         ++ [mkNotification dragend (_dragElement (ctrls st c))
               (x (getPagePosition up)) (y (getPagePosition up)) None].
Proof.
  intros Hdr Hk. unfold _dragEnd. rewrite Hdr, restore_overflow_ctrls, Hk.
  eexists. split; [reflexivity|].
  set (s1 := restore_overflow (body (doc st)) st).
  set (s2 := if negb (matches_body s1 k) then restore_overflow k s1 else s1).
  assert (L2 : same_layout st s2).
  { apply (same_layout_trans st s1); [apply restore_overflow_layout|].
    unfold s2. destruct (negb _);
      [apply restore_overflow_layout | apply same_layout_refl]. }
  assert (C2 : ctrls s2 = ctrls st).
  { unfold s2. destruct (negb _); rewrite ?restore_overflow_ctrls;
      apply restore_overflow_ctrls. }
  assert (D2 : dispatched s2 = dispatched st).
  { unfold s2. destruct (negb _); rewrite ?restore_overflow_dispatched;
      apply restore_overflow_dispatched. }
  unfold dragEnd_finish. unfold dispatch at 1. records.
  rewrite end_drop_dispatched, end_classes_dispatched, end_classes_ctrls, C2, D2.
  rewrite <- app_assoc. do 2 f_equal.
  rewrite (isOverDropZone_ext st (end_classes c (body (doc s2))
                                   (_dragElement (ctrls st c)) s2) c).
  - reflexivity.
  - apply (same_layout_trans st s2); [exact L2 | apply end_classes_layout].
  - now rewrite end_classes_ctrls, C2.
  - now rewrite end_classes_ctrls, C2.
Qed.

(** C6, as amended.  A drag-end of an active session emits drag-end with
    the final pointer coordinates, last; before it, when the entered flag is
    set and some configured zone intersects the drag element at release, it
    emits drop referencing the first such zone, and nothing otherwise.  Right
    after a completed move of the session the flag is set exactly when a zone
    intersects, and that zone is the one recorded as entered. *)
Theorem dragEnd_notifications (c : CtrlId) (k : ElemId) (up : PointerEvent) (st : State) :
  is_dragging st c = true ->
  _container (ctrls st c) = Some k ->
  (exists st',
     _dragEnd c up st = Ok tt st'
     /\ emitted st st'
        = (if _dropZoneEntered (ctrls st c) then
             match isOverDropZone st c with
             | Some zone =>
                 [mkNotification drop (_dragElement (ctrls st c))
                    (x (getPagePosition up)) (y (getPagePosition up)) (Some zone)]
             | None => []
             end
           else [])
          ++ [mkNotification dragend (_dragElement (ctrls st c))
                (x (getPagePosition up)) (y (getPagePosition up)) None])
  /\ (forall event,
        let moved := drag_body c k event st in
        _dropZoneEntered (ctrls moved c) = is_some (isOverDropZone moved c)
        /\ forall zone, isOverDropZone moved c = Some zone ->
                        _dropElement (ctrls moved c) = Some zone).
Proof.
  intros Hdr Hk. split.
  - destruct (dragEnd_emits c k up st Hdr Hk) as (st' & E & H).
    exists st'. split; [exact E|]. now apply emitted_app.
  - intros event moved.
    destruct (drag_body_zone c k event st) as (l & _ & _ & H3 & H4). now split.
Qed.

Lemma dragEnd_notifications_witness :
  exists st',
    _dragEnd 1%nat (mouse 450 450) over_zone = Ok tt st'
    /\ emitted over_zone st'
       = [mkNotification drop card (Num 450) (Num 450) (Some zone);
          mkNotification dragend card (Num 450) (Num 450) None].
Proof.
  destruct (dragEnd_notifications 1%nat panel (mouse 450 450) over_zone)
    as [(st' & E & H) _]; [vm_compute; reflexivity | vm_compute; reflexivity |].
  exists st'. split; [exact E|]. rewrite H. vm_compute. reflexivity.
Defined.

(** C6, as stated, fails when the entered zone has gone from under the
    drag element: the flag is set, the session is active, and the release
    emits drag-end alone. *)
Lemma release_after_zone_moved :
  is_dragging card_pressed 1%nat = true
  /\ _dropZoneEntered (ctrls card_pressed 1%nat) = true
  /\ _dropElement (ctrls card_pressed 1%nat) = Some zone
  /\ isOverDropZone card_pressed 1%nat = None
  /\ map n_type (emitted card_pressed (released 460 460 card_pressed)) = [dragend].
Proof. vm_compute. repeat split. Qed.

(** ** Overflow across a session *)

Lemma drag_field {B : Type} (F : Element -> B) (c : CtrlId) (event : PointerEvent)
  (st : State) (i : ElemId) :
  (forall v el, F (el_with_scrollTop v el) = F el) ->
  (forall v el, F (el_with_scrollLeft v el) = F el) ->
  (forall l el, F (el_with_style (with_style_top l (style el)) el) = F el) ->
  (forall l el, F (el_with_style (with_style_left l (style el)) el) = F el) ->
  F (elems (state_of (_drag c event st)) i) = F (elems st i).
Proof.
  intros H1 H2 H3 H4.
  destruct (drag_cases c event st) as [(k & _ & _ & ->) | [[_ ->] | (_ & _ & ->)]];
    simpl; [|reflexivity|reflexivity].
  now apply drag_body_field.
Qed.

Lemma drag_moves_field {B : Type} (F : Element -> B) (c : CtrlId)
  (moves : list PointerEvent) (st : State) (i : ElemId) :
  (forall v el, F (el_with_scrollTop v el) = F el) ->
  (forall v el, F (el_with_scrollLeft v el) = F el) ->
  (forall l el, F (el_with_style (with_style_top l (style el)) el) = F el) ->
  (forall l el, F (el_with_style (with_style_left l (style el)) el) = F el) ->
  F (elems (state_of (drag_moves c moves st)) i) = F (elems st i).
Proof.
  intros H1 H2 H3 H4. revert i.
  apply (drag_moves_invariant (fun s => forall i, F (elems s i) = F (elems st i)));
    [|reflexivity].
  intros event s Hs i. now rewrite drag_field.
Qed.

Lemma drag_moves_doc (c : CtrlId) (moves : list PointerEvent) (st : State) :
  doc (state_of (drag_moves c moves st)) = doc st.
Proof.
  apply (drag_moves_invariant (fun s => doc s = doc st)); [|reflexivity].
  intros event s Hs.
  destruct (drag_cases c event s) as [(k & _ & _ & ->) | [[_ ->] | (_ & _ & ->)]];
    simpl; auto.
  now rewrite drag_body_doc.
Qed.

Lemma drag_moves_ok (c : CtrlId) (k : ElemId) (moves : list PointerEvent) (st : State) :
  is_dragging st c = true ->
  _container (ctrls st c) = Some k ->
  exists st',
    drag_moves c moves st = Ok tt st'
    /\ is_dragging st' c = true
    /\ _container (ctrls st' c) = Some k.
Proof.
  intros Hdr Hk.
  destruct (drag_moves_zone c k moves st Hdr Hk) as (st' & l & H & _ & _ & H1 & H2).
  now exists st'.
Qed.

(** What saving and hiding overflow records, and where. *)
Lemma start_overflow_saved_body (c : CtrlId) (b k : ElemId) (st : State) :
  matches_body st b = true ->
  _overflow (elems (start_overflow c b k st) b)
  = Some (style_overflow (style (elems st b))).
Proof.
  intros Hb. unfold start_overflow. cbn [write_style_overflow].
  destruct (negb _) eqn:E.
  - assert (Hne : b <> k).
    { intros <-. apply negb_true_iff in E. unfold matches_body in *.
      rewrite (elem_field info) in E by reflexivity.
      unfold save_overflow in E. rewrite (elem_field info) in E by reflexivity.
      congruence. }
    rewrite elems_modify_other by exact Hne.
    unfold save_overflow at 1. rewrite elems_modify_other by exact Hne.
    rewrite (elem_field _overflow) by reflexivity.
    unfold save_overflow. now rewrite elems_modify_same.
  - rewrite (elem_field _overflow) by reflexivity.
    unfold save_overflow. now rewrite elems_modify_same.
Qed.

Lemma start_overflow_matches (b k : ElemId) (st : State) :
  matches_body
    (write_style_overflow b (Some "hidden") (save_overflow b st)) k
  = matches_body st k.
Proof.
  unfold matches_body, save_overflow. cbn [write_style_overflow].
  now rewrite !(elem_field info) by reflexivity.
Qed.

Lemma start_overflow_saved_container (c : CtrlId) (b k : ElemId) (st : State) :
  matches_body st k = false ->
  b <> k ->
  _overflow (elems (start_overflow c b k st) k)
  = Some (style_overflow (style (elems st k))).
Proof.
  intros Hk Hne. unfold start_overflow. rewrite start_overflow_matches, Hk.
  cbn [negb write_style_overflow].
  rewrite (elem_field _overflow) by reflexivity.
  unfold save_overflow at 1. rewrite elems_modify_same. cbn [_overflow el_with_overflow].
  rewrite elems_modify_other by congruence.
  unfold save_overflow. now rewrite elems_modify_other by congruence.
Qed.

Lemma start_overflow_elsewhere (c : CtrlId) (b k : ElemId) (st : State) (e : ElemId) :
  e <> b ->
  e <> k \/ matches_body st k = true ->
  style (elems (start_overflow c b k st) e) = style (elems st e).
Proof.
  intros Hb Hk. unfold start_overflow. rewrite start_overflow_matches.
  cbn [write_style_overflow]. unfold save_overflow.
  destruct (matches_body st k) eqn:E; cbn [negb].
  - now rewrite !elems_modify_other by exact Hb.
  - destruct Hk as [Hk | Hk]; [|discriminate].
    now rewrite !elems_modify_other by assumption.
Qed.

(** After [_dragStart]: the saved overflow of body and container. *)
Lemma dragStart_after_overflow {B : Type} (F : Element -> B) (c : CtrlId)
  (event : PointerEvent) (st : State) (i : ElemId) :
  (forall v el, F (el_with_classList v el) = F el) ->
  (forall s el, F (el_with_style (with_style_position s (style el)) el) = F el) ->
  F (elems (_dragStart c event st) i)
  = F (elems (start_overflow c (body (doc st)) (container_of st c)
                (start_container c (container_of st c) event st)) i).
Proof.
  intros H1 H2. unfold _dragStart. cbn [dispatch elems with_dispatched].
  rewrite start_relative_field, start_classes_field by assumption.
  reflexivity.
Qed.

Lemma matches_body_start_container (c : CtrlId) (k : ElemId) (event : PointerEvent)
  (st : State) (e : ElemId) :
  matches_body (start_container c k event st) e = matches_body st e.
Proof. unfold matches_body. now rewrite start_container_elems. Qed.

Lemma restore_overflow_restores (e : ElemId) (st : State) (v : string) :
  _overflow (elems st e) = Some v ->
  style_overflow (style (elems (restore_overflow e st) e)) = v.
Proof.
  intros H. unfold restore_overflow. rewrite H. cbn [write_style_overflow].
  rewrite (elem_field style) by reflexivity.
  now rewrite elems_modify_same.
Qed.

Lemma restore_overflow_elsewhere (e i : ElemId) (st : State) :
  i <> e -> elems (restore_overflow e st) i = elems st i.
Proof.
  intros H. unfold restore_overflow. rewrite elems_modify_other by exact H.
  destruct (_overflow (elems st e)); cbn [write_style_overflow];
    [now rewrite elems_modify_other | reflexivity].
Qed.

Lemma end_drop_elems (c : CtrlId) (e : ElemId) (p : PagePosition) (st : State) :
  elems (end_drop c e p st) = elems st.
Proof.
  unfold end_drop. destruct (_dropZoneEntered _); [|reflexivity].
  destruct (isOverDropZone st c); reflexivity.
Qed.

Lemma end_drop_doc (c : CtrlId) (e : ElemId) (p : PagePosition) (st : State) :
  doc (end_drop c e p st) = doc st.
Proof.
  unfold end_drop. destruct (_dropZoneEntered _); [|reflexivity].
  destruct (isOverDropZone st c); reflexivity.
Qed.

Lemma dragEnd_finish_field {B : Type} (F : Element -> B) (c : CtrlId)
  (p : PagePosition) (st : State) (i : ElemId) :
  (forall v el, F (el_with_classList v el) = F el) ->
  F (elems (dragEnd_finish c p st) i) = F (elems st i).
Proof.
  intros H. unfold dragEnd_finish. cbn [dispatch elems with_dispatched].
  rewrite end_drop_elems. now apply end_classes_field.
Qed.

Lemma dragEnd_finish_doc (c : CtrlId) (p : PagePosition) (st : State) :
  doc (dragEnd_finish c p st) = doc st.
Proof.
  unfold dragEnd_finish. cbn [dispatch doc with_dispatched].
  now rewrite end_drop_doc, end_classes_doc.
Qed.

(** One session, from any state of a page whose body is a [body] element:
    it completes, and every element has the overflow it had before. *)
Lemma session_overflow (c : CtrlId) (down : PointerEvent) (moves : list PointerEvent)
  (up : PointerEvent) (st : State) :
  matches_body st (body (doc st)) = true ->
  exists st',
    session c down moves up st = Ok tt st'
    /\ doc st' = doc st
    /\ (forall e, info (elems st' e) = info (elems st e))
    /\ (forall e, style_overflow (style (elems st' e))
                  = style_overflow (style (elems st e)))
    /\ _overflow (elems st' (body (doc st))) = None.
Proof.
  intros Hbody.
  set (b := body (doc st)). set (k := container_of st c).
  set (st1 := _dragStart c down st).
  destruct (drag_moves_ok c k moves st1) as (st2 & E2 & Hdr2 & Hk2).
  { apply dragStart_dragging. }
  { apply dragStart_container. }
  assert (S2 : st2 = state_of (drag_moves c moves st1)) by now rewrite E2.
  assert (D1 : doc st1 = doc st) by apply dragStart_doc.
  assert (D2 : doc st2 = doc st).
  { rewrite S2, drag_moves_doc. exact D1. }
  assert (I2 : forall e, info (elems st2 e) = info (elems st e)).
  { intros e. rewrite S2, (drag_moves_field info) by reflexivity.
    unfold st1. now rewrite (dragStart_field info). }
  assert (O2 : forall e, _overflow (elems st2 e)
               = _overflow (elems (start_overflow c b k (start_container c k down st)) e)).
  { intros e. rewrite S2, (drag_moves_field _overflow) by reflexivity.
    unfold st1. now rewrite (dragStart_after_overflow _overflow). }
  assert (V2 : forall e, style_overflow (style (elems st2 e))
               = style_overflow (style (elems (start_overflow c b k
                                                (start_container c k down st)) e))).
  { intros e.
    rewrite S2, (drag_moves_field (fun el => style_overflow (style el))) by reflexivity.
    unfold st1.
    now rewrite (dragStart_after_overflow (fun el => style_overflow (style el))). }
  assert (Hb0 : matches_body (start_container c k down st) b = true).
  { now rewrite matches_body_start_container. }
  assert (Ob : _overflow (elems st2 b) = Some (style_overflow (style (elems st b)))).
  { rewrite O2, start_overflow_saved_body by exact Hb0.
    now rewrite start_container_elems. }
  unfold session. fold st1. rewrite E2. cbn [bind].
  unfold _dragEnd. rewrite Hdr2, restore_overflow_ctrls, Hk2, D2. fold b.
  eexists. split; [reflexivity|].
  set (s1 := restore_overflow b st2).
  assert (M1 : matches_body s1 k = matches_body st k).
  { unfold matches_body, s1. now rewrite (restore_overflow_field info), I2. }
  rewrite M1.
  split; [|split; [|split]].
  - rewrite dragEnd_finish_doc.
    destruct (negb _); unfold s1; now rewrite ?restore_overflow_doc.
  - intros e. rewrite (dragEnd_finish_field info) by reflexivity.
    destruct (negb _); unfold s1; now rewrite !(restore_overflow_field info), ?I2.
  - intros e.
    rewrite (dragEnd_finish_field (fun el => style_overflow (style el))) by reflexivity.
    destruct (matches_body st k) eqn:Mk; cbn [negb].
    + destruct (Nat.eq_dec e b) as [->|Hne].
      * unfold s1. now apply restore_overflow_restores.
      * unfold s1. rewrite restore_overflow_elsewhere by exact Hne.
        rewrite V2, start_overflow_elsewhere, start_container_elems; auto.
        right. now rewrite matches_body_start_container.
    + assert (Hbk : b <> k).
      { intros E. rewrite <- E in Mk. unfold b in Mk. congruence. }
      destruct (Nat.eq_dec e k) as [->|Hnk].
      * apply restore_overflow_restores. unfold s1.
        rewrite restore_overflow_elsewhere by congruence.
        rewrite O2, start_overflow_saved_container, start_container_elems; auto.
        now rewrite matches_body_start_container.
      * rewrite restore_overflow_elsewhere by exact Hnk.
        destruct (Nat.eq_dec e b) as [->|Hne].
        -- unfold s1. now apply restore_overflow_restores.
        -- unfold s1. rewrite restore_overflow_elsewhere by exact Hne.
           rewrite V2, start_overflow_elsewhere, start_container_elems; auto.
  - rewrite (dragEnd_finish_field _overflow) by reflexivity.
    assert (Nb : _overflow (elems s1 b) = None).
    { unfold s1, restore_overflow. now rewrite elems_modify_same. }
    destruct (matches_body st k) eqn:Mk; cbn [negb]; [exact Nb|].
    rewrite restore_overflow_elsewhere; [exact Nb|].
    intros E. rewrite <- E in Mk. unfold b in Mk. congruence.
Qed.

(** C7.  A session restores the overflow of every element, the document
    body and the scroll container among them, to what it was before the
    session; so do two sessions in a row, each saving and restoring on its
    own, and nothing remains saved on the body. *)
Theorem session_restores_overflow (c : CtrlId) (down : PointerEvent)
  (moves : list PointerEvent) (up : PointerEvent) (st : State) :
  matches_body st (body (doc st)) = true ->
  exists st',
    session c down moves up st = Ok tt st'
    /\ style_overflow (style (elems st' (body (doc st))))
       = style_overflow (style (elems st (body (doc st))))
    /\ style_overflow (style (elems st' (container_of st c)))
       = style_overflow (style (elems st (container_of st c)))
    /\ (forall e, style_overflow (style (elems st' e))
                  = style_overflow (style (elems st e)))
    /\ forall down' moves' up',
         exists st'',
           session c down' moves' up' st' = Ok tt st''
           /\ forall e, style_overflow (style (elems st'' e))
                        = style_overflow (style (elems st e)).
Proof.
  intros Hbody.
  destruct (session_overflow c down moves up st Hbody) as (st' & E & D & I & V & _).
  exists st'. split; [exact E|]. split; [apply V|]. split; [apply V|].
  split; [exact V|]. intros down' moves' up'.
  destruct (session_overflow c down' moves' up' st') as (st'' & E' & _ & _ & V' & _).
  - unfold matches_body in *. now rewrite D, I.
  - exists st''. split; [exact E'|]. intros e. now rewrite V', V.
Qed.

Lemma session_restores_overflow_witness :
  let st := built confined_scroll_card in
  style_overflow (style (elems (_dragStart 1%nat (mouse 120 120) st) page_body)) = "hidden"
  /\ style_overflow (style (elems (_dragStart 1%nat (mouse 120 120) st) panel)) = "scroll"
  /\ exists st',
       session 1%nat (mouse 120 120) [mouse 200 200] (mouse 200 200) st = Ok tt st'
       /\ style_overflow (style (elems st' page_body)) = "visible"
       /\ style_overflow (style (elems st' panel)) = "auto".
Proof.
  intros st. split; [vm_compute; reflexivity|]. split; [vm_compute; reflexivity|].
  destruct (session_restores_overflow 1%nat (mouse 120 120) [mouse 200 200]
              (mouse 200 200) st) as (st' & E & _ & _ & V & _);
    [vm_compute; reflexivity|].
  exists st'. split; [exact E|]. split.
  - rewrite (V page_body). vm_compute. reflexivity.
  - rewrite (V panel). vm_compute. reflexivity.
Defined.

(** ** Scroll on drag *)

Lemma clamp_bounds (lo hi v : Z) : lo <= hi -> lo <= clamp lo hi v <= hi.
Proof. unfold clamp. lia. Qed.

Lemma scrollTopMax_nonneg (st : State) (e : ElemId) : 0 <= scrollTopMax st e.
Proof. unfold scrollTopMax. lia. Qed.

Lemma scrollLeftMax_nonneg (st : State) (e : ElemId) : 0 <= scrollLeftMax st e.
Proof. unfold scrollLeftMax. lia. Qed.

Lemma nudge_bounds (a b : bool) (current maximum : Z) :
  0 <= maximum -> 0 <= current <= maximum -> 0 <= nudge a b current maximum <= maximum.
Proof.
  intros Hm Hc. unfold nudge. destruct a; [now apply clamp_bounds|].
  destruct b; [now apply clamp_bounds | exact Hc].
Qed.

Lemma scrollMax_ext (st st' : State) (e : ElemId) :
  doc st' = doc st ->
  (forall i, info (elems st' i) = info (elems st i)) ->
  scrollTopMax st' e = scrollTopMax st e /\ scrollLeftMax st' e = scrollLeftMax st e.
Proof.
  intros Hd Hi.
  unfold scrollTopMax, scrollLeftMax, clientHeight, clientWidth.
  now rewrite Hd, !Hi.
Qed.

(** The scroll phase on one target: what it leaves of the target's offsets
    and of everything else. *)
Lemma write_scrollTop_same (e : ElemId) (v : Z) (st : State) :
  scrollTop (elems (write_scrollTop e v st) e) = clamp 0 (scrollTopMax st e) v.
Proof. unfold write_scrollTop. now rewrite elems_modify_same. Qed.

Lemma write_scrollLeft_same (e : ElemId) (v : Z) (st : State) :
  scrollLeft (elems (write_scrollLeft e v st) e) = clamp 0 (scrollLeftMax st e) v.
Proof. unfold write_scrollLeft. now rewrite elems_modify_same. Qed.

Lemma write_scrollTop_field {B : Type} (F : Element -> B) (e : ElemId) (v : Z)
  (st : State) (i : ElemId) :
  (forall v el, F (el_with_scrollTop v el) = F el) ->
  F (elems (write_scrollTop e v st) i) = F (elems st i).
Proof. intros H. unfold write_scrollTop. now rewrite elem_field by (intro; auto). Qed.

Lemma write_scrollLeft_field {B : Type} (F : Element -> B) (e : ElemId) (v : Z)
  (st : State) (i : ElemId) :
  (forall v el, F (el_with_scrollLeft v el) = F el) ->
  F (elems (write_scrollLeft e v st) i) = F (elems st i).
Proof. intros H. unfold write_scrollLeft. now rewrite elem_field by (intro; auto). Qed.

Lemma write_scrollTop_other (e i : ElemId) (v : Z) (st : State) :
  i <> e -> elems (write_scrollTop e v st) i = elems st i.
Proof. intros H. unfold write_scrollTop. now rewrite elems_modify_other. Qed.

Lemma write_scrollLeft_other (e i : ElemId) (v : Z) (st : State) :
  i <> e -> elems (write_scrollLeft e v st) i = elems st i.
Proof. intros H. unfold write_scrollLeft. now rewrite elems_modify_other. Qed.

Lemma scrollLeftMax_write_scrollTop (e i : ElemId) (v : Z) (st : State) :
  scrollLeftMax (write_scrollTop e v st) i = scrollLeftMax st i.
Proof.
  apply scrollMax_ext; [reflexivity|]. intros j.
  now apply (write_scrollTop_field info).
Qed.

(** The vertical and the horizontal nudge of a move, on the element [t] the
    move scrolls. *)
Lemma drag_scroll_on (c : CtrlId) (k : ElemId) (m : Measurement) (st : State) :
  _scroll (ctrls st c) = true ->
  documentScrollTop m = scrollTop (elems st (scrollingElement (doc st))) ->
  documentScrollLeft m = scrollLeft (elems st (scrollingElement (doc st))) ->
  let r := dragElementBoundingClientRect m in
  let kr := containerBoundingClientRect m in
  let se := scrollingElement (doc st) in
  let st' := drag_scroll c k m st in
  (k <> body (doc st) ->
   scrollTop (elems st' k)
   = nudge (r_top r - r_top kr <? DEFAULT_SCROLL_OFFSET)
       ((r_top r - r_top kr + r_height r >? r_height kr - DEFAULT_SCROLL_OFFSET)
        && (r_top r - r_top kr + r_height r <? r_height kr))
       (scrollTop (elems st k)) (scrollTopMax st k)
   /\ scrollLeft (elems st' k)
      = nudge (r_left r - r_left kr <? DEFAULT_SCROLL_OFFSET)
          ((r_left r - r_left kr + r_width r >? r_width kr - DEFAULT_SCROLL_OFFSET)
           && (r_left r - r_left kr + r_width r <? r_width kr))
          (scrollLeft (elems st k)) (scrollLeftMax st k)
   /\ forall i, i <> k -> elems st' i = elems st i)
  /\ (k = body (doc st) ->
      scrollTop (elems st' se)
      = nudge (r_top r <? DEFAULT_SCROLL_OFFSET)
          ((r_top r + r_height r >? innerHeight (doc st) - DEFAULT_SCROLL_OFFSET)
           && (dragElementPosition_top m + r_height r + DEFAULT_SCROLL_OFFSET
                 <? scrollHeight (info (elems st se))))
          (scrollTop (elems st se)) (scrollTopMax st se)
      /\ scrollLeft (elems st' se)
         = nudge (r_left r <? DEFAULT_SCROLL_OFFSET)
             ((r_left r + r_width r >? innerWidth (doc st) - DEFAULT_SCROLL_OFFSET)
              && (dragElementPosition_left m + r_width r + DEFAULT_SCROLL_OFFSET
                    <? scrollWidth (info (elems st se))))
             (scrollLeft (elems st se)) (scrollLeftMax st se)
      /\ forall i, i <> se -> elems st' i = elems st i).
Proof.
  intros Hs Hm1 Hm2 r kr se st'. unfold st', drag_scroll. rewrite Hs, Hm1, Hm2. split.
  - intros Hk. apply Nat.eqb_neq in Hk. rewrite Hk. fold r kr.
    set (c1 := r_top r - r_top kr <? DEFAULT_SCROLL_OFFSET).
    set (c2 := (_ >? _) && (_ <? r_height kr)).
    set (c3 := r_left r - r_left kr <? DEFAULT_SCROLL_OFFSET).
    set (c4 := (_ >? _) && (_ <? r_width kr)).
    unfold nudge.
    destruct c1, c2, c3, c4; cbn [doc];
      repeat split;
      rewrite ?(write_scrollLeft_field scrollTop), ?write_scrollLeft_same,
        ?scrollLeftMax_write_scrollTop, ?(write_scrollTop_field scrollLeft),
        ?write_scrollTop_same by reflexivity;
      try reflexivity;
      try (intros i Hi;
           rewrite ?write_scrollLeft_other, ?write_scrollTop_other by exact Hi;
           reflexivity).
  - intros Hk. rewrite Hk, Nat.eqb_refl. fold r se.
    set (c1 := r_top r <? DEFAULT_SCROLL_OFFSET).
    set (c2 := (_ >? _) && (_ <? scrollHeight _)).
    set (c3 := r_left r <? DEFAULT_SCROLL_OFFSET).
    assert (E : forall s, doc s = doc st ->
                (forall i, info (elems s i) = info (elems st i)) ->
                (r_left r + r_width r >? innerWidth (doc s) - DEFAULT_SCROLL_OFFSET)
                && (dragElementPosition_left m + r_width r + DEFAULT_SCROLL_OFFSET
                      <? scrollWidth (info (elems s (scrollingElement (doc s)))))
                = (r_left r + r_width r >? innerWidth (doc st) - DEFAULT_SCROLL_OFFSET)
                  && (dragElementPosition_left m + r_width r + DEFAULT_SCROLL_OFFSET
                        <? scrollWidth (info (elems st se)))).
    { intros s Hd Hi. now rewrite Hd, Hi. }
    set (c4 := (_ >? innerWidth (doc st) - _) && _).
    unfold nudge.
    destruct c1, c2; cbn [doc];
      rewrite ?(E (write_scrollTop se _ st)) by
        (try reflexivity; intros i; now apply (write_scrollTop_field info));
      fold c4; destruct c3, c4;
      repeat split;
      rewrite ?(write_scrollLeft_field scrollTop), ?write_scrollLeft_same,
        ?scrollLeftMax_write_scrollTop, ?(write_scrollTop_field scrollLeft),
        ?write_scrollTop_same by reflexivity;
      try reflexivity;
      try (intros i Hi;
           rewrite ?write_scrollLeft_other, ?write_scrollTop_other by exact Hi;
           reflexivity).
Qed.

Lemma drag_body_scroll (c : CtrlId) (k : ElemId) (event : PointerEvent) (st : State)
  (i : ElemId) :
  scrollTop (elems (drag_body c k event st) i)
  = scrollTop (elems (drag_scroll c k (measure c k event st)
                        (moving c k event st)) i)
  /\ scrollLeft (elems (drag_body c k event st) i)
     = scrollLeft (elems (drag_scroll c k (measure c k event st)
                           (moving c k event st)) i).
Proof.
  unfold drag_body. rewrite drag_dropzone_elems.
  rewrite (drag_position_field scrollTop), (drag_position_field scrollLeft)
    by reflexivity.
  split; reflexivity.
Qed.

Lemma drag_body_scrollMax (c : CtrlId) (k : ElemId) (event : PointerEvent) (st : State)
  (i : ElemId) :
  scrollTopMax (drag_body c k event st) i = scrollTopMax st i
  /\ scrollLeftMax (drag_body c k event st) i = scrollLeftMax st i.
Proof.
  apply scrollMax_ext; [apply drag_body_doc|].
  intros j. now apply (drag_body_field info).
Qed.

(** C8.  What a move with scroll-on-drag enabled does to the scroll
    offsets.  It scrolls the container, or the document when the container
    is the body, on each axis by itself: back by 10px when the drag
    element's near side is less than 20px past the container's start edge,
    else forward by 10px when its far side is past the last 20px before the
    end edge and passes a second test, else not at all.  For the document
    the second test is on the scroll range, that more than 20px of document
    lie beyond the element.  For a container other than the body it is that
    the far side lies strictly inside the container, which is not what its
    comment says ("don't go further than the maximum scroll position of the
    container"): an element at the end edge or past it is never scrolled.
    The host clamps the offset it is given, so an offset within the scroll
    range stays within it.  No other element is scrolled. *)
Theorem drag_nudges_scroll (c : CtrlId) (k : ElemId) (event : PointerEvent) (st : State) :
  is_dragging st c = true ->
  _container (ctrls st c) = Some k ->
  _scroll (ctrls st c) = true ->
  let r := getBoundingClientRect st (_dragElement (ctrls st c)) in
  let kr := getBoundingClientRect st k in
  let se := scrollingElement (doc st) in
  exists st',
    _drag c event st = Ok tt st'
    /\ (k <> body (doc st) ->
        scrollTop (elems st' k)
        = nudge (r_top r - r_top kr <? 20)
            ((r_top r - r_top kr + r_height r >? r_height kr - 20)
             && (r_top r - r_top kr + r_height r <? r_height kr))
            (scrollTop (elems st k)) (scrollTopMax st k)
        /\ scrollLeft (elems st' k)
           = nudge (r_left r - r_left kr <? 20)
               ((r_left r - r_left kr + r_width r >? r_width kr - 20)
                && (r_left r - r_left kr + r_width r <? r_width kr))
               (scrollLeft (elems st k)) (scrollLeftMax st k)
        /\ forall i, i <> k ->
             scrollTop (elems st' i) = scrollTop (elems st i)
             /\ scrollLeft (elems st' i) = scrollLeft (elems st i))
    /\ (k = body (doc st) ->
        scrollTop (elems st' se)
        = nudge (r_top r <? 20)
            ((r_top r + r_height r >? innerHeight (doc st) - 20)
             && (r_top r + scrollTop (elems st se) + r_height r + 20
                   <? scrollHeight (info (elems st se))))
            (scrollTop (elems st se)) (scrollTopMax st se)
        /\ scrollLeft (elems st' se)
           = nudge (r_left r <? 20)
               ((r_left r + r_width r >? innerWidth (doc st) - 20)
                && (r_left r + scrollLeft (elems st se) + r_width r + 20
                      <? scrollWidth (info (elems st se))))
               (scrollLeft (elems st se)) (scrollLeftMax st se)
        /\ forall i, i <> se ->
             scrollTop (elems st' i) = scrollTop (elems st i)
             /\ scrollLeft (elems st' i) = scrollLeft (elems st i))
    /\ forall i,
         (0 <= scrollTop (elems st i) <= scrollTopMax st i ->
          0 <= scrollTop (elems st' i) <= scrollTopMax st' i)
         /\ (0 <= scrollLeft (elems st i) <= scrollLeftMax st i ->
             0 <= scrollLeft (elems st' i) <= scrollLeftMax st' i).
Proof.
  intros Hdr Hk Hs r kr se.
  exists (drag_body c k event st).
  split; [unfold _drag; now rewrite Hdr, Hk|].
  pose proof (drag_scroll_on c k (measure c k event st) (moving c k event st)
                Hs eq_refl eq_refl) as H.
  cbv zeta in H. destruct H as [Hc Hd].
  change (doc (moving c k event st)) with (doc st) in Hc, Hd.
  change (elems (moving c k event st)) with (elems st) in Hc, Hd.
  change (scrollTopMax (moving c k event st)) with (scrollTopMax st) in Hc, Hd.
  change (scrollLeftMax (moving c k event st)) with (scrollLeftMax st) in Hc, Hd.
  fold se in Hd.
  assert (Hcase : k <> body (doc st) \/ k = body (doc st)).
  { destruct (Nat.eq_dec k (body (doc st))); auto. }
  split; [|split].
  - intros Hne. destruct (Hc Hne) as (H1 & H2 & H3).
    destruct (drag_body_scroll c k event st k) as [-> ->].
    split; [exact H1|]. split; [exact H2|].
    intros i Hi. destruct (drag_body_scroll c k event st i) as [-> ->].
    now rewrite (H3 i Hi).
  - intros He. destruct (Hd He) as (H1 & H2 & H3).
    destruct (drag_body_scroll c k event st se) as [-> ->].
    split; [exact H1|]. split; [exact H2|].
    intros i Hi. destruct (drag_body_scroll c k event st i) as [-> ->].
    now rewrite (H3 i Hi).
  - intros i.
    destruct (drag_body_scrollMax c k event st i) as [-> ->].
    destruct (drag_body_scroll c k event st i) as [-> ->].
    destruct Hcase as [Hne | He].
    + destruct (Hc Hne) as (H1 & H2 & H3).
      destruct (Nat.eq_dec i k) as [->|Hi].
      * rewrite H1, H2. split; intros Hb; apply nudge_bounds; auto;
          [apply scrollTopMax_nonneg | apply scrollLeftMax_nonneg].
      * rewrite (H3 i Hi). auto.
    + destruct (Hd He) as (H1 & H2 & H3).
      destruct (Nat.eq_dec i se) as [->|Hi].
      * rewrite H1, H2. split; intros Hb; apply nudge_bounds; auto;
          [apply scrollTopMax_nonneg | apply scrollLeftMax_nonneg].
      * rewrite (H3 i Hi). auto.
Qed.

Lemma drag_nudges_scroll_witness :
  scrollTop (elems near_bottom panel) = 0
  /\ exists st',
       _drag 1%nat (mouse 250 245) near_bottom = Ok tt st'
       /\ scrollTop (elems st' panel) = 10.
Proof.
  split; [vm_compute; reflexivity|].
  destruct (drag_nudges_scroll 1%nat panel (mouse 250 245) near_bottom)
    as (st' & E & H & _); try (vm_compute; reflexivity).
  exists st'. split; [exact E|].
  destruct H as (H & _ & _); [vm_compute; discriminate|].
  rewrite H. vm_compute. reflexivity.
Defined.

(** C8 fails in the code for an element flush with the bottom edge of its
    container, where containment puts it once the pointer has passed that
    edge: the element is 0px from the edge, the container could scroll 400px
    further, and the move leaves its scroll offset where it was. *)
Lemma flush_with_bottom_edge_no_nudge :
  _scroll (ctrls flush_bottom 1%nat) = true
  /\ is_dragging flush_bottom 1%nat = true
  /\ _container (ctrls flush_bottom 1%nat) = Some panel
  /\ r_top (bounds flush_bottom card) + r_height (bounds flush_bottom card)
     = r_top (bounds flush_bottom panel) + r_height (bounds flush_bottom panel)
  /\ r_top (bounds flush_bottom card) - r_top (bounds flush_bottom panel) = 150
  /\ scrollTop (elems flush_bottom panel) = 0
  /\ scrollTopMax flush_bottom panel = 400
  /\ scrollTop (elems (moved 250 400 flush_bottom) panel) = 0.
Proof. vm_compute. repeat split. Qed.

(** The document branch does scroll an element that lies flush with the
    bottom of the window: its second test is on the scroll height. *)
Lemma document_scrolls_flush_element :
  _scroll (ctrls zone_flush 2%nat) = true
  /\ _container (ctrls zone_flush 2%nat) = Some page_body
  /\ r_top (getBoundingClientRect zone_flush zone)
     + r_height (getBoundingClientRect zone_flush zone)
     = innerHeight (doc zone_flush)
  /\ scrollTop (elems zone_flush html) = 0
  /\ scrollTop (elems (moved_by 2%nat 410 710 zone_flush) html) = 10.
Proof. vm_compute. repeat split. Qed.

(** ** Containment *)

Ltac zbool :=
  repeat match goal with
  | H : (_ >=? _) = true |- _ => apply Z.geb_le in H
  | H : (_ >=? _) = false |- _ => rewrite Z.geb_leb in H; apply Z.leb_gt in H
  | H : (_ <=? _) = true |- _ => apply Z.leb_le in H
  | H : (_ <=? _) = false |- _ => apply Z.leb_gt in H
  end.

(** The pointer's side of [contain]: what it answers once the candidate is
    out. *)
Lemma contain_pointer (pointer : num) (start size extent before : Z) :
  (forall p, pointer = Num p -> p <= start ->
     position_or
       (if nle pointer (Num start) then Num start
        else if nge pointer (Num (start + size)) then Num (start + size - extent)
        else NaN) before = start)
  /\ (forall p, pointer = Num p -> start < p -> start + size <= p ->
        position_or
          (if nle pointer (Num start) then Num start
           else if nge pointer (Num (start + size)) then Num (start + size - extent)
           else NaN) before = start + size - extent)
  /\ (forall p, pointer = Num p -> start < p < start + size ->
        position_or
          (if nle pointer (Num start) then Num start
           else if nge pointer (Num (start + size)) then Num (start + size - extent)
           else NaN) before = before)
  /\ (pointer = NaN ->
        position_or
          (if nle pointer (Num start) then Num start
           else if nge pointer (Num (start + size)) then Num (start + size - extent)
           else NaN) before = before).
Proof.
  repeat split.
  - intros p -> H. cbn [nle]. destruct (p <=? start) eqn:E; zbool; [reflexivity|lia].
  - intros p -> H1 H2. cbn [nle nge].
    destruct (p <=? start) eqn:E; zbool; [lia|].
    destruct (p >=? start + size) eqn:E'; zbool; [reflexivity|lia].
  - intros p -> H. cbn [nle nge].
    destruct (p <=? start) eqn:E; zbool; [lia|].
    destruct (p >=? start + size) eqn:E'; zbool; [lia|reflexivity].
  - intros ->. reflexivity.
Qed.

Lemma contain_placed (candidate pointer : num) (start size extent before : Z) :
  placed candidate pointer start size extent before
    (position_or (contain candidate pointer start size extent) before).
Proof.
  unfold placed, contain, keeps_inside.
  destruct candidate as [t|]; cbn [nge nle nadd].
  - destruct ((t >=? start) && (t + extent <=? start + size)) eqn:E.
    + apply andb_true_iff in E. destruct E as [E1 E2]. zbool. split.
      * intros t' Ht _. now injection Ht as <-.
      * intros H. exfalso. apply (H t eq_refl). lia.
    + split.
      * intros t' Ht H. injection Ht as <-. exfalso.
        apply andb_false_iff in E. destruct E as [E|E]; zbool; lia.
      * intros _. apply contain_pointer.
  - cbn [andb]. split; [intros t Ht; discriminate|]. intros _. apply contain_pointer.
Qed.

Lemma position_or_contain_inside (candidate pointer : num)
  (start size extent before : Z) :
  extent <= size ->
  keeps_inside before start size extent ->
  keeps_inside (position_or (contain candidate pointer start size extent) before)
    start size extent.
Proof.
  intros Hfit Hb.
  assert (Hp : keeps_inside
                 (position_or
                    (if nle pointer (Num start) then Num start
                     else if nge pointer (Num (start + size))
                          then Num (start + size - extent)
                          else NaN) before) start size extent).
  { unfold keeps_inside in *.
    destruct (nle pointer (Num start)); cbn [position_or]; [lia|].
    destruct (nge pointer (Num (start + size))); cbn [position_or]; lia. }
  unfold contain.
  destruct candidate as [t|]; cbn [nge nle nadd]; [|exact Hp].
  destruct ((t >=? start) && (t + extent <=? start + size)) eqn:E; [|exact Hp].
  apply andb_true_iff in E. destruct E as [E1 E2]. zbool.
  cbn [position_or]. unfold keeps_inside. lia.
Qed.

Lemma css_position (l : CssLength) : num_or (parseFloat l) (Num 0) = Num (used_offset l).
Proof.
  destruct l as [|z]; [reflexivity|]. unfold num_or. cbn.
  destruct (z =? 0) eqn:E; cbn; [|reflexivity].
  apply Z.eqb_eq in E. now subst.
Qed.

(** The style a position write leaves on the drag element. *)
Lemma drag_position_style (c : CtrlId) (m : Measurement) (st : State) :
  let e := _dragElement (ctrls st c) in
  let top := px (nadd (nsub (newPosition_top (ctrls st c) m)
                            (Num (dragElementPosition_top m)))
                      (dragElementCSSPosition_top m)) in
  let left := px (nadd (nsub (newPosition_left (ctrls st c) m)
                             (Num (dragElementPosition_left m)))
                       (dragElementCSSPosition_left m)) in
  style_top (style (elems (drag_position c m st) e))
  = match top with Some l => l | None => style_top (style (elems st e)) end
  /\ style_left (style (elems (drag_position c m st) e))
     = match left with Some l => l | None => style_left (style (elems st e)) end
  /\ forall i, i <> e -> elems (drag_position c m st) i = elems st i.
Proof.
  intros e top left. unfold drag_position. fold e top left.
  split; [|split].
  - rewrite (write_style_left_field (fun el => style_top (style el))) by reflexivity.
    destruct top; cbn [write_style_top]; [now rewrite elems_modify_same|reflexivity].
  - destruct left; cbn [write_style_left].
    + now rewrite elems_modify_same.
    + now rewrite (write_style_top_field (fun el => style_left (style el))) by reflexivity.
  - intros i Hi.
    destruct left; cbn [write_style_left]; rewrite ?elems_modify_other by exact Hi;
      destruct top; cbn [write_style_top]; rewrite ?elems_modify_other by exact Hi;
      reflexivity.
Qed.

Lemma bounds_sizes (st : State) (e : ElemId) :
  r_width (bounds st e) = width (info (elems st e))
  /\ r_height (bounds st e) = height (info (elems st e)).
Proof. split; reflexivity. Qed.

(** Where a move without scrolling leaves the drag element and its
    container, in document coordinates. *)
Lemma drag_body_bounds (c : CtrlId) (k : ElemId) (event : PointerEvent) (st : State) :
  _scroll (ctrls st c) = false ->
  k <> _dragElement (ctrls st c) ->
  let e := _dragElement (ctrls st c) in
  let m := measure c k event st in
  let st' := drag_body c k event st in
  bounds st' k = bounds st k
  /\ r_top (bounds st' e)
     = position_or (newPosition_top (ctrls st c) m) (r_top (bounds st e))
  /\ r_left (bounds st' e)
     = position_or (newPosition_left (ctrls st c) m) (r_left (bounds st e))
  /\ r_width (bounds st' e) = r_width (bounds st e)
  /\ r_height (bounds st' e) = r_height (bounds st e).
Proof.
  intros Hs Hk e m st'.
  set (s := moving c k event st).
  assert (Es : drag_scroll c k m s = s).
  { unfold drag_scroll. change (ctrls s c) with (ctrls st c). now rewrite Hs. }
  set (s2 := drag_position c m s).
  assert (B : forall i, bounds st' i = bounds s2 i).
  { intros i. unfold st'.
    change (drag_body c k event st)
      with (drag_dropzone c (pagePosition m) (drag_position c m (drag_scroll c k m s))).
    rewrite Es. fold s2. apply bounds_ext. apply drag_dropzone_layout. }
  destruct (drag_position_style c m s) as (Ht & Hl & Ho). fold s2 in Ht, Hl, Ho.
  change (_dragElement (ctrls s c)) with e in Ht, Hl, Ho.
  change (ctrls s c) with (ctrls st c) in Ht, Hl.
  change (elems s) with (elems st) in Ht, Hl, Ho.
  assert (Hd : doc s2 = doc st) by (unfold s2; now rewrite drag_position_doc).
  assert (Hi : forall i, info (elems s2 i) = info (elems st i)).
  { intros i. unfold s2. now rewrite (drag_position_field info). }
  assert (Hst : forall i, scrollTop (elems s2 i) = scrollTop (elems st i)).
  { intros i. unfold s2. now rewrite (drag_position_field scrollTop). }
  assert (Hsl : forall i, scrollLeft (elems s2 i) = scrollLeft (elems st i)).
  { intros i. unfold s2. now rewrite (drag_position_field scrollLeft). }
  assert (Sc : forall i, scrolled scrollTop s2 i = scrolled scrollTop st i
                         /\ scrolled scrollLeft s2 i = scrolled scrollLeft st i).
  { intros i. split; apply scrolled_ext; auto. }
  rewrite !B. split; [|split; [|split; [|split]]].
  - apply bounds_ext_at; auto; now rewrite (Ho k Hk).
  - unfold bounds, getBoundingClientRect. cbn [r_top].
    destruct (Sc e) as [-> _]. rewrite Hd, Hst, Hi, Ht.
    unfold m at 2 3, measure. cbn [dragElementPosition_top dragElementCSSPosition_top].
    rewrite css_position. fold e.
    destruct (newPosition_top (ctrls st c) m) as [t|];
      cbn [nsub nadd px position_or used_offset];
      unfold getBoundingClientRect; cbn [r_top]; lia.
  - unfold bounds, getBoundingClientRect. cbn [r_left].
    destruct (Sc e) as [_ ->]. rewrite Hd, Hsl, Hi, Hl.
    unfold m at 2 3, measure. cbn [dragElementPosition_left dragElementCSSPosition_left].
    rewrite css_position. fold e.
    destruct (newPosition_left (ctrls st c) m) as [t|];
      cbn [nsub nadd px position_or used_offset];
      unfold getBoundingClientRect; cbn [r_left]; lia.
  - unfold bounds, getBoundingClientRect. cbn [r_width]. now rewrite Hi.
  - unfold bounds, getBoundingClientRect. cbn [r_height]. now rewrite Hi.
Qed.

Lemma keeps_inside_axis (permitted : bool) (candidate pointer : num)
  (start size extent before : Z) :
  extent <= size ->
  keeps_inside before start size extent ->
  keeps_inside
    (position_or
       (if permitted then contain candidate pointer start size extent else NaN) before)
    start size extent.
Proof.
  intros Hfit Hb. destruct permitted; [|exact Hb].
  now apply position_or_contain_inside.
Qed.

(** C1, as amended.  A move of an active session with containment on and
    scroll-on-drag off, on a drag element no larger than its container and
    within it before the move, leaves the element within the container.  On
    each permitted axis the element takes the position the pointer asks for
    when that keeps its full extent inside; if not, it is placed exactly at
    the container's top (left) edge when the pointer is at or beyond that
    edge, exactly against the bottom (right) edge when the pointer is at or
    beyond that one, and stays where it was while the pointer is between the
    edges.  On the other axis it does not move. *)
Theorem drag_contains (c : CtrlId) (k : ElemId) (event : PointerEvent) (st : State) :
  is_dragging st c = true ->
  _container (ctrls st c) = Some k ->
  _containment (ctrls st c) = true ->
  _scroll (ctrls st c) = false ->
  k <> _dragElement (ctrls st c) ->
  fits st (_dragElement (ctrls st c)) k ->
  inside st (_dragElement (ctrls st c)) k ->
  let e := _dragElement (ctrls st c) in
  let p := getPagePosition event in
  exists st',
    _drag c event st = Ok tt st'
    /\ inside st' e k
    /\ (_axis (ctrls st c) <> HORIZONTAL ->
        placed (nsub (y p) (y (_dragPosition (ctrls st c)))) (y p)
          (r_top (bounds st k)) (r_height (bounds st k)) (r_height (bounds st e))
          (r_top (bounds st e)) (r_top (bounds st' e)))
    /\ (_axis (ctrls st c) <> VERTICAL ->
        placed (nsub (x p) (x (_dragPosition (ctrls st c)))) (x p)
          (r_left (bounds st k)) (r_width (bounds st k)) (r_width (bounds st e))
          (r_left (bounds st e)) (r_left (bounds st' e)))
    /\ (_axis (ctrls st c) = HORIZONTAL -> r_top (bounds st' e) = r_top (bounds st e))
    /\ (_axis (ctrls st c) = VERTICAL -> r_left (bounds st' e) = r_left (bounds st e)).
Proof.
  intros Hdr Hk Hc Hs Hne [Fw Fh] (I1 & I2 & I3 & I4) e p.
  exists (drag_body c k event st).
  split; [unfold _drag; now rewrite Hdr, Hk|].
  destruct (drag_body_bounds c k event st Hs Hne) as (Bk & Bt & Bl & Bw & Bh).
  fold e in Bt, Bl, Bw, Bh, I1, I2, I3, I4, Fw, Fh.
  set (m := measure c k event st) in *.
  set (st' := drag_body c k event st) in *.
  destruct (bounds_sizes st e) as [We He]. destruct (bounds_sizes st k) as [Wk Hkk].
  assert (Nt : newPosition_top (ctrls st c) m
               = if negb (String.eqb (_axis (ctrls st c)) "horizontal")
                 then contain (nsub (y p) (y (_dragPosition (ctrls st c)))) (y p)
                        (r_top (bounds st k)) (r_height (bounds st k))
                        (r_height (bounds st e))
                 else NaN).
  { unfold newPosition_top. rewrite Hc. reflexivity. }
  assert (Nl : newPosition_left (ctrls st c) m
               = if negb (String.eqb (_axis (ctrls st c)) "vertical")
                 then contain (nsub (x p) (x (_dragPosition (ctrls st c)))) (x p)
                        (r_left (bounds st k)) (r_width (bounds st k))
                        (r_width (bounds st e))
                 else NaN).
  { unfold newPosition_left. rewrite Hc. reflexivity. }
  rewrite Nt in Bt. rewrite Nl in Bl.
  split; [|split; [|split; [|split]]].
  - unfold inside. cbv zeta. rewrite Bk, Bt, Bl, Bw, Bh.
    assert (Kt : keeps_inside
                   (position_or
                      (if negb (String.eqb (_axis (ctrls st c)) "horizontal")
                       then contain (nsub (y p) (y (_dragPosition (ctrls st c)))) (y p)
                              (r_top (bounds st k)) (r_height (bounds st k))
                              (r_height (bounds st e))
                       else NaN) (r_top (bounds st e)))
                   (r_top (bounds st k)) (r_height (bounds st k))
                   (r_height (bounds st e))).
    { apply keeps_inside_axis; [lia | split; assumption]. }
    assert (Kl : keeps_inside
                   (position_or
                      (if negb (String.eqb (_axis (ctrls st c)) "vertical")
                       then contain (nsub (x p) (x (_dragPosition (ctrls st c)))) (x p)
                              (r_left (bounds st k)) (r_width (bounds st k))
                              (r_width (bounds st e))
                       else NaN) (r_left (bounds st e)))
                   (r_left (bounds st k)) (r_width (bounds st k))
                   (r_width (bounds st e))).
    { apply keeps_inside_axis; [lia | split; assumption]. }
    destruct Kt, Kl. auto.
  - intros Hax. apply String.eqb_neq in Hax. unfold HORIZONTAL in Hax.
    rewrite Hax in Bt. cbn [negb] in Bt. rewrite Bt. apply contain_placed.
  - intros Hax. apply String.eqb_neq in Hax. unfold VERTICAL in Hax.
    rewrite Hax in Bl. cbn [negb] in Bl. rewrite Bl. apply contain_placed.
  - intros Hax. rewrite Hax in Bt. exact Bt.
  - intros Hax. rewrite Hax in Bl. exact Bl.
Qed.

Lemma drag_contains_witness :
  let st := pressed confined_card 120 120 in
  let e := _dragElement (ctrls st 1%nat) in
  exists st',
    _drag 1%nat (mouse 50 150) st = Ok tt st'
    /\ inside st' e panel
    /\ r_left (bounds st' e) = r_left (bounds st panel)
    /\ r_top (bounds st' e) = 140.
Proof.
  intros st e.
  pose proof (drag_contains 1%nat panel (mouse 50 150) st) as H.
  assert (H1 : is_dragging st 1%nat = true) by (vm_compute; reflexivity).
  assert (H2 : _container (ctrls st 1%nat) = Some panel) by (vm_compute; reflexivity).
  assert (H3 : _containment (ctrls st 1%nat) = true) by (vm_compute; reflexivity).
  assert (H4 : _scroll (ctrls st 1%nat) = false) by (vm_compute; reflexivity).
  assert (H5 : panel <> _dragElement (ctrls st 1%nat)) by (vm_compute; discriminate).
  assert (H6 : fits st (_dragElement (ctrls st 1%nat)) panel)
    by (vm_compute; split; discriminate).
  assert (H7 : inside st (_dragElement (ctrls st 1%nat)) panel)
    by (vm_compute; repeat split; discriminate).
  specialize (H H1 H2 H3 H4 H5 H6 H7). cbv zeta in H.
  destruct H as (st' & E & I & Pt & Pl & _).
  exists st'. split; [exact E|]. split; [exact I|]. split.
  - destruct Pl as (_ & Pl); [vm_compute; discriminate|].
    destruct Pl as (Pl & _).
    + intros t Ht. vm_compute in Ht. injection Ht as <-.
      intros [Hin _]. vm_compute in Hin. apply Hin. reflexivity.
    + apply (Pl 50); [reflexivity | vm_compute; discriminate].
  - destruct Pt as (Pt & _); [vm_compute; discriminate|].
    apply (Pt 140); [vm_compute; reflexivity | vm_compute; split; discriminate].
Defined.

(** C1, as stated, fails on a drag element wider than its container: the
    move puts its left side at the container's left edge and its right side
    100px past the container's right edge. *)
Lemma wide_card_overflows :
  _containment (ctrls (pressed wide_card 120 120) 1%nat) = true
  /\ is_dragging (pressed wide_card 120 120) 1%nat = true
  /\ r_left (bounds (moved 50 150 (pressed wide_card 120 120)) card) = 100
  /\ r_left (bounds (moved 50 150 (pressed wide_card 120 120)) card)
     + r_width (bounds (moved 50 150 (pressed wide_card 120 120)) card) = 500
  /\ r_left (bounds (moved 50 150 (pressed wide_card 120 120)) panel)
     + r_width (bounds (moved 50 150 (pressed wide_card 120 120)) panel) = 400.
Proof. vm_compute. repeat split. Qed.

(** The premises of the amended statement are each needed.  With
    scroll-on-drag on, the container scrolls under the position the move
    computed: a card near the bottom edge whose pointer jumps to the top edge
    ends 10px above the container. *)
Example scrolling_shifts_the_card :
  inside near_bottom_confined card panel
  /\ r_top (bounds (moved 250 100 near_bottom_confined) card) = 90
  /\ r_top (bounds (moved 250 100 near_bottom_confined) panel) = 100.
Proof. vm_compute. repeat split; discriminate. Qed.

(** A card that lies outside its container stays there while the pointer is
    between the container's edges and the candidate position is out. *)
Example outside_stays_outside :
  _containment (ctrls pressed_outside 1%nat) = true
  /\ r_top (bounds pressed_outside card) = 440
  /\ r_top (bounds (moved 105 105 pressed_outside) card) = 440
  /\ r_top (bounds pressed_outside panel) + r_height (bounds pressed_outside panel) = 300.
Proof. vm_compute. repeat split. Qed.

(** ** Further properties of a session *)

(** A first session of a controller: two overlap intervals, each with one
    drag-enter at its start and one drag-leave at its end. *)
Example first_session_enters_once :
  observations 1%nat sweep (pressed free_card 120 120)
  = [false; true; true; false; true; true; false]
  /\ zone_events (pressed free_card 120 120)
       (state_of (drag_moves 1%nat sweep (pressed free_card 120 120)))
     = [dragenter; dragover; dragover; dragleave; dragenter; dragover; dragover;
        dragleave].
Proof. vm_compute. split; reflexivity. Qed.

(** The scenario of the spec: the card is carried from outside the zone to
    fully inside it and released there. *)
Example drop_scenario :
  inside in_zone card zone
  /\ map n_type (dispatched (released 435 435 in_zone))
     = [dragstart; drag; dragenter; dragover; drop; dragend].
Proof. vm_compute. repeat split; discriminate. Qed.

(** X1.  Outside an active session the move and end handlers do nothing. *)
Theorem handlers_ignored_outside_session (c : CtrlId) (event : PointerEvent) (st : State) :
  is_dragging st c = false ->
  _drag c event st = Ok tt st /\ _dragEnd c event st = Ok tt st.
Proof. intros H. unfold _drag, _dragEnd. now rewrite H. Qed.

Lemma handlers_ignored_outside_session_witness :
  let st := built free_card in
  _drag 1%nat (mouse 300 300) st = Ok tt st /\ _dragEnd 1%nat (mouse 300 300) st = Ok tt st.
Proof.
  intros st. apply (handlers_ignored_outside_session 1%nat (mouse 300 300) st).
  vm_compute. reflexivity.
Defined.

Lemma getViewContainer_call_answer (st : State) (element : ElemId)
  (o : option ElemId) (s : State) :
  getViewContainer_call st element = Ok o s -> o = getViewContainer st element.
Proof.
  unfold getViewContainer_call.
  destruct (getViewContainer st element) as [p|].
  - intros E. apply (f_equal (fun r => match r with
                                       | Ok a _ => a
                                       | Throw _ _ => None
                                       end)) in E.
    now symmetry.
  - destruct (rooted (doc st) element); [discriminate|].
    intros E. apply (f_equal (fun r => match r with
                                       | Ok a _ => a
                                       | Throw _ _ => None
                                       end)) in E.
    now symmetry.
Qed.

Lemma getViewContainer_call_throws (st : State) (element : ElemId)
  (err : JSError) (s : State) :
  getViewContainer_call st element = Throw err s ->
  getViewContainer_call st element = Throw not_an_element st.
Proof.
  unfold getViewContainer_call.
  destruct (getViewContainer st element) as [p|]; [discriminate|].
  destruct (rooted (doc st) element); [reflexivity | discriminate].
Qed.

(** X2.  The press handler first looks the container up.  When that call
    answers, the handler marks the drag element as dragging, records the
    answer (the nearest clipping ancestor or the body; the body when the
    answer is null) as container and emits drag-start with the pointer's
    document coordinates, and nothing else.  When that call throws, on a
    parent chain that runs into a node that is no element, the handler
    throws with it and has written nothing. *)
Theorem dragStart_opens_session (c : CtrlId) (event : PointerEvent) (st : State) :
  let e := _dragElement (ctrls st c) in
  (forall o s,
     getViewContainer_call st e = Ok o s ->
     exists st',
       _dragStart_call c event st = Ok tt st'
       /\ is_dragging st' c = true
       /\ _container (ctrls st' c)
          = Some (match o with Some p => p | None => body (doc st) end)
       /\ emitted st st'
          = [mkNotification dragstart e
               (x (getPagePosition event)) (y (getPagePosition event)) None])
  /\ (forall err s,
        getViewContainer_call st e = Throw err s ->
        _dragStart_call c event st = Throw not_an_element st).
Proof.
  intros e. split.
  - intros o s E. exists (_dragStart c event st).
    pose proof (getViewContainer_call_answer _ _ _ _ E) as Ho.
    split.
    { unfold _dragStart_call. fold e.
      unfold getViewContainer_call in *.
      destruct (getViewContainer st e); [reflexivity|].
      destruct (rooted (doc st) e); [discriminate E | reflexivity]. }
    split; [apply dragStart_dragging|]. split.
    { rewrite dragStart_container. unfold container_of. fold e. now rewrite Ho. }
    apply emitted_app. apply dragStart_dispatched.
  - intros err s E. unfold _dragStart_call. fold e.
    now rewrite (getViewContainer_call_throws _ _ _ _ E).
Qed.

(** A controller on the body of the page: its press throws, the document
    being the parent of [html]. *)
Lemma dragStart_on_body_throws :
  let st := state_of (constructor (VElement page_body) (page free_card)) in
  _dragElement (ctrls st 1%nat) = page_body
  /\ _dragStart_call 1%nat (mouse 5 5) st = Throw not_an_element st.
Proof.
  intros st. split; [vm_compute; reflexivity|].
  assert (E : getViewContainer_call st (_dragElement (ctrls st 1%nat))
              = Throw not_an_element st) by (vm_compute; reflexivity).
  unfold _dragStart_call. now rewrite E.
Qed.

(** X3.  Without containment and without scrolling a move puts the drag
    element where the pointer is, less the offset taken at the start, on
    each permitted axis, and leaves it where it was on the other; this for
    a drag element that is positioned, as the press leaves it, and for a
    position and offsets that are lengths the layout engine holds. *)
Theorem drag_follows_pointer (c : CtrlId) (k : ElemId) (event : PointerEvent)
  (st : State) (px py dx dy : Z) :
  is_dragging st c = true ->
  _container (ctrls st c) = Some k ->
  _containment (ctrls st c) = false ->
  _scroll (ctrls st c) = false ->
  k <> _dragElement (ctrls st c) ->
  getPagePosition event = mkPagePosition (Num px) (Num py) ->
  _dragPosition (ctrls st c) = mkPagePosition (Num dx) (Num dy) ->
  style_position (style (elems st (_dragElement (ctrls st c)))) <> "static" ->
  reachable st (_dragElement (ctrls st c)) (px - dx) (py - dy) ->
  let e := _dragElement (ctrls st c) in
  exists st',
    _drag c event st = Ok tt st'
    /\ (_axis (ctrls st c) <> HORIZONTAL -> r_top (bounds st' e) = py - dy)
    /\ (_axis (ctrls st c) <> VERTICAL -> r_left (bounds st' e) = px - dx)
    /\ (_axis (ctrls st c) = HORIZONTAL -> r_top (bounds st' e) = r_top (bounds st e))
    /\ (_axis (ctrls st c) = VERTICAL -> r_left (bounds st' e) = r_left (bounds st e)).
Proof.
  intros Hdr Hk Hc Hs Hne Hp Hd _ _ e.
  exists (drag_body c k event st).
  split; [unfold _drag; now rewrite Hdr, Hk|].
  destruct (drag_body_bounds c k event st Hs Hne) as (_ & Bt & Bl & _).
  fold e in Bt, Bl.
  unfold newPosition_top in Bt. unfold newPosition_left in Bl.
  rewrite Hc, Hd in Bt, Bl.
  change (pagePosition (measure c k event st)) with (getPagePosition event) in Bt, Bl.
  rewrite Hp in Bt, Bl. cbn [x y nsub] in Bt, Bl.
  repeat split.
  - intros Hax. apply String.eqb_neq in Hax. unfold HORIZONTAL in Hax.
    now rewrite Hax in Bt.
  - intros Hax. apply String.eqb_neq in Hax. unfold VERTICAL in Hax.
    now rewrite Hax in Bl.
  - intros Hax. now rewrite Hax in Bt.
  - intros Hax. now rewrite Hax in Bl.
Qed.

(** The scenario of the spec: with the axis vertical a pointer that goes
    200px down takes the card 200px down and leaves its left side alone. *)
Lemma drag_follows_pointer_witness :
  let st := pressed vertical_card 120 120 in
  let e := _dragElement (ctrls st 1%nat) in
  r_top (bounds st e) = 110
  /\ exists st',
       _drag 1%nat (mouse 150 320) st = Ok tt st'
       /\ r_top (bounds st' e) = 320 - 10
       /\ r_left (bounds st' e) = r_left (bounds st e).
Proof.
  intros st e. split; [vm_compute; reflexivity|].
  pose proof (drag_follows_pointer 1%nat panel (mouse 150 320) st 150 320 10 10) as H.
  assert (H1 : is_dragging st 1%nat = true) by (vm_compute; reflexivity).
  assert (H2 : _container (ctrls st 1%nat) = Some panel) by (vm_compute; reflexivity).
  assert (H3 : _containment (ctrls st 1%nat) = false) by (vm_compute; reflexivity).
  assert (H4 : _scroll (ctrls st 1%nat) = false) by (vm_compute; reflexivity).
  assert (H5 : panel <> _dragElement (ctrls st 1%nat)) by (vm_compute; discriminate).
  assert (H6 : _dragPosition (ctrls st 1%nat) = mkPagePosition (Num 10) (Num 10))
    by (vm_compute; reflexivity).
  assert (H7 : reachable st (_dragElement (ctrls st 1%nat)) (150 - 10) (320 - 10)).
  { unfold reachable, held. vm_compute. repeat split; discriminate. }
  assert (H8 : style_position (style (elems st (_dragElement (ctrls st 1%nat))))
               <> "static") by (vm_compute; discriminate).
  specialize (H H1 H2 H3 H4 H5 eq_refl H6 H8 H7). cbv zeta in H.
  destruct H as (st' & E & Ht & _ & _ & Hl).
  exists st'. split; [exact E|]. split.
  - apply Ht. vm_compute. discriminate.
  - apply Hl. vm_compute. reflexivity.
Defined.

(** * Further properties

    What the code shows beyond the sentences of the specification. *)

(** ** The module-level functions *)

Lemma overflow_clips_iff (st : State) (p : ElemId) :
  overflow_clips (style (elems st p)) = true <-> clips st p.
Proof.
  unfold overflow_clips, clips. cbv zeta.
  rewrite !andb_true_iff, !orb_true_iff, !String.eqb_eq.
  intuition congruence.
Qed.

Lemma view_container_iff (st : State) (p : ElemId) :
  (matches_body st p || overflow_clips (style (elems st p))) = true
  <-> view_container st p.
Proof.
  unfold view_container. rewrite orb_true_iff, overflow_clips_iff. tauto.
Qed.

Lemma getViewContainer_loop_first (st : State) (chain : list ElemId) :
  match getViewContainer_loop st chain with
  | Some p => exists before after,
      chain = before ++ p :: after
      /\ view_container st p
      /\ forall a, In a before -> ~ view_container st a
  | None => forall a, In a chain -> ~ view_container st a
  end.
Proof.
  induction chain as [|q rest IH]; simpl.
  - intros a [].
  - destruct (matches_body st q) eqn:Hb.
    { exists [], rest. repeat split; [now left | intros a []]. }
    destruct (overflow_clips (style (elems st q))) eqn:Hc.
    { exists [], rest. repeat split; [right; now apply overflow_clips_iff | intros a []]. }
    assert (Hq : ~ view_container st q).
    { rewrite <- view_container_iff, Hb, Hc. discriminate. }
    destruct (getViewContainer_loop st rest) as [p|].
    + destruct IH as (before & after & -> & Hp & Hbefore).
      exists (q :: before), after. repeat split; auto.
      intros a [<- | Hin]; auto.
    + intros a [<- | Hin]; auto.
Qed.

Lemma first_unique {A : Type} (P : A -> Prop) (b1 a1 b2 a2 : list A) (p1 p2 : A) :
  b1 ++ p1 :: a1 = b2 ++ p2 :: a2 ->
  P p1 -> (forall a, In a b1 -> ~ P a) ->
  P p2 -> (forall a, In a b2 -> ~ P a) ->
  p1 = p2.
Proof.
  revert b2. induction b1 as [|h1 b1 IH]; intros [|h2 b2] E H1 N1 H2 N2; simpl in E.
  - now injection E.
  - injection E as -> _. exfalso. apply (N2 h2); simpl; auto.
  - injection E as -> _. exfalso. apply (N1 p2); simpl; auto.
  - injection E as -> E. apply (IH b2 E); auto.
    + intros a Ha. apply N1. now right.
    + intros a Ha. apply N2. now right.
Qed.

Lemma getViewContainer_first (st : State) (element : ElemId) :
  (forall p,
     getViewContainer st element = Some p <->
     exists before after,
       ancestors (doc st) element = before ++ p :: after
       /\ view_container st p
       /\ forall a, In a before -> ~ view_container st a)
  /\ (getViewContainer st element = None <->
      forall a, In a (ancestors (doc st) element) -> ~ view_container st a).
Proof.
  unfold getViewContainer.
  pose proof (getViewContainer_loop_first st (ancestors (doc st) element)) as H.
  destruct (getViewContainer_loop st (ancestors (doc st) element)) as [q|].
  - destruct H as (before & after & E & Hq & Hb). split.
    + intros p. split.
      * intros [= <-]. now exists before, after.
      * intros (b' & a' & E' & Hp & Hb'). f_equal.
        rewrite E in E'. eapply (first_unique (view_container st)); eauto.
    + split; [discriminate|]. intros Hnone. exfalso.
      apply (Hnone q); [|exact Hq]. rewrite E. apply in_or_app. right. now left.
  - split.
    + intros p. split; [discriminate|].
      intros (b' & a' & E' & Hp & _). exfalso.
      apply (H p); [|exact Hp]. rewrite E'. apply in_or_app. right. now left.
    + split; auto.
Qed.

(** X4.  [getViewContainer] answers the nearest parent element that is the
    body or whose computed overflow clips on both axes (hidden, auto or
    scroll, the same for x and y): every parent element nearer than the
    answer is neither.  When no parent element is one, it answers [null] if
    the chain ends without a parent, and throws a [TypeError] if the chain
    ends at a node that is no element. *)
Theorem getViewContainer_nearest (st : State) (element : ElemId) :
  (forall p,
     getViewContainer_call st element = Ok (Some p) st <->
     exists before after,
       ancestors (doc st) element = before ++ p :: after
       /\ view_container st p
       /\ forall a, In a before -> ~ view_container st a)
  /\ (getViewContainer_call st element = Ok None st <->
      (forall a, In a (ancestors (doc st) element) -> ~ view_container st a)
      /\ rooted (doc st) element = false)
  /\ (getViewContainer_call st element = Throw not_an_element st <->
      (forall a, In a (ancestors (doc st) element) -> ~ view_container st a)
      /\ rooted (doc st) element = true)
  /\ (raises (getViewContainer_call st element) <->
      getViewContainer_call st element = Throw not_an_element st).
Proof.
  destruct (getViewContainer_first st element) as [Hs Hn].
  unfold getViewContainer_call.
  destruct (getViewContainer st element) as [q|] eqn:G.
  - split; [|split; [|split]].
    + intros p. rewrite <- Hs. split.
      * intros E. apply (f_equal (fun r => match r with
                                           | Ok a _ => a
                                           | Throw _ _ => None
                                           end)) in E.
        exact E.
      * intros E. injection E as <-. reflexivity.
    + split; [discriminate|]. intros [H _]. apply Hn in H. discriminate H.
    + split; [discriminate|]. intros [H _]. apply Hn in H. discriminate H.
    + split; [|discriminate]. intros (e & s & H). discriminate H.
  - assert (N : forall a, In a (ancestors (doc st) element) -> ~ view_container st a)
      by now apply Hn.
    destruct (rooted (doc st) element); (split; [|split; [|split]]).
    + intros p. rewrite <- Hs. split; discriminate.
    + split; [discriminate|]. intros [_ H]. discriminate H.
    + split; [now split | reflexivity].
    + split; [reflexivity|]. intros _. now eexists _, _.
    + intros p. rewrite <- Hs. split; discriminate.
    + split; [now split | reflexivity].
    + split; [discriminate|]. intros [_ H]. discriminate H.
    + split; [|discriminate]. intros (e & s & H). discriminate H.
Qed.

(** X5.  [within] is symmetric in its two elements, and the element passed
    as the document's scrolling element does not matter to it: the scroll
    offsets it adds to both rectangles cancel. *)
Theorem within_symmetric (st : State) (s s' a b : ElemId) :
  within st s a b = within st s' b a.
Proof.
  unfold within. cbv zeta.
  repeat match goal with
  | |- context [?u >? ?v] => destruct (Z.gtb_spec u v)
  | |- context [?u <? ?v] => destruct (Z.ltb_spec u v)
  end; simpl; try reflexivity; exfalso; lia.
Qed.

(** X6.  [getPagePosition] reads the first changed touch, else the first
    current touch, else the event's own coordinates; a touch coordinate that
    is 0 (or no number) is passed over for the event's own coordinate. *)
Theorem getPagePosition_sources (event : PointerEvent) :
  (changedTouches event = [] -> touches event = [] ->
   getPagePosition event = mkPagePosition (pageX event) (pageY event))
  /\ (forall t rest,
        changedTouches event = t :: rest ->
        truthy_num (touch_pageX t) = true ->
        truthy_num (touch_pageY t) = true ->
        getPagePosition event = mkPagePosition (touch_pageX t) (touch_pageY t))
  /\ (forall t rest,
        changedTouches event = [] ->
        touches event = t :: rest ->
        truthy_num (touch_pageX t) = true ->
        truthy_num (touch_pageY t) = true ->
        getPagePosition event = mkPagePosition (touch_pageX t) (touch_pageY t))
  /\ (forall t rest,
        changedTouches event = t :: rest ->
        (touch_pageX t = Num 0 -> x (getPagePosition event) = pageX event)
        /\ (touch_pageY t = Num 0 -> y (getPagePosition event) = pageY event)).
Proof.
  unfold getPagePosition. split; [|split; [|split]].
  - intros -> ->. reflexivity.
  - intros t rest -> Hx Hy. cbv zeta. unfold num_or. now rewrite Hx, Hy.
  - intros t rest -> -> Hx Hy. cbv zeta. unfold num_or. now rewrite Hx, Hy.
  - intros t rest ->. cbv zeta. split; intros ->; reflexivity.
Qed.

(** ** Classes *)

Lemma classList_contains_add (cls cls' : string) (l : list string) :
  classList_contains cls' (classList_add cls l)
  = classList_contains cls' l || String.eqb cls' cls.
Proof.
  unfold classList_add, classList_contains.
  destruct (existsb (String.eqb cls) l) eqn:E.
  - destruct (String.eqb_spec cls' cls) as [->|_].
    + rewrite E. reflexivity.
    + now rewrite orb_false_r.
  - rewrite existsb_app. simpl. now rewrite orb_false_r.
Qed.

Lemma classList_contains_remove (cls cls' : string) (l : list string) :
  classList_contains cls' (classList_remove cls l)
  = classList_contains cls' l && negb (String.eqb cls' cls).
Proof.
  unfold classList_remove, classList_contains.
  induction l as [|a l IH]; simpl; [reflexivity|].
  destruct (String.eqb_spec a cls) as [->|Hne]; simpl.
  - rewrite IH. destruct (String.eqb_spec cls' cls) as [->|_]; simpl.
    + now rewrite !andb_false_r.
    + now rewrite !andb_true_r.
  - rewrite IH. destruct (String.eqb_spec cls' a) as [->|_]; simpl; [|reflexivity].
    destruct (String.eqb_spec a cls); [contradiction|reflexivity].
Qed.

Lemma has_class_add (h : ElemId) (cls : string) (st : State) (e : ElemId) (cls' : string) :
  has_class (add_class h cls st) e cls'
  = has_class st e cls' || (Nat.eqb e h && String.eqb cls' cls).
Proof.
  unfold has_class, add_class.
  destruct (Nat.eqb_spec e h) as [->|Hne].
  - rewrite elems_modify_same. cbn [classList el_with_classList].
    rewrite classList_contains_add. reflexivity.
  - rewrite elems_modify_other by assumption. now rewrite orb_false_r.
Qed.

Lemma has_class_remove (h : ElemId) (cls : string) (st : State) (e : ElemId) (cls' : string) :
  has_class (remove_class h cls st) e cls'
  = has_class st e cls' && negb (Nat.eqb e h && String.eqb cls' cls).
Proof.
  unfold has_class, remove_class.
  destruct (Nat.eqb_spec e h) as [->|Hne].
  - rewrite elems_modify_same. cbn [classList el_with_classList].
    rewrite classList_contains_remove. reflexivity.
  - rewrite elems_modify_other by assumption. now rewrite andb_true_r.
Qed.

(** A loop that removes a class from each element of a list, or adds it to
    each, whatever else it does to them that leaves the classes alone. *)
Lemma has_class_forEach_remove (g : ElemId -> State -> State) (cls : string)
  (l : list ElemId) (st : State) (e : ElemId) (cls' : string) :
  (forall h s i c, has_class (g h s) i c = has_class s i c) ->
  has_class (forEach l (fun h s => remove_class h cls (g h s)) st) e cls'
  = has_class st e cls' && negb (mem e l && String.eqb cls' cls).
Proof.
  intros Hg. unfold forEach. revert st.
  induction l as [|h l IH]; intros st; simpl.
  - now rewrite andb_true_r.
  - rewrite IH, has_class_remove, Hg.
    destruct (has_class st e cls'), (Nat.eqb e h), (mem e l), (String.eqb cls' cls);
      reflexivity.
Qed.

Lemma has_class_forEach_add (g : ElemId -> State -> State) (cls : string)
  (l : list ElemId) (st : State) (e : ElemId) (cls' : string) :
  (forall h s i c, has_class (g h s) i c = has_class s i c) ->
  has_class (forEach l (fun h s => add_class h cls (g h s)) st) e cls'
  = has_class st e cls' || (mem e l && String.eqb cls' cls).
Proof.
  intros Hg. unfold forEach. revert st.
  induction l as [|h l IH]; intros st; simpl.
  - now rewrite orb_false_r.
  - rewrite IH, has_class_add, Hg.
    destruct (has_class st e cls'), (Nat.eqb e h), (mem e l), (String.eqb cls' cls);
      reflexivity.
Qed.

Lemma has_class_ext (st st' : State) (e : ElemId) (cls : string) :
  classList (elems st' e) = classList (elems st e) ->
  has_class st' e cls = has_class st e cls.
Proof. unfold has_class. now intros ->. Qed.

Lemma mem_grips (this : DragAction) (e : ElemId) :
  mem e (grips this)
  = if nonempty (_handles this) then mem e (the_list (_handles this))
    else Nat.eqb e (_dragElement this).
Proof.
  unfold grips. destruct (nonempty (_handles this)); [reflexivity|].
  simpl. now rewrite orb_false_r.
Qed.

(** ** The handle and dropZone setters *)

Lemma transformToArray_designated (st : State) (value : JSValue) :
  the_list (transformToArray st value) = designated st value.
Proof.
  destruct value; try reflexivity. simpl.
  now destruct (isHTMLElement (info (elems st e))).
Qed.

Lemma transformToArray_accepts (st : State) (value : JSValue) :
  is_some (transformToArray st value) = accepts st value.
Proof.
  destruct value; try reflexivity. simpl.
  unfold accepts. simpl. destruct (isHTMLElement (info (elems st e))); reflexivity.
Qed.

Lemma accepts_ext (st st' : State) (value : JSValue) :
  (forall i, info (elems st' i) = info (elems st i)) ->
  accepts st' value = accepts st value.
Proof.
  intros H. unfold accepts. destruct value; try reflexivity. simpl. now rewrite H.
Qed.

Lemma transformToArray_ext (st st' : State) (value : JSValue) :
  doc st' = doc st ->
  (forall i, info (elems st' i) = info (elems st i)) ->
  transformToArray st' value = transformToArray st value.
Proof.
  intros Hd H. destruct value; try reflexivity; simpl.
  - now rewrite Hd.
  - now rewrite H.
Qed.

Lemma designated_rejected (st : State) (value : JSValue) :
  accepts st value = false -> designated st value = [].
Proof.
  destruct value; try reflexivity; try discriminate. unfold accepts. simpl.
  now destruct (isHTMLElement (info (elems st e))).
Qed.

Lemma set_handle_steps (c : CtrlId) (value : JSValue) (st : State) :
  set_handle c value st
  = let dragElement := _dragElement (ctrls st c) in
    let st := set_handle_unbound c value st in
    if accepts st value then
      let st := modify_ctrl c (with_handles (transformToArray st value)) st in
      if nonempty (_handles (ctrls st c)) then
        forEach (the_list (_handles (ctrls st c))) (fun handle s =>
          add_class handle OPEN_HAND_CLASS (vent_on c handle s)) st
      else
        add_class dragElement OPEN_HAND_CLASS (this_vent_on c st)
    else
      let st := modify_ctrl c (with_handles (Some [])) st in
      add_class dragElement OPEN_HAND_CLASS (this_vent_on c st).
Proof. reflexivity. Qed.

Lemma vent_off_has_class (h : ElemId) (s : State) (i : ElemId) (cls : string) :
  has_class (vent_off h s) i cls = has_class s i cls.
Proof. apply has_class_ext. unfold vent_off. now rewrite (elem_field classList). Qed.

Lemma vent_on_has_class (c : CtrlId) (h : ElemId) (s : State) (i : ElemId) (cls : string) :
  has_class (vent_on c h s) i cls = has_class s i cls.
Proof. apply has_class_ext. unfold vent_on. now rewrite (elem_field classList). Qed.

Lemma set_handle_unbound_ctrl_field {B : Type} (G : DragAction -> B) (c : CtrlId)
  (value : JSValue) (st : State) (i : CtrlId) :
  (forall v this, G (with_handle v this) = G this) ->
  (forall v this, G (with_dragEvents v this) = G this) ->
  G (ctrls (set_handle_unbound c value st) i) = G (ctrls st i).
Proof.
  intros H1 H2. unfold set_handle_unbound. cbv zeta.
  frames.
  rewrite (ctrl_field G) by (intro; apply H2).
  rewrite (ctrl_field G) by (intro; apply H1).
  reflexivity.
Qed.

Lemma set_handle_unbound_doc (c : CtrlId) (value : JSValue) (st : State) :
  doc (set_handle_unbound c value st) = doc st.
Proof. unfold set_handle_unbound. cbv zeta. frames. reflexivity. Qed.

Lemma set_handle_unbound_dispatched (c : CtrlId) (value : JSValue) (st : State) :
  dispatched (set_handle_unbound c value st) = dispatched st.
Proof. unfold set_handle_unbound. cbv zeta. frames. reflexivity. Qed.

Lemma set_handle_unbound_field {B : Type} (F : Element -> B) (c : CtrlId)
  (value : JSValue) (st : State) (i : ElemId) :
  (forall v el, F (el_with_classList v el) = F el) ->
  (forall v el, F (el_with_dragEvents v el) = F el) ->
  F (elems (set_handle_unbound c value st) i) = F (elems st i).
Proof.
  intros H1 H2. unfold set_handle_unbound. cbv zeta.
  match goal with
  | |- context [if ?b then _ else _] => destruct b
  end.
  - rewrite (forEach_elem F).
    + prims. rewrite !(elem_field F) by (intro; apply H1). reflexivity.
    + intros a s j. prims. rewrite (elem_field F) by (intro; apply H1).
      rewrite (elem_field F) by (intro; apply H2). reflexivity.
  - prims. rewrite !(elem_field F) by (intro; apply H1). reflexivity.
Qed.

Lemma set_handle_unbound_has_class (c : CtrlId) (value : JSValue) (st : State)
  (e : ElemId) (cls : string) :
  has_class (set_handle_unbound c value st) e cls
  = has_class st e cls
    && negb (Nat.eqb e (body (doc st)) && String.eqb cls CLOSE_HAND_CLASS)
    && negb (Nat.eqb e (_dragElement (ctrls st c)) && String.eqb cls IS_DRAGGING_CLASS)
    && negb (mem e (grips (ctrls st c)) && String.eqb cls OPEN_HAND_CLASS).
Proof.
  unfold set_handle_unbound. cbv zeta.
  set (s2 := this_vent_off c (modify_ctrl c (with_handle value) st)).
  change (body (doc s2)) with (body (doc st)).
  set (s4 := remove_class (_dragElement (ctrls st c)) IS_DRAGGING_CLASS
               (remove_class (body (doc st)) CLOSE_HAND_CLASS s2)).
  assert (Hh : _handles (ctrls s4 c) = _handles (ctrls st c)).
  { unfold s4, s2. frames. reflexivity. }
  assert (H4 : has_class s4 e cls
               = has_class st e cls
                 && negb (Nat.eqb e (body (doc st)) && String.eqb cls CLOSE_HAND_CLASS)
                 && negb (Nat.eqb e (_dragElement (ctrls st c))
                          && String.eqb cls IS_DRAGGING_CLASS)).
  { unfold s4. rewrite !has_class_remove. reflexivity. }
  rewrite Hh, mem_grips.
  destruct (nonempty (_handles (ctrls st c))).
  - rewrite has_class_forEach_remove by apply vent_off_has_class.
    now rewrite H4.
  - rewrite has_class_remove. now rewrite H4.
Qed.

Lemma set_handle_unbound_accepts (c : CtrlId) (value : JSValue) (st : State) :
  accepts (set_handle_unbound c value st) value = accepts st value.
Proof.
  apply accepts_ext. intros i. now apply (set_handle_unbound_field info).
Qed.

Lemma set_handle_unbound_transformToArray (c : CtrlId) (value : JSValue) (st : State) :
  transformToArray (set_handle_unbound c value st) value = transformToArray st value.
Proof.
  apply transformToArray_ext; [apply set_handle_unbound_doc|].
  intros i. now apply (set_handle_unbound_field info).
Qed.

Lemma valid_selector_ext (st st' : State) (selector : string) :
  doc st' = doc st -> valid_selector st' selector = valid_selector st selector.
Proof. intros H. unfold valid_selector. now rewrite H. Qed.

Lemma selector_fails_ext (st st' : State) (value : JSValue) :
  doc st' = doc st -> selector_fails st' value = selector_fails st value.
Proof.
  intros H. destruct value; try reflexivity. simpl.
  now rewrite (valid_selector_ext _ _ _ H).
Qed.

Lemma selector_fails_string (st : State) (value : JSValue) :
  selector_fails st value = true ->
  exists s, value = VString s /\ valid_selector st s = false.
Proof.
  destruct value; try discriminate. simpl. intros H. exists s. split; [reflexivity|].
  now apply negb_true_iff in H.
Qed.

Lemma transformToArray_call_cases (st : State) (value : JSValue) :
  transformToArray_call st value
  = if selector_fails st value then Throw invalid_selector st
    else Ok (transformToArray st value) st.
Proof. destruct value; try reflexivity. simpl. now destruct (valid_selector st s). Qed.

(** The call of the handle setter fails where the lookup fails, the old
    handles being unbound already; otherwise it is the setter run to its
    end. *)
Lemma set_handle_call_cases (c : CtrlId) (value : JSValue) (st : State) :
  set_handle_call c value st
  = if selector_fails st value
    then Throw invalid_selector (set_handle_unbound c value st)
    else Ok tt (set_handle c value st).
Proof.
  rewrite set_handle_steps.
  assert (E : set_handle_call c value st
              = let dragElement := _dragElement (ctrls st c) in
                let st := set_handle_unbound c value st in
                if accepts st value then
                  bind (transformToArray_call st value) (fun handles st =>
                    let st := modify_ctrl c (with_handles handles) st in
                    Ok tt
                      (if nonempty (_handles (ctrls st c)) then
                         forEach (the_list (_handles (ctrls st c))) (fun handle s =>
                           add_class handle OPEN_HAND_CLASS (vent_on c handle s)) st
                       else
                         add_class dragElement OPEN_HAND_CLASS (this_vent_on c st)))
                else
                  let st := modify_ctrl c (with_handles (Some [])) st in
                  Ok tt (add_class dragElement OPEN_HAND_CLASS (this_vent_on c st)))
    by reflexivity.
  rewrite E. clear E. cbv zeta.
  rewrite <- (selector_fails_ext st (set_handle_unbound c value st) value)
    by apply set_handle_unbound_doc.
  generalize (set_handle_unbound c value st). intros u.
  rewrite transformToArray_call_cases.
  destruct (selector_fails u value) eqn:F.
  - destruct (selector_fails_string u value F) as (s & -> & _). reflexivity.
  - destruct (accepts u value); reflexivity.
Qed.

(** The two ways the setter ends, by whether the value designates handles. *)
Lemma set_handle_cases (c : CtrlId) (value : JSValue) (st : State) :
  let u := set_handle_unbound c value st in
  let hs := designated st value in
  set_handle c value st
  = match hs with
    | _ :: _ =>
        forEach hs (fun handle s => add_class handle OPEN_HAND_CLASS (vent_on c handle s))
          (modify_ctrl c (with_handles (Some hs)) u)
    | [] =>
        add_class (_dragElement (ctrls st c)) OPEN_HAND_CLASS
          (this_vent_on c (modify_ctrl c (with_handles (Some [])) u))
    end.
Proof.
  intros u hs. rewrite set_handle_steps. cbv zeta. fold u.
  assert (Hx : accepts u value = accepts st value) by apply set_handle_unbound_accepts.
  assert (Ht : transformToArray u value = transformToArray st value)
    by apply set_handle_unbound_transformToArray.
  rewrite Hx, !Ht, !ctrls_modify_same. cbn [_handles with_handles].
  destruct (accepts st value) eqn:Ha.
  - pose proof (transformToArray_accepts st value) as Hs. rewrite Ha in Hs.
    pose proof (transformToArray_designated st value) as Hd. fold hs in Hd.
    destruct (transformToArray st value) as [l|]; [|discriminate].
    simpl in Hd. subst l. destruct hs; reflexivity.
  - unfold hs. rewrite (designated_rejected st value Ha). reflexivity.
Qed.

Lemma set_handle_ctrl_field {B : Type} (G : DragAction -> B) (c : CtrlId)
  (value : JSValue) (st : State) (i : CtrlId) :
  (forall v this, G (with_handle v this) = G this) ->
  (forall v this, G (with_handles v this) = G this) ->
  (forall v this, G (with_dragEvents v this) = G this) ->
  G (ctrls (set_handle c value st) i) = G (ctrls st i).
Proof.
  intros H1 H2 H3. rewrite set_handle_cases. cbv zeta.
  rewrite <- (set_handle_unbound_ctrl_field G c value st i H1 H3).
  generalize (set_handle_unbound c value st). intros u.
  destruct (designated st value).
  - unfold add_class, this_vent_on.
    change (ctrls (modify_elem ?e ?f ?s)) with (ctrls s).
    rewrite (ctrl_field G) by (intro; apply H3).
    now rewrite (ctrl_field G) by (intro; apply H2).
  - rewrite (forEach_ctrl G) by (intros; frame; reflexivity).
    now rewrite (ctrl_field G) by (intro; apply H2).
Qed.

Lemma set_handle_handles (c : CtrlId) (value : JSValue) (st : State) :
  _handles (ctrls (set_handle c value st) c) = Some (designated st value).
Proof.
  rewrite set_handle_cases. cbv zeta.
  generalize (set_handle_unbound c value st). intros u.
  destruct (designated st value).
  - unfold add_class, this_vent_on.
    change (ctrls (modify_elem ?e ?f ?s)) with (ctrls s).
    rewrite (ctrl_field _handles) by (intro; reflexivity).
    now rewrite ctrls_modify_same.
  - rewrite (forEach_ctrl _handles) by (intros; frame; reflexivity).
    now rewrite ctrls_modify_same.
Qed.



Lemma set_handle_doc (c : CtrlId) (value : JSValue) (st : State) :
  doc (set_handle c value st) = doc st.
Proof.
  rewrite set_handle_cases. cbv zeta.
  rewrite <- (set_handle_unbound_doc c value st).
  generalize (set_handle_unbound c value st). intros u.
  destruct (designated st value); frames; reflexivity.
Qed.

Lemma set_handle_dispatched (c : CtrlId) (value : JSValue) (st : State) :
  dispatched (set_handle c value st) = dispatched st.
Proof.
  rewrite set_handle_cases. cbv zeta.
  rewrite <- (set_handle_unbound_dispatched c value st).
  generalize (set_handle_unbound c value st). intros u.
  destruct (designated st value); frames; reflexivity.
Qed.

Lemma set_handle_field {B : Type} (F : Element -> B) (c : CtrlId)
  (value : JSValue) (st : State) (i : ElemId) :
  (forall v el, F (el_with_classList v el) = F el) ->
  (forall v el, F (el_with_dragEvents v el) = F el) ->
  F (elems (set_handle c value st) i) = F (elems st i).
Proof.
  intros H1 H2. rewrite set_handle_cases. cbv zeta.
  rewrite <- (set_handle_unbound_field F c value st i H1 H2).
  generalize (set_handle_unbound c value st). intros u.
  destruct (designated st value).
  - unfold add_class, this_vent_on.
    now rewrite (elem_field F) by (intro; apply H1).
  - rewrite (forEach_elem F); [reflexivity|].
    intros a s j. unfold add_class, vent_on.
    rewrite (elem_field F) by (intro; apply H1).
    now rewrite (elem_field F) by (intro; apply H2).
Qed.

Lemma set_handle_has_class (c : CtrlId) (value : JSValue) (st : State)
  (e : ElemId) (cls : string) :
  has_class (set_handle c value st) e cls
  = has_class (set_handle_unbound c value st) e cls
    || (mem e (grips (ctrls (set_handle c value st) c)) && String.eqb cls OPEN_HAND_CLASS).
Proof.
  rewrite mem_grips, set_handle_handles.
  rewrite (set_handle_ctrl_field _dragElement) by reflexivity.
  rewrite set_handle_cases. cbv zeta.
  generalize (set_handle_unbound c value st). intros u.
  destruct (designated st value) as [|h l].
  - cbn [nonempty]. now rewrite has_class_add.
  - cbn [nonempty the_list].
    now rewrite has_class_forEach_add by apply vent_on_has_class.
Qed.


(** X8.  Assigning [handle] while a session is under way ends the session
    without a word: the drag element loses the dragging mark, so the moves
    and the release that follow do nothing; no notification is emitted, no
    drag-end either; and the overflow the session has set on the body and
    the container stays as the session set it. *)
Theorem set_handle_ends_session (c : CtrlId) (value : JSValue) (event : PointerEvent)
  (st : State) :
  let st' := set_handle c value st in
  is_dragging st' c = false
  /\ emitted st st' = []
  /\ (forall i, style (elems st' i) = style (elems st i)
                /\ _overflow (elems st' i) = _overflow (elems st i))
  /\ _drag c event st' = Ok tt st'
  /\ _dragEnd c event st' = Ok tt st'.
Proof.
  intros st'.
  assert (Hd : is_dragging st' c = false).
  { unfold is_dragging, st'.
    rewrite (set_handle_ctrl_field _dragElement) by reflexivity.
    rewrite set_handle_has_class, set_handle_unbound_has_class.
    rewrite Nat.eqb_refl.
    change (String.eqb IS_DRAGGING_CLASS IS_DRAGGING_CLASS) with true.
    change (String.eqb IS_DRAGGING_CLASS OPEN_HAND_CLASS) with false.
    cbn [andb negb]. now rewrite !andb_false_r. }
  split; [exact Hd|]. split.
  { apply emitted_app. unfold st'. now rewrite set_handle_dispatched, app_nil_r. }
  split.
  { intros i. unfold st'. split.
    - now apply (set_handle_field style).
    - now apply (set_handle_field _overflow). }
  unfold _drag, _dragEnd. now rewrite Hd.
Qed.

(** ** Drop zones *)

Lemma set_dropZone_cases (c : CtrlId) (value : JSValue) (st : State) :
  set_dropZone c value st
  = modify_ctrl c (with_dropZones (designated st value))
      (modify_ctrl c (with_dropZoneEntered false)
         (modify_ctrl c (with_dropZone value) st)).
Proof.
  unfold set_dropZone. cbv zeta.
  set (s := modify_ctrl c (with_dropZoneEntered false) _).
  assert (Ha : accepts s value = accepts st value) by (apply accepts_ext; reflexivity).
  assert (Ht : transformToArray s value = transformToArray st value)
    by (apply transformToArray_ext; reflexivity).
  rewrite Ha, Ht, transformToArray_designated.
  destruct (accepts st value) eqn:E; [reflexivity|].
  now rewrite (designated_rejected st value E).
Qed.

Lemma set_dropZone_call_cases (c : CtrlId) (value : JSValue) (st : State) :
  set_dropZone_call c value st
  = if selector_fails st value
    then Throw invalid_selector (set_dropZone_stored c value st)
    else Ok tt (set_dropZone c value st).
Proof.
  unfold set_dropZone_call, set_dropZone, set_dropZone_stored. cbv zeta.
  set (s := modify_ctrl c (with_dropZoneEntered false) _).
  rewrite transformToArray_call_cases.
  assert (Hf : selector_fails s value = selector_fails st value)
    by (apply selector_fails_ext; reflexivity).
  rewrite Hf. destruct (selector_fails st value) eqn:F.
  - destruct (selector_fails_string st value F) as (sel & -> & _). reflexivity.
  - destruct (accepts s value); reflexivity.
Qed.

(** One move of a session: what it dispatches, in order. *)
Lemma drag_body_dispatched (c : CtrlId) (k : ElemId) (event : PointerEvent) (st : State) :
  let st' := drag_body c k event st in
  let e := _dragElement (ctrls st c) in
  let p := getPagePosition event in
  dispatched st'
  = dispatched st
    ++ mkNotification drag e (x p) (y p) None
    :: match isOverDropZone st' c with
       | Some z =>
           (if _dropZoneEntered (ctrls st c) then []
            else [mkNotification dragenter e (x p) (y p) (Some z)])
           ++ [mkNotification dragover e (x p) (y p) (Some z)]
       | None =>
           if _dropZoneEntered (ctrls st c)
           then [mkNotification dragleave e (x p) (y p) (_dropElement (ctrls st c))]
           else []
       end.
Proof.
  intros st' e p. unfold st', drag_body.
  set (m := measure c k event st).
  set (n := mkNotification drag _ _ _ _).
  set (s := drag_position c m (drag_scroll c k m (removeAllRanges (dispatch n st)))).
  assert (Hd : dispatched s = dispatched st ++ [n]).
  { unfold s. now rewrite drag_position_dispatched, drag_scroll_dispatched. }
  assert (Hc : ctrls s = ctrls st).
  { unfold s. now rewrite drag_position_ctrls, drag_scroll_ctrls. }
  rewrite drag_dropzone_isOver.
  change (pagePosition m) with p.
  destruct (isOverDropZone s c) as [z|] eqn:E.
  - destruct (drag_dropzone_over c p s z E) as (H1 & _).
    rewrite H1, Hd, Hc, <- app_assoc. reflexivity.
  - destruct (drag_dropzone_out c p s E) as (H1 & _).
    rewrite H1, Hd, Hc, <- app_assoc. reflexivity.
Qed.

Lemma Ok_state {A : Type} (a b : A) (s s' : State) : Ok a s = Ok b s' -> s = s'.
Proof. intros E. now injection E. Qed.

Lemma drag_active (c : CtrlId) (k : ElemId) (event : PointerEvent) (st : State) :
  is_dragging st c = true ->
  _container (ctrls st c) = Some k ->
  _drag c event st = Ok tt (drag_body c k event st).
Proof. intros Hd Hk. unfold _drag. now rewrite Hd, Hk. Qed.

(** X9.  Each move of a session under way emits a drag notification with
    the pointer position first; then, if the drag element is over a zone
    after the move, drag-enter (unless a zone was entered already) and
    drag-over, both naming the first zone it intersects; if it is over none
    and a zone was entered, drag-leave naming the zone recorded last. *)
Theorem drag_notifies (c : CtrlId) (k : ElemId) (event : PointerEvent) (st : State) :
  is_dragging st c = true ->
  _container (ctrls st c) = Some k ->
  let e := _dragElement (ctrls st c) in
  let p := getPagePosition event in
  exists st',
    _drag c event st = Ok tt st'
    /\ emitted st st'
       = mkNotification drag e (x p) (y p) None
         :: match isOverDropZone st' c with
            | Some z =>
                (if _dropZoneEntered (ctrls st c) then []
                 else [mkNotification dragenter e (x p) (y p) (Some z)])
                ++ [mkNotification dragover e (x p) (y p) (Some z)]
            | None =>
                if _dropZoneEntered (ctrls st c)
                then [mkNotification dragleave e (x p) (y p) (_dropElement (ctrls st c))]
                else []
            end.
Proof.
  intros Hd Hk e p. exists (drag_body c k event st).
  split; [now apply drag_active|].
  apply emitted_app. apply drag_body_dispatched.
Qed.

Lemma drag_notifies_witness :
  let st := pressed free_card 120 120 in
  exists st',
    _drag 1%nat (mouse 450 450) st = Ok tt st'
    /\ emitted st st'
       = [mkNotification drag card (Num 450) (Num 450) None;
          mkNotification dragenter card (Num 450) (Num 450) (Some zone);
          mkNotification dragover card (Num 450) (Num 450) (Some zone)].
Proof.
  intros st.
  pose proof (drag_notifies 1%nat panel (mouse 450 450) st) as H.
  assert (H1 : is_dragging st 1%nat = true) by (vm_compute; reflexivity).
  assert (H2 : _container (ctrls st 1%nat) = Some panel) by (vm_compute; reflexivity).
  specialize (H H1 H2). cbv zeta in H.
  destruct H as (st' & E & H). exists st'. split; [exact E|].
  rewrite H. clear H.
  rewrite (drag_active 1%nat panel _ st H1 H2) in E.
  apply Ok_state in E. subst st'.
  assert (Ez : isOverDropZone (drag_body 1%nat panel (mouse 450 450) st) 1%nat
               = Some zone) by (vm_compute; reflexivity).
  rewrite Ez. vm_compute. reflexivity.
Defined.



(** ** Sessions of a controller that has no drop zone *)

Lemma isOverDropZone_no_zone (st : State) (c : CtrlId) :
  _dropZones (ctrls st c) = [] -> isOverDropZone st c = None.
Proof. intros H. unfold isOverDropZone. cbv zeta. now rewrite H. Qed.

Lemma drag_moves_no_zone (c : CtrlId) (k : ElemId) (moves : list PointerEvent) :
  forall st,
    is_dragging st c = true ->
    _container (ctrls st c) = Some k ->
    _dropZones (ctrls st c) = [] ->
    _dropZoneEntered (ctrls st c) = false ->
    exists st' l,
      drag_moves c moves st = Ok tt st'
      /\ dispatched st' = dispatched st ++ l
      /\ map n_type l = repeat drag (List.length moves)
      /\ is_dragging st' c = true
      /\ _container (ctrls st' c) = Some k
      /\ _dropZones (ctrls st' c) = []
      /\ _dropZoneEntered (ctrls st' c) = false.
Proof.
  induction moves as [|event rest IH]; intros st Hd Hk Hz He.
  - exists st, []. rewrite app_nil_r. repeat split; auto.
  - set (s := drag_body c k event st).
    assert (Hz' : _dropZones (ctrls s c) = []).
    { unfold s. now rewrite (drag_body_ctrl_field _dropZones). }
    assert (Ho : isOverDropZone s c = None) by now apply isOverDropZone_no_zone.
    assert (He' : _dropZoneEntered (ctrls s c) = false).
    { destruct (drag_body_zone c k event st) as (_ & _ & _ & H & _).
      fold s in H. now rewrite H, Ho. }
    assert (Hs : dispatched s
                 = dispatched st
                   ++ [mkNotification drag (_dragElement (ctrls st c))
                         (x (getPagePosition event)) (y (getPagePosition event)) None]).
    { pose proof (drag_body_dispatched c k event st) as H. cbv zeta in H.
      fold s in H. now rewrite Ho, He in H. }
    destruct (IH s) as (st' & l & E & Hl & Ht & Hd' & Hk' & Hz'' & He''); auto.
    { unfold s. now rewrite drag_body_dragging. }
    { unfold s. now rewrite (drag_body_ctrl_field _container). }
    exists st', (mkNotification drag (_dragElement (ctrls st c))
                   (x (getPagePosition event)) (y (getPagePosition event)) None :: l).
    split.
    { cbn [drag_moves]. rewrite (drag_active c k event st Hd Hk). exact E. }
    split; [rewrite Hl, Hs, <- app_assoc; reflexivity|].
    split; [cbn; now rewrite Ht|]. auto.
Qed.

(** X11.  A session of a controller that has no drop zone completes and
    emits drag-start, then one drag for each move, then drag-end, and
    nothing else: no zone notification and no drop. *)
Theorem session_without_zone (c : CtrlId) (down : PointerEvent)
  (moves : list PointerEvent) (up : PointerEvent) (st : State) :
  _dropZones (ctrls st c) = [] ->
  _dropZoneEntered (ctrls st c) = false ->
  exists st',
    session c down moves up st = Ok tt st'
    /\ map n_type (emitted st st')
       = dragstart :: repeat drag (List.length moves) ++ [dragend].
Proof.
  intros Hz He.
  set (st1 := _dragStart c down st).
  destruct (drag_moves_no_zone c (container_of st c) moves st1)
    as (st2 & l & E & Hl & Ht & Hd & Hk & Hz2 & He2).
  { apply dragStart_dragging. }
  { apply dragStart_container. }
  { unfold st1. now rewrite (dragStart_ctrl_field _dropZones). }
  { unfold st1. now rewrite (dragStart_ctrl_field _dropZoneEntered). }
  destruct (dragEnd_emits c (container_of st c) up st2 Hd Hk) as (st3 & E3 & H3).
  exists st3. split.
  { unfold session. fold st1. rewrite E. exact E3. }
  rewrite He2 in H3. cbn [app] in H3.
  unfold st1 in Hl. rewrite dragStart_dispatched in Hl.
  rewrite Hl, <- !app_assoc in H3.
  rewrite (emitted_app _ _ _ H3).
  rewrite !map_app, Ht. reflexivity.
Qed.

Lemma session_without_zone_witness :
  let st := built (card_info 50 50 None None false false) in
  exists st',
    session 1%nat (mouse 120 120) sweep (mouse 120 120) st = Ok tt st'
    /\ map n_type (emitted st st')
       = [dragstart; drag; drag; drag; drag; drag; drag; drag; dragend].
Proof.
  intros st.
  apply (session_without_zone 1%nat (mouse 120 120) sweep (mouse 120 120) st);
    vm_compute; reflexivity.
Defined.

(** ** Destroying a controller *)

Lemma destroy_steps (c : CtrlId) (r : bool) (st : State) :
  destroy c r st
  = destroy_position (ctrls st c) r
      (destroy_overflow (ctrls st c) (destroy_unbound c st)).
Proof. reflexivity. Qed.

Lemma this_vent_off_has_class (c : CtrlId) (s : State) (i : ElemId) (cls : string) :
  has_class (this_vent_off c s) i cls = has_class s i cls.
Proof. reflexivity. Qed.

Lemma destroy_unbound_has_class (c : CtrlId) (st : State) (e : ElemId) (cls : string) :
  has_class (destroy_unbound c st) e cls
  = has_class st e cls
    && negb (Nat.eqb e (body (doc st)) && String.eqb cls CLOSE_HAND_CLASS)
    && negb (Nat.eqb e (_dragElement (ctrls st c)) && String.eqb cls IS_DRAGGING_CLASS)
    && negb (mem e (grips (ctrls st c)) && String.eqb cls OPEN_HAND_CLASS).
Proof.
  unfold destroy_unbound. cbv zeta. rewrite mem_grips.
  destruct (nonempty (_handles (ctrls st c))).
  - rewrite has_class_forEach_remove by apply vent_off_has_class.
    now rewrite !has_class_remove.
  - rewrite has_class_remove, this_vent_off_has_class.
    now rewrite !has_class_remove.
Qed.

Lemma destroy_unbound_field {B : Type} (F : Element -> B) (c : CtrlId)
  (st : State) (i : ElemId) :
  (forall v el, F (el_with_classList v el) = F el) ->
  (forall v el, F (el_with_dragEvents v el) = F el) ->
  F (elems (destroy_unbound c st) i) = F (elems st i).
Proof.
  intros H1 H2. unfold destroy_unbound. cbv zeta.
  destruct (nonempty (_handles (ctrls st c))).
  - rewrite (forEach_elem F).
    + unfold remove_class. now rewrite !(elem_field F) by (intro; apply H1).
    + intros a s j. unfold remove_class, vent_off.
      rewrite (elem_field F) by (intro; apply H1).
      now rewrite (elem_field F) by (intro; apply H2).
  - unfold remove_class, this_vent_off.
    rewrite (elem_field F) by (intro; apply H1).
    change (elems (modify_ctrl ?a ?f ?s)) with (elems s).
    now rewrite !(elem_field F) by (intro; apply H1).
Qed.

Lemma destroy_unbound_ctrl_field {B : Type} (G : DragAction -> B) (c : CtrlId)
  (st : State) (i : CtrlId) :
  (forall v this, G (with_dragEvents v this) = G this) ->
  G (ctrls (destroy_unbound c st) i) = G (ctrls st i).
Proof.
  intros H. unfold destroy_unbound. cbv zeta.
  destruct (nonempty (_handles (ctrls st c))).
  - now rewrite (forEach_ctrl G) by (intros; frame; reflexivity).
  - unfold remove_class, this_vent_off.
    change (ctrls (modify_elem ?a ?f ?s)) with (ctrls s).
    now rewrite (ctrl_field G) by (intro; apply H).
Qed.

Lemma destroy_unbound_doc (c : CtrlId) (st : State) : doc (destroy_unbound c st) = doc st.
Proof.
  unfold destroy_unbound. cbv zeta.
  destruct (nonempty (_handles (ctrls st c))); frames; reflexivity.
Qed.

Lemma destroy_unbound_dispatched (c : CtrlId) (st : State) :
  dispatched (destroy_unbound c st) = dispatched st.
Proof.
  unfold destroy_unbound. cbv zeta.
  destruct (nonempty (_handles (ctrls st c))); frames; reflexivity.
Qed.

Lemma destroy_unbound_events (c : CtrlId) (st : State) :
  events (destroy_unbound c st) = events st.
Proof.
  unfold destroy_unbound. cbv zeta.
  destruct (nonempty (_handles (ctrls st c))); frames; reflexivity.
Qed.

Lemma destroy_overflow_field {B : Type} (F : Element -> B) (this : DragAction)
  (st : State) (i : ElemId) :
  (forall v el, F (el_with_overflow v el) = F el) ->
  (forall s el, F (el_with_style (with_style_overflow s (style el)) el) = F el) ->
  F (elems (destroy_overflow this st) i) = F (elems st i).
Proof.
  intros H1 H2. unfold destroy_overflow. cbv zeta.
  assert (R : forall e s, F (elems (restore_overflow e s) i) = F (elems s i)).
  { intros e s. now apply restore_overflow_field. }
  repeat match goal with
  | |- context [if ?b then _ else _] => destruct b
  | |- context [match ?o with Some _ => _ | None => _ end] => destruct o
  end; rewrite ?R; reflexivity.
Qed.

Lemma destroy_overflow_ctrls (this : DragAction) (st : State) :
  ctrls (destroy_overflow this st) = ctrls st.
Proof.
  unfold destroy_overflow. cbv zeta.
  repeat match goal with
  | |- context [if ?b then _ else _] => destruct b
  | |- context [match ?o with Some _ => _ | None => _ end] => destruct o
  end; rewrite ?restore_overflow_ctrls; reflexivity.
Qed.

Lemma destroy_overflow_doc (this : DragAction) (st : State) :
  doc (destroy_overflow this st) = doc st.
Proof.
  unfold destroy_overflow. cbv zeta.
  repeat match goal with
  | |- context [if ?b then _ else _] => destruct b
  | |- context [match ?o with Some _ => _ | None => _ end] => destruct o
  end; rewrite ?restore_overflow_doc; reflexivity.
Qed.

Lemma destroy_overflow_dispatched (this : DragAction) (st : State) :
  dispatched (destroy_overflow this st) = dispatched st.
Proof.
  unfold destroy_overflow. cbv zeta.
  repeat match goal with
  | |- context [if ?b then _ else _] => destruct b
  | |- context [match ?o with Some _ => _ | None => _ end] => destruct o
  end; rewrite ?restore_overflow_dispatched; reflexivity.
Qed.

Lemma destroy_position_ctrls (this : DragAction) (r : bool) (st : State) :
  ctrls (destroy_position this r st) = ctrls st.
Proof. unfold destroy_position. destruct r; reflexivity. Qed.

Lemma destroy_position_doc (this : DragAction) (r : bool) (st : State) :
  doc (destroy_position this r st) = doc st.
Proof. unfold destroy_position. destruct r; reflexivity. Qed.

Lemma destroy_position_dispatched (this : DragAction) (r : bool) (st : State) :
  dispatched (destroy_position this r st) = dispatched st.
Proof. unfold destroy_position. destruct r; reflexivity. Qed.

(** What [destroy] leaves of an element when the position is not asked
    back, and what it leaves in any case. *)
Lemma destroy_position_kept {B : Type} (F : Element -> B) (this : DragAction)
  (st : State) (i : ElemId) :
  (forall v el, F (el_with_dragAction v el) = F el) ->
  F (elems (destroy_position this false st) i) = F (elems st i).
Proof.
  intros H. unfold destroy_position, set_dragAction. cbv zeta.
  now rewrite (elem_field F) by (intro; apply H).
Qed.

Lemma destroy_position_field {B : Type} (F : Element -> B) (this : DragAction)
  (r : bool) (st : State) (i : ElemId) :
  (forall v el, F (el_with_dragAction v el) = F el) ->
  (forall v el, F (el_with_style v el) = F el) ->
  F (elems (destroy_position this r st) i) = F (elems st i).
Proof.
  intros H1 H2. unfold destroy_position, set_dragAction. cbv zeta.
  rewrite (elem_field F) by (intro; apply H1).
  destruct r; [|reflexivity].
  cbn [write_style_top write_style_left]. unfold write_style_position.
  now rewrite !(elem_field F) by (intro; apply H2).
Qed.

Lemma destroy_has_class (c : CtrlId) (r : bool) (st : State) (e : ElemId) (cls : string) :
  has_class (destroy c r st) e cls = has_class (destroy_unbound c st) e cls.
Proof.
  apply has_class_ext. rewrite destroy_steps.
  rewrite (destroy_position_field classList) by reflexivity.
  now rewrite (destroy_overflow_field classList).
Qed.

Lemma destroy_ctrl_field {B : Type} (G : DragAction -> B) (c : CtrlId) (r : bool)
  (st : State) (i : CtrlId) :
  (forall v this, G (with_dragEvents v this) = G this) ->
  G (ctrls (destroy c r st) i) = G (ctrls st i).
Proof.
  intros H. rewrite destroy_steps, destroy_position_ctrls, destroy_overflow_ctrls.
  now apply destroy_unbound_ctrl_field.
Qed.

Lemma destroy_doc (c : CtrlId) (r : bool) (st : State) : doc (destroy c r st) = doc st.
Proof.
  rewrite destroy_steps, destroy_position_doc, destroy_overflow_doc.
  apply destroy_unbound_doc.
Qed.

Lemma destroy_dispatched (c : CtrlId) (r : bool) (st : State) :
  dispatched (destroy c r st) = dispatched st.
Proof.
  rewrite destroy_steps, destroy_position_dispatched, destroy_overflow_dispatched.
  apply destroy_unbound_dispatched.
Qed.

Lemma mem_In (e : ElemId) (l : list ElemId) : In e l -> mem e l = true.
Proof.
  intros H. unfold mem. apply existsb_exists. exists e. split; [exact H|].
  apply Nat.eqb_refl.
Qed.

(** X12.  [destroy] lets go of the drag element whatever the controller was
    doing: the element has no owner, it does not carry the dragging mark (so
    the move and release handlers do nothing from then on), the body has no
    closed hand, no element that took the pointer-down has the open hand,
    the window holds no listener of the instance; and nothing is notified,
    not even drag-end when a session was under way. *)
Theorem destroy_releases (c : CtrlId) (r : bool) (event : PointerEvent) (st : State) :
  let st' := destroy c r st in
  dragAction (elems st' (_dragElement (ctrls st c))) = None
  /\ is_dragging st' c = false
  /\ has_class st' (body (doc st)) CLOSE_HAND_CLASS = false
  /\ (forall g, In g (grips (ctrls st c)) -> has_class st' g OPEN_HAND_CLASS = false)
  /\ (forall l, In l (events st') -> l_ns l <> NsDragActionId (_id (ctrls st c)))
  /\ emitted st st' = []
  /\ _drag c event st' = Ok tt st'
  /\ _dragEnd c event st' = Ok tt st'.
Proof.
  intros st'.
  assert (Hd : is_dragging st' c = false).
  { unfold is_dragging, st'.
    rewrite (destroy_ctrl_field _dragElement) by reflexivity.
    rewrite destroy_has_class, destroy_unbound_has_class, Nat.eqb_refl.
    change (String.eqb IS_DRAGGING_CLASS IS_DRAGGING_CLASS) with true.
    cbn [andb negb]. now rewrite andb_false_r. }
  split; [apply destroy_dragAction|]. split; [exact Hd|]. split.
  { unfold st'. rewrite destroy_has_class, destroy_unbound_has_class, Nat.eqb_refl.
    change (String.eqb CLOSE_HAND_CLASS CLOSE_HAND_CLASS) with true.
    cbn [andb negb]. now rewrite andb_false_r. }
  split.
  { intros g Hg. unfold st'.
    rewrite destroy_has_class, destroy_unbound_has_class, (mem_In g _ Hg).
    change (String.eqb OPEN_HAND_CLASS OPEN_HAND_CLASS) with true.
    cbn [andb negb]. now rewrite andb_false_r. }
  split.
  { intros l Hl E. unfold st' in Hl. rewrite destroy_events in Hl.
    apply off_gone in Hl. rewrite E in Hl. cbn [ns_eqb] in Hl.
    now rewrite Nat.eqb_refl in Hl. }
  split.
  { apply emitted_app. unfold st'. now rewrite destroy_dispatched, app_nil_r. }
  unfold _drag, _dragEnd. now rewrite Hd.
Qed.

(** ** What construction sets up *)

Lemma destroy_existing_field {B : Type} (F : Element -> B) (el : ElemId)
  (st : State) (i : ElemId) :
  (forall v e, F (el_with_classList v e) = F e) ->
  (forall v e, F (el_with_dragEvents v e) = F e) ->
  (forall v e, F (el_with_overflow v e) = F e) ->
  (forall s e, F (el_with_style (with_style_overflow s (style e)) e) = F e) ->
  (forall v e, F (el_with_dragAction v e) = F e) ->
  F (elems (destroy_existing el st) i) = F (elems st i).
Proof.
  intros H1 H2 H3 H4 H5. unfold destroy_existing.
  destruct (dragAction (elems st el)) as [prior|]; [|reflexivity].
  rewrite destroy_steps.
  rewrite (destroy_position_kept F) by exact H5.
  rewrite (destroy_overflow_field F) by assumption.
  now apply destroy_unbound_field.
Qed.

Lemma destroy_existing_doc (el : ElemId) (st : State) :
  doc (destroy_existing el st) = doc st.
Proof.
  unfold destroy_existing. destruct (dragAction (elems st el)); [|reflexivity].
  apply destroy_doc.
Qed.

(** The setters of the configuration leave the elements alone. *)
Lemma set_dropZone_elems (c : CtrlId) (value : JSValue) (st : State) :
  elems (set_dropZone c value st) = elems st.
Proof. now rewrite set_dropZone_cases. Qed.

Lemma set_dropZone_ctrl_field {B : Type} (G : DragAction -> B) (c : CtrlId)
  (value : JSValue) (st : State) (i : CtrlId) :
  (forall v this, G (with_dropZone v this) = G this) ->
  (forall v this, G (with_dropZoneEntered v this) = G this) ->
  (forall v this, G (with_dropZones v this) = G this) ->
  G (ctrls (set_dropZone c value st) i) = G (ctrls st i).
Proof.
  intros H1 H2 H3. rewrite set_dropZone_cases.
  rewrite (ctrl_field G) by (intro; apply H3).
  rewrite (ctrl_field G) by (intro; apply H2).
  now rewrite (ctrl_field G) by (intro; apply H1).
Qed.

Lemma initialised_handle_field {B : Type} (F : Element -> B) (id : nat)
  (dragElement : JSValue) (el : ElemId) (st : State) (i : ElemId) :
  (forall v e, F (el_with_classList v e) = F e) ->
  (forall v e, F (el_with_dragEvents v e) = F e) ->
  F (elems (initialised_handle id dragElement el st) i) = F (elems st i).
Proof.
  intros H1 H2. unfold initialised_handle. cbv zeta.
  now rewrite (set_handle_field F).
Qed.

Lemma initialise_steps (id : nat) (dragElement : JSValue) (el : ElemId) (st : State) :
  initialise id dragElement el st
  = let i := info (elems st el) in
    let ns := NsDragActionId id in
    let s1 := initialised_handle id dragElement el st in
    let s2 := set_dropZone id (getAttribute (attr_dropzone i)) s1 in
    let s5 := set_containment id (VBool (attr_containment i))
                (set_scroll id (VBool (attr_scroll i))
                   (set_axis id (getAttribute (attr_axis i)) s2)) in
    set_dragAction el (Some id)
      (with_events
         (on "mouseup" ns (H_dragEnd id)
            (on "touchend" ns (H_dragEnd id)
               (on "mousemove" ns (H_drag id)
                  (on "touchmove" ns (H_drag id) (events s2))))) s5).
Proof.
  assert (I1 : info (elems (initialised_handle id dragElement el st) el)
               = info (elems st el)) by now apply initialised_handle_field.
  cbv zeta. rewrite <- I1. clear I1.
  unfold initialise, initialised_handle, new_instance. cbv zeta.
  set (s0 := with_ctrls _ st).
  set (s1 := set_handle id _ s0). clearbody s1. clear s0.
  assert (E2 : forall v, elems (set_dropZone id v s1) = elems s1)
    by (intros v; apply set_dropZone_elems).
  unfold set_containment, set_scroll, set_axis.
  cbn [elems modify_ctrl with_ctrls events]. rewrite !E2. reflexivity.
Qed.

Lemma designated_ext (st st' : State) (value : JSValue) :
  doc st' = doc st ->
  (forall i, info (elems st' i) = info (elems st i)) ->
  designated st' value = designated st value.
Proof.
  intros Hd H. destruct value; try reflexivity; simpl.
  - now rewrite Hd.
  - now rewrite H.
Qed.

Lemma initialised_handle_ctrl_field {B : Type} (G : DragAction -> B) (id : nat)
  (dragElement : JSValue) (el : ElemId) (st : State) :
  (forall v this, G (with_handle v this) = G this) ->
  (forall v this, G (with_handles v this) = G this) ->
  (forall v this, G (with_dragEvents v this) = G this) ->
  G (ctrls (initialised_handle id dragElement el st) id)
  = G (new_instance id dragElement el st).
Proof.
  intros H1 H2 H3. unfold initialised_handle. cbv zeta.
  rewrite (set_handle_ctrl_field G) by assumption.
  cbn [ctrls with_ctrls]. now rewrite upd_same.
Qed.

Lemma initialised_handle_handles (id : nat) (dragElement : JSValue) (el : ElemId)
  (st : State) :
  _handles (ctrls (initialised_handle id dragElement el st) id)
  = Some (designated st (getAttribute (attr_handle (info (elems st el))))).
Proof.
  unfold initialised_handle. cbv zeta. rewrite set_handle_handles. reflexivity.
Qed.

Lemma initialised_handle_doc (id : nat) (dragElement : JSValue) (el : ElemId)
  (st : State) :
  doc (initialised_handle id dragElement el st) = doc st.
Proof. unfold initialised_handle. cbv zeta. now rewrite set_handle_doc. Qed.

Lemma initialised_handle_dispatched (id : nat) (dragElement : JSValue) (el : ElemId)
  (st : State) :
  dispatched (initialised_handle id dragElement el st) = dispatched st.
Proof. unfold initialised_handle. cbv zeta. now rewrite set_handle_dispatched. Qed.

Lemma initialised_handle_idle (id : nat) (dragElement : JSValue) (el : ElemId)
  (st : State) :
  has_class (initialised_handle id dragElement el st) el IS_DRAGGING_CLASS = false.
Proof.
  unfold initialised_handle. cbv zeta.
  rewrite set_handle_has_class, set_handle_unbound_has_class.
  cbn [ctrls with_ctrls]. rewrite upd_same. cbn [new_instance _dragElement].
  rewrite Nat.eqb_refl.
  change (String.eqb IS_DRAGGING_CLASS IS_DRAGGING_CLASS) with true.
  change (String.eqb IS_DRAGGING_CLASS OPEN_HAND_CLASS) with false.
  cbn [andb negb]. now rewrite !andb_false_r.
Qed.

Lemma resolve_state (dragElement : JSValue) (st : State) (el : option ElemId)
  (st' : State) :
  resolve dragElement st = Ok el st' -> st' = st.
Proof.
  destruct dragElement; cbn [resolve]; try (intros E; now injection E).
  - destruct (valid_selector st s); [|discriminate].
    destruct (querySelector st s); intros E; [now injection E | discriminate E].
  - destruct (isHTMLElement (info (elems st e))); intros E; now injection E.
Qed.

(** The part of the constructor that assigns the options fails where the
    handle or the dropZone setter fails, and is otherwise run to its end. *)
Lemma initialise_call_cases (id : nat) (dragElement : JSValue) (el : ElemId) (st : State) :
  let s0 := with_ctrls (upd (ctrls st) id (new_instance id dragElement el st)) st in
  let h := getAttribute (attr_handle (info (elems st el))) in
  let z := getAttribute (attr_dropzone (info (elems st el))) in
  initialise_call id dragElement el st
  = if selector_fails st h then Throw invalid_selector (set_handle_unbound id h s0)
    else if selector_fails st z then
      Throw invalid_selector
        (set_dropZone_stored id z (initialised_handle id dragElement el st))
    else Ok tt (initialise id dragElement el st).
Proof.
  intros s0 h z. unfold initialise_call. cbv zeta. fold s0.
  change (elems s0 el) with (elems st el). fold h.
  rewrite set_handle_call_cases.
  change (selector_fails s0 h) with (selector_fails st h).
  destruct (selector_fails st h); [reflexivity|].
  cbn [bind].
  change (set_handle id h s0) with (initialised_handle id dragElement el st).
  rewrite initialise_steps. cbv zeta.
  assert (I1 : info (elems (initialised_handle id dragElement el st) el)
               = info (elems st el)) by now apply initialised_handle_field.
  assert (D1 : doc (initialised_handle id dragElement el st) = doc st)
    by apply initialised_handle_doc.
  generalize dependent (initialised_handle id dragElement el st). intros s1 I1 D1.
  rewrite I1. fold z. rewrite set_dropZone_call_cases.
  rewrite (selector_fails_ext st s1 z D1).
  destruct (selector_fails st z); [reflexivity|].
  cbn [bind].
  assert (E2 : forall v, elems (set_dropZone id v s1) = elems s1)
    by (intros v; apply set_dropZone_elems).
  unfold set_containment, set_scroll, set_axis.
  cbn [elems modify_ctrl with_ctrls events]. rewrite !E2, !I1. reflexivity.
Qed.

(** A construction on a resolved element continues, from the destruction of
    the controller the element may have, with the assignment of the
    options. *)
Lemma constructor_continues (dragElement : JSValue) (st : State) (el : ElemId) :
  truthy dragElement = true ->
  resolve dragElement st = Ok (Some el) st ->
  constructor dragElement st
  = bind (initialise_call (uid st) dragElement el
            (destroy_existing el (with_uid (S (uid st)) st)))
      (fun _ s => Ok (uid st) s).
Proof. intros H Hr. unfold constructor. rewrite H, Hr. reflexivity. Qed.

Lemma destroy_existing_fails (el : ElemId) (st : State) (a : ElemInfo -> option string) :
  selector_fails (destroy_existing el st)
    (getAttribute (a (info (elems (destroy_existing el st) el))))
  = selector_fails st (getAttribute (a (info (elems st el)))).
Proof.
  rewrite (destroy_existing_field info) by reflexivity.
  apply selector_fails_ext. apply destroy_existing_doc.
Qed.

Lemma constructor_resolved (dragElement : JSValue) (st : State) (el : ElemId) :
  truthy dragElement = true ->
  resolve dragElement st = Ok (Some el) st ->
  selector_fails st (getAttribute (attr_handle (info (elems st el)))) = false ->
  selector_fails st (getAttribute (attr_dropzone (info (elems st el)))) = false ->
  constructor dragElement st
  = Ok (uid st)
       (initialise (uid st) dragElement el
          (destroy_existing el (with_uid (S (uid st)) st))).
Proof.
  intros H Hr Hh Hz. rewrite (constructor_continues _ _ _ H Hr).
  rewrite initialise_call_cases. cbv zeta.
  rewrite (destroy_existing_fails el _ attr_handle).
  rewrite (destroy_existing_fails el _ attr_dropzone).
  change (selector_fails (with_uid (S (uid st)) st)) with (selector_fails st).
  change (elems (with_uid (S (uid st)) st)) with (elems st).
  rewrite Hh, Hz. reflexivity.
Qed.

Lemma constructor_inv (dragElement : JSValue) (st : State) (c : CtrlId) (st1 : State) :
  constructor dragElement st = Ok c st1 ->
  exists el,
    resolve dragElement st = Ok (Some el) st
    /\ c = uid st
    /\ st1 = initialise (uid st) dragElement el
               (destroy_existing el (with_uid (S (uid st)) st)).
Proof.
  unfold constructor. destruct (negb (truthy dragElement)); [discriminate|].
  destruct (resolve dragElement st) as [o s|e s] eqn:R; [|discriminate].
  pose proof (resolve_state _ _ _ _ R) as ->.
  cbn [bind]. destruct o as [el|]; [|discriminate].
  rewrite initialise_call_cases. cbv zeta.
  destruct (selector_fails _ _); [discriminate|].
  destruct (selector_fails _ _); [discriminate|].
  cbn [bind]. intros E. exists el. split; [reflexivity|].
  pose proof (Ok_state _ _ _ _ E) as Hs.
  apply (f_equal (fun r => match r with Ok a _ => a | Throw _ _ => uid st end)) in E.
  cbn in E. now split.
Qed.

(** X13.  A construction that succeeds configures the new controller from
    the drag element it resolves (the element itself, or the first match of
    the selector): the [dragElement] getter answers the argument as given,
    the element refers to the controller, the initial position is the
    element's computed position, left and top, the handles and drop zones
    are those its handle and dropzone attributes designate, axis, scroll and
    containment are read from its attributes; and the controller starts
    idle (no dragging mark, no zone entered) without notifying anything. *)
Theorem constructor_configures (dragElement : JSValue) (st : State) (c : CtrlId)
  (st1 : State) :
  constructor dragElement st = Ok c st1 ->
  let el := _dragElement (ctrls st1 c) in
  let i := info (elems st el) in
  resolve dragElement st = Ok (Some el) st
  /\ get_dragElement st1 c = dragElement
  /\ dragAction (elems st1 el) = Some c
  /\ _initialPosition (ctrls st1 c)
     = mkInitialPosition (style_position (style (elems st el)))
                         (style_left (style (elems st el)))
                         (style_top (style (elems st el)))
  /\ _handles (ctrls st1 c) = Some (designated st (getAttribute (attr_handle i)))
  /\ _dropZones (ctrls st1 c) = designated st (getAttribute (attr_dropzone i))
  /\ get_axis st1 c = axis_of (getAttribute (attr_axis i))
  /\ get_scroll st1 c = attr_scroll i
  /\ get_containment st1 c = attr_containment i
  /\ is_dragging st1 c = false
  /\ _dropZoneEntered (ctrls st1 c) = false
  /\ emitted st st1 = [].
Proof.
  intros E. destruct (constructor_inv _ _ _ _ E) as (el0 & Hr & -> & ->). clear E.
  set (s := destroy_existing el0 (with_uid (S (uid st)) st)).
  set (id := uid st).
  assert (Is : forall j, info (elems s j) = info (elems st j)).
  { intros j. unfold s. now rewrite (destroy_existing_field info). }
  assert (Ss : forall j, style_position (style (elems s j)) = style_position (style (elems st j))
                         /\ style_left (style (elems s j)) = style_left (style (elems st j))
                         /\ style_top (style (elems s j)) = style_top (style (elems st j))).
  { intros j. unfold s. repeat split.
    - now rewrite (destroy_existing_field (fun e => style_position (style e))).
    - now rewrite (destroy_existing_field (fun e => style_left (style e))).
    - now rewrite (destroy_existing_field (fun e => style_top (style e))). }
  assert (Ds : doc s = doc st) by (unfold s; now rewrite destroy_existing_doc).
  assert (Ps : dispatched s = dispatched st).
  { unfold s, destroy_existing. destruct (dragAction _); [|reflexivity].
    now rewrite destroy_dispatched. }
  rewrite initialise_steps. cbv zeta.
  set (s1 := initialised_handle id dragElement el0 s).
  set (s2 := set_dropZone id _ s1).
  assert (G : forall {B : Type} (F : DragAction -> B),
            (forall v this, F (with_handle v this) = F this) ->
            (forall v this, F (with_handles v this) = F this) ->
            (forall v this, F (with_dragEvents v this) = F this) ->
            (forall v this, F (with_dropZone v this) = F this) ->
            (forall v this, F (with_dropZoneEntered v this) = F this) ->
            (forall v this, F (with_dropZones v this) = F this) ->
            F (ctrls s2 id) = F (new_instance id dragElement el0 s)).
  { intros B F H1 H2 H3 H4 H5 H6. unfold s2.
    rewrite (set_dropZone_ctrl_field F) by assumption.
    now apply initialised_handle_ctrl_field. }
  unfold set_dragAction, set_containment, set_scroll, set_axis.
  unfold get_dragElement, get_axis, get_scroll, get_containment, is_dragging, has_class.
  cbn [ctrls modify_elem with_elems with_events].
  assert (El : _dragElement
                 (ctrls (modify_ctrl id (with_containment
                           (transform_boolean (VBool (attr_containment (info (elems s el0))))))
                        (modify_ctrl id (with_scroll
                           (transform_boolean (VBool (attr_scroll (info (elems s el0))))))
                        (modify_ctrl id (with_axis
                           (axis_of (getAttribute (attr_axis (info (elems s el0))))))
                         s2))) id) = el0).
  { rewrite !(ctrl_field _dragElement) by (intro; reflexivity).
    now rewrite (G _ _dragElement). }
  rewrite El.
  split; [exact Hr|]. split.
  { rewrite !(ctrl_field _dragElementValue) by (intro; reflexivity).
    now rewrite (G _ _dragElementValue). }
  split.
  { now rewrite elems_modify_same. }
  split.
  { rewrite !(ctrl_field _initialPosition) by (intro; reflexivity).
    rewrite (G _ _initialPosition) by reflexivity.
    cbn [new_instance _initialPosition].
    destruct (Ss el0) as (-> & -> & ->). reflexivity. }
  split.
  { rewrite !(ctrl_field _handles) by (intro; reflexivity).
    unfold s2. rewrite (set_dropZone_ctrl_field _handles) by reflexivity.
    unfold s1. rewrite initialised_handle_handles, Is.
    f_equal. now apply designated_ext. }
  split.
  { rewrite !(ctrl_field _dropZones) by (intro; reflexivity).
    unfold s2. rewrite set_dropZone_cases, ctrls_modify_same.
    cbn [_dropZones with_dropZones]. rewrite Is.
    apply designated_ext.
    - unfold s1. now rewrite initialised_handle_doc.
    - intros j. unfold s1. now rewrite (initialised_handle_field info). }
  split.
  { rewrite !(ctrl_field _axis) by (intro; reflexivity).
    rewrite ctrls_modify_same. cbn [_axis with_axis]. now rewrite Is. }
  split.
  { rewrite (ctrl_field _scroll) by (intro; reflexivity).
    rewrite ctrls_modify_same. cbn [_scroll with_scroll]. now rewrite Is. }
  split.
  { rewrite ctrls_modify_same.
    cbn [_containment with_containment]. now rewrite Is. }
  split.
  { rewrite (elem_field classList) by (intro; reflexivity).
    cbn [elems with_events modify_ctrl with_ctrls].
    unfold s2. rewrite set_dropZone_elems.
    apply (initialised_handle_idle id dragElement el0 s). }
  split.
  { rewrite !(ctrl_field _dropZoneEntered) by (intro; reflexivity).
    unfold s2. rewrite set_dropZone_cases.
    rewrite (ctrl_field _dropZoneEntered) by (intro; reflexivity).
    now rewrite ctrls_modify_same. }
  apply emitted_app.
  change (dispatched s2 = dispatched st ++ []).
  unfold s2. rewrite set_dropZone_cases.
  change (dispatched s1 = dispatched st ++ []).
  unfold s1. now rewrite initialised_handle_dispatched, Ps, app_nil_r.
Qed.

Lemma constructor_configures_witness :
  let st := page horizontal_card in
  exists st1,
    constructor (VString "#card") st = Ok 1%nat st1
    /\ get_dragElement st1 1%nat = VString "#card"
    /\ _dropZones (ctrls st1 1%nat) = [zone]
    /\ get_axis st1 1%nat = HORIZONTAL
    /\ is_dragging st1 1%nat = false.
Proof.
  intros st.
  assert (E : constructor (VString "#card") st
              = Ok 1%nat
                  (initialise (uid st) (VString "#card") card
                     (destroy_existing card (with_uid (S (uid st)) st)))).
  { apply (constructor_resolved (VString "#card") st card); reflexivity. }
  pose proof (constructor_configures (VString "#card") st 1%nat _ E) as H.
  cbv zeta in H.
  destruct H as (_ & Hv & _ & _ & _ & Hz & Ha & _ & _ & Hd & _).
  eexists. split; [exact E|]. split; [exact Hv|]. split.
  { rewrite Hz. vm_compute. reflexivity. }
  split; [|exact Hd].
  rewrite Ha. vm_compute. reflexivity.
Defined.

(** ** From the press to the last move *)

Lemma drag_ctrl_field {B : Type} (G : DragAction -> B) (c : CtrlId)
  (event : PointerEvent) (st : State) (i : CtrlId) :
  (forall v this, G (with_dropElement v this) = G this) ->
  (forall v this, G (with_dropZoneEntered v this) = G this) ->
  G (ctrls (state_of (_drag c event st)) i) = G (ctrls st i).
Proof.
  intros H1 H2.
  destruct (drag_cases c event st) as [(k & _ & _ & ->) | [[_ ->] | (_ & _ & ->)]];
    simpl; [|reflexivity|reflexivity].
  now apply drag_body_ctrl_field.
Qed.

Lemma drag_moves_ctrl_field {B : Type} (G : DragAction -> B) (c : CtrlId)
  (moves : list PointerEvent) (st : State) (i : CtrlId) :
  (forall v this, G (with_dropElement v this) = G this) ->
  (forall v this, G (with_dropZoneEntered v this) = G this) ->
  G (ctrls (state_of (drag_moves c moves st)) i) = G (ctrls st i).
Proof.
  intros H1 H2.
  apply (drag_moves_invariant (fun s => G (ctrls s i) = G (ctrls st i)) c);
    [|reflexivity].
  intros event s Hs. now rewrite drag_ctrl_field.
Qed.

Lemma dragStart_layout (c : CtrlId) (event : PointerEvent) (st : State) :
  same_layout st (_dragStart c event st).
Proof.
  split; [apply dragStart_doc|]. intros i. repeat split.
  - now apply (dragStart_field info).
  - now apply (dragStart_field (fun el => style_top (style el))).
  - now apply (dragStart_field (fun el => style_left (style el))).
  - now apply (dragStart_field scrollTop).
  - now apply (dragStart_field scrollLeft).
Qed.

(** The offset a press records: the pointer's distance from the corner of
    the drag element, in document coordinates. *)
Lemma dragStart_dragPosition (c : CtrlId) (event : PointerEvent) (st : State) :
  let e := _dragElement (ctrls st c) in
  let p := getPagePosition event in
  _dragPosition (ctrls (_dragStart c event st) c)
  = mkPagePosition (nsub (x p) (Num (r_left (bounds st e))))
                   (nsub (y p) (Num (r_top (bounds st e)))).
Proof.
  intros e p. rewrite dragStart_steps. cbn [dispatch ctrls with_dispatched].
  rewrite start_relative_ctrls, start_classes_ctrls.
  fold e. set (k := container_of st c).
  set (s := start_overflow c (body (doc st)) k (start_container c k event st)).
  unfold start_offset. rewrite ctrls_modify_same.
  cbn [_dragPosition with_dragPosition x y]. fold p.
  assert (L : same_layout st s).
  { split.
    - unfold s. now rewrite start_overflow_doc, start_container_doc.
    - intros i. unfold s. repeat split.
      + rewrite (start_overflow_field info) by reflexivity.
        now rewrite start_container_elems.
      + rewrite (start_overflow_field (fun el => style_top (style el))) by reflexivity.
        now rewrite start_container_elems.
      + rewrite (start_overflow_field (fun el => style_left (style el))) by reflexivity.
        now rewrite start_container_elems.
      + rewrite (start_overflow_field scrollTop) by reflexivity.
        now rewrite start_container_elems.
      + rewrite (start_overflow_field scrollLeft) by reflexivity.
        now rewrite start_container_elems. }
  rewrite (getBoundingClientRect_ext st s e L).
  destruct L as (_ & L). destruct (L (scrollingElement (doc st))) as (_ & _ & _ & -> & ->).
  reflexivity.
Qed.

Lemma drag_moves_app (c : CtrlId) (l1 l2 : list PointerEvent) (st : State) :
  drag_moves c (l1 ++ l2) st
  = bind (drag_moves c l1 st) (fun _ s => drag_moves c l2 s).
Proof.
  revert st. induction l1 as [|event l1 IH]; intros st; [reflexivity|].
  cbn [app drag_moves]. destruct (_drag c event st) as [[] s|err s]; cbn [bind]; auto.
Qed.

(** X14.  Without containment and without scrolling, when the press and
    the last move have numeric pointer positions, the drag element ends
    displaced from where it was at the press by exactly the pointer's
    displacement, on each permitted axis, whatever the moves in between; its
    size is unchanged.  This for a drag element that is positioned or, when
    static, has no declared offsets, and for moves, those in between too,
    that take the element to positions, and by offsets, that are lengths
    the layout engine holds. *)
Theorem drag_displaces_by_pointer (c : CtrlId) (down : PointerEvent)
  (moves : list PointerEvent) (last : PointerEvent) (st : State) (px py qx qy : Z) :
  _containment (ctrls st c) = false ->
  _scroll (ctrls st c) = false ->
  container_of st c <> _dragElement (ctrls st c) ->
  getPagePosition down = mkPagePosition (Num px) (Num py) ->
  getPagePosition last = mkPagePosition (Num qx) (Num qy) ->
  laid_out st (_dragElement (ctrls st c)) ->
  Forall (follows st (_dragElement (ctrls st c)) down) (moves ++ [last]) ->
  let e := _dragElement (ctrls st c) in
  exists st',
    drag_moves c (moves ++ [last]) (_dragStart c down st) = Ok tt st'
    /\ (_axis (ctrls st c) <> HORIZONTAL ->
        r_top (bounds st' e) = r_top (bounds st e) + (qy - py))
    /\ (_axis (ctrls st c) <> VERTICAL ->
        r_left (bounds st' e) = r_left (bounds st e) + (qx - px))
    /\ r_width (bounds st' e) = r_width (bounds st e)
    /\ r_height (bounds st' e) = r_height (bounds st e).
Proof.
  intros Hc Hs Hne Hp Hq _ _ e.
  set (k := container_of st c). set (st1 := _dragStart c down st).
  destruct (drag_moves_ok c k moves st1) as (st2 & E2 & Hd2 & Hk2).
  { apply dragStart_dragging. }
  { apply dragStart_container. }
  assert (S2 : st2 = state_of (drag_moves c moves st1)) by now rewrite E2.
  assert (F : forall {B : Type} (G : DragAction -> B),
            (forall v this, G (with_dropElement v this) = G this) ->
            (forall v this, G (with_dropZoneEntered v this) = G this) ->
            G (ctrls st2 c) = G (ctrls st1 c)).
  { intros B G H1 H2. rewrite S2. now apply drag_moves_ctrl_field. }
  assert (He2 : _dragElement (ctrls st2 c) = e).
  { rewrite (F _ _dragElement) by reflexivity.
    unfold st1. now rewrite (dragStart_ctrl_field _dragElement). }
  assert (Hc2 : _containment (ctrls st2 c) = false).
  { rewrite (F _ _containment) by reflexivity.
    unfold st1. now rewrite (dragStart_ctrl_field _containment). }
  assert (Hs2 : _scroll (ctrls st2 c) = false).
  { rewrite (F _ _scroll) by reflexivity.
    unfold st1. now rewrite (dragStart_ctrl_field _scroll). }
  assert (Ha2 : _axis (ctrls st2 c) = _axis (ctrls st c)).
  { rewrite (F _ _axis) by reflexivity.
    unfold st1. now rewrite (dragStart_ctrl_field _axis). }
  assert (Hp2 : _dragPosition (ctrls st2 c)
                = mkPagePosition (Num (px - r_left (bounds st e)))
                                 (Num (py - r_top (bounds st e)))).
  { rewrite (F _ _dragPosition) by reflexivity.
    unfold st1. rewrite dragStart_dragPosition. cbv zeta. fold e.
    rewrite Hp. reflexivity. }
  exists (drag_body c k last st2). split.
  { rewrite drag_moves_app. fold st1. rewrite E2. cbn [bind drag_moves].
    now rewrite (drag_active c k last st2 Hd2 Hk2). }
  assert (Hne2 : k <> _dragElement (ctrls st2 c)) by now rewrite He2.
  destruct (drag_body_bounds c k last st2 Hs2 Hne2) as (_ & Bt & Bl & Bw & Bh).
  rewrite He2 in Bt, Bl, Bw, Bh.
  assert (W : r_width (bounds st2 e) = r_width (bounds st e)
              /\ r_height (bounds st2 e) = r_height (bounds st e)).
  { rewrite !(proj1 (bounds_sizes _ _)), !(proj2 (bounds_sizes _ _)).
    rewrite S2, (drag_moves_field info) by reflexivity.
    unfold st1. rewrite (dragStart_field info) by reflexivity.
    split; reflexivity. }
  unfold newPosition_top in Bt. unfold newPosition_left in Bl.
  rewrite Hc2, Hp2, Ha2 in Bt, Bl.
  change (pagePosition (measure c k last st2)) with (getPagePosition last) in Bt, Bl.
  rewrite Hq in Bt, Bl. cbn [x y nsub] in Bt, Bl.
  split; [|split; [|split]].
  - intros Hax. apply String.eqb_neq in Hax. unfold HORIZONTAL in Hax.
    rewrite Hax in Bt. cbn [negb position_or] in Bt. rewrite Bt. lia.
  - intros Hax. apply String.eqb_neq in Hax. unfold VERTICAL in Hax.
    rewrite Hax in Bl. cbn [negb position_or] in Bl. rewrite Bl. lia.
  - rewrite Bw. apply W.
  - rewrite Bh. apply W.
Qed.

Lemma drag_displaces_by_pointer_witness :
  let st := built free_card in
  let e := _dragElement (ctrls st 1%nat) in
  exists st',
    drag_moves 1%nat ([mouse 300 300; mouse 20 500] ++ [mouse 150 170])
      (_dragStart 1%nat (mouse 120 120) st) = Ok tt st'
    /\ r_top (bounds st' e) = r_top (bounds st e) + (170 - 120)
    /\ r_left (bounds st' e) = r_left (bounds st e) + (150 - 120).
Proof.
  intros st e.
  pose proof (drag_displaces_by_pointer 1%nat (mouse 120 120)
                [mouse 300 300; mouse 20 500] (mouse 150 170) st 120 120 150 170) as H.
  assert (H1 : _containment (ctrls st 1%nat) = false) by (vm_compute; reflexivity).
  assert (H2 : _scroll (ctrls st 1%nat) = false) by (vm_compute; reflexivity).
  assert (H3 : container_of st 1%nat <> _dragElement (ctrls st 1%nat))
    by (vm_compute; discriminate).
  assert (H4 : Forall (follows st (_dragElement (ctrls st 1%nat)) (mouse 120 120))
                 ([mouse 300 300; mouse 20 500] ++ [mouse 150 170])).
  { cbn [app].
    repeat (apply Forall_cons;
            [split; intros p q Hp Hq; vm_compute in Hp; vm_compute in Hq;
             injection Hp as <-; injection Hq as <-;
             unfold held; vm_compute; repeat split; discriminate|]).
    apply Forall_nil. }
  assert (H5 : laid_out st (_dragElement (ctrls st 1%nat)))
    by (intros _; vm_compute; split; reflexivity).
  specialize (H H1 H2 H3 eq_refl eq_refl H5 H4). cbv zeta in H.
  destruct H as (st' & E & Ht & Hl & _).
  exists st'. split; [exact E|]. split.
  - apply Ht. vm_compute. discriminate.
  - apply Hl. vm_compute. discriminate.
Defined.

(** ** What a move leaves alone *)

Lemma contain_unknown (containerStart containerSize size : Z) :
  contain NaN NaN containerStart containerSize size = NaN.
Proof. reflexivity. Qed.

Lemma newPosition_left_unknown (this : DragAction) (m : Measurement) :
  x (pagePosition m) = NaN -> newPosition_left this m = NaN.
Proof.
  intros H. unfold newPosition_left. rewrite H. cbn [nsub].
  destruct (negb _); [|reflexivity]. destruct (_containment this); reflexivity.
Qed.

Lemma newPosition_top_unknown (this : DragAction) (m : Measurement) :
  y (pagePosition m) = NaN -> newPosition_top this m = NaN.
Proof.
  intros H. unfold newPosition_top. rewrite H. cbn [nsub].
  destruct (negb _); [|reflexivity]. destruct (_containment this); reflexivity.
Qed.

Lemma drag_style_left_unknown (c : CtrlId) (event : PointerEvent) (st : State)
  (e : ElemId) :
  x (getPagePosition event) = NaN ->
  style_left (style (elems (state_of (_drag c event st)) e))
  = style_left (style (elems st e)).
Proof.
  intros Hx.
  destruct (drag_cases c event st) as [(k & _ & _ & ->) | [[_ ->] | (_ & _ & ->)]];
    simpl; [|reflexivity|reflexivity].
  unfold drag_body. rewrite drag_dropzone_elems.
  rewrite drag_position_left_unassigned.
  - etransitivity;
      [apply (drag_scroll_field (fun el => style_left (style el))); reflexivity|].
    reflexivity.
  - now apply newPosition_left_unknown.
Qed.

Lemma drag_style_top_unknown (c : CtrlId) (event : PointerEvent) (st : State)
  (e : ElemId) :
  y (getPagePosition event) = NaN ->
  style_top (style (elems (state_of (_drag c event st)) e))
  = style_top (style (elems st e)).
Proof.
  intros Hy.
  destruct (drag_cases c event st) as [(k & _ & _ & ->) | [[_ ->] | (_ & _ & ->)]];
    simpl; [|reflexivity|reflexivity].
  unfold drag_body. rewrite drag_dropzone_elems.
  rewrite drag_position_top_unassigned.
  - etransitivity;
      [apply (drag_scroll_field (fun el => style_top (style el))); reflexivity|].
    reflexivity.
  - now apply newPosition_top_unknown.
Qed.

(** X15.  A touch at page x = 0, on an event that has no [pageX] of its
    own, does not move the drag element horizontally: the coordinate 0 is
    passed over for the event's missing one, the new left is no number and
    the assignment is ignored, so [left] stays as it was on every element.
    The same holds for y = 0 and [top]. *)
Theorem touch_at_zero_stays (c : CtrlId) (event : PointerEvent) (t : Touch)
  (rest : list Touch) (st : State) :
  changedTouches event = t :: rest ->
  (touch_pageX t = Num 0 -> pageX event = NaN ->
   forall e, style_left (style (elems (state_of (_drag c event st)) e))
             = style_left (style (elems st e)))
  /\ (touch_pageY t = Num 0 -> pageY event = NaN ->
      forall e, style_top (style (elems (state_of (_drag c event st)) e))
                = style_top (style (elems st e))).
Proof.
  intros Ht. split.
  - intros H0 Hp e. apply drag_style_left_unknown.
    unfold getPagePosition. rewrite Ht, H0, Hp. reflexivity.
  - intros H0 Hp e. apply drag_style_top_unknown.
    unfold getPagePosition. rewrite Ht, H0, Hp. reflexivity.
Qed.

Lemma touch_at_zero_stays_witness :
  let st := pressed free_card 120 120 in
  let event := mkPointerEvent [mkTouch (Num 0) (Num 300)] [] NaN NaN "DIV" in
  style_left (style (elems (state_of (_drag 1%nat event st)) card))
  = style_left (style (elems st card))
  /\ style_top (style (elems (state_of (_drag 1%nat event st)) card)) = Px 180.
Proof.
  intros st event. split.
  - apply (proj1 (touch_at_zero_stays 1%nat event (mkTouch (Num 0) (Num 300)) [] st
                    eq_refl)); reflexivity.
  - vm_compute. reflexivity.
Defined.

Lemma destroy_uid (c : CtrlId) (r : bool) (st : State) : uid (destroy c r st) = uid st.
Proof.
  unfold destroy.
  repeat match goal with
  | |- context [if ?b then _ else _] => destruct b
  | |- context [match ?o with Some _ => _ | None => _ end] => destruct o
  end; frames; reflexivity.
Qed.

Lemma destroy_existing_uid (el : ElemId) (st : State) :
  uid (destroy_existing el st) = uid st.
Proof.
  unfold destroy_existing. destruct (dragAction (elems st el)); [|reflexivity].
  apply destroy_uid.
Qed.

Lemma destroy_existing_dispatched (el : ElemId) (st : State) :
  dispatched (destroy_existing el st) = dispatched st.
Proof.
  unfold destroy_existing. destruct (dragAction (elems st el)); [|reflexivity].
  apply destroy_dispatched.
Qed.

Lemma set_handle_unbound_uid (c : CtrlId) (value : JSValue) (st : State) :
  uid (set_handle_unbound c value st) = uid st.
Proof. unfold set_handle_unbound. cbv zeta. frames. reflexivity. Qed.

Lemma set_handle_unbound_events (c : CtrlId) (value : JSValue) (st : State) :
  events (set_handle_unbound c value st) = events st.
Proof. unfold set_handle_unbound. cbv zeta. frames. reflexivity. Qed.

Lemma set_handle_uid (c : CtrlId) (value : JSValue) (st : State) :
  uid (set_handle c value st) = uid st.
Proof.
  rewrite set_handle_cases. cbv zeta.
  rewrite <- (set_handle_unbound_uid c value st).
  generalize (set_handle_unbound c value st). intros u.
  destruct (designated st value); frames; reflexivity.
Qed.

Lemma set_handle_events (c : CtrlId) (value : JSValue) (st : State) :
  events (set_handle c value st) = events st.
Proof.
  rewrite set_handle_cases. cbv zeta.
  rewrite <- (set_handle_unbound_events c value st).
  generalize (set_handle_unbound c value st). intros u.
  destruct (designated st value); frames; reflexivity.
Qed.

(** The ways a construction fails, with the state each leaves: before
    anything is done, on a missing target, an unknown selector or a selector
    that does not parse; with the id taken, on a target that is no element;
    and in the middle of the assignment of the options, on a handle or
    dropzone attribute that is no valid selector. *)
Lemma constructor_failure_cases (dragElement : JSValue) (st : State) (err : JSError)
  (st' : State) :
  constructor dragElement st = Throw err st' ->
  (exists message, err = Error message /\ st' = st)
  \/ (err = invalid_selector /\ selector_fails st dragElement = true /\ st' = st)
  \/ (err = TypeError "Cannot read properties of null (reading 'dragAction')"
      /\ st' = with_uid (S (uid st)) st)
  \/ exists el,
       resolve dragElement st = Ok (Some el) st
       /\ err = invalid_selector
       /\ let s := destroy_existing el (with_uid (S (uid st)) st) in
          let h := getAttribute (attr_handle (info (elems st el))) in
          let z := getAttribute (attr_dropzone (info (elems st el))) in
          (selector_fails st h = true
           /\ st' = set_handle_unbound (uid st) h
                      (with_ctrls
                         (upd (ctrls s) (uid st) (new_instance (uid st) dragElement el s))
                         s))
          \/ (selector_fails st h = false
              /\ selector_fails st z = true
              /\ st' = set_dropZone_stored (uid st) z
                         (initialised_handle (uid st) dragElement el s)).
Proof.
  intros E. unfold constructor in E.
  destruct (negb (truthy dragElement)).
  { left. eexists. apply (f_equal (fun r => match r with
                                           | Throw e s => Some (e, s)
                                           | Ok _ _ => None
                                           end)) in E.
    injection E as <- <-. split; reflexivity. }
  destruct (resolve dragElement st) as [o s|e s] eqn:R.
  - pose proof (resolve_state _ _ _ _ R) as ->. cbn [bind] in E.
    destruct o as [el|].
    + right. right. right. exists el. split; [reflexivity|].
      rewrite initialise_call_cases in E. cbv zeta in E.
      rewrite (destroy_existing_fails el _ attr_handle) in E.
      rewrite (destroy_existing_fails el _ attr_dropzone) in E.
      rewrite (destroy_existing_field info) in E by reflexivity.
      change (selector_fails (with_uid (S (uid st)) st)) with (selector_fails st) in E.
      change (elems (with_uid (S (uid st)) st)) with (elems st) in E.
      destruct (selector_fails st (getAttribute (attr_handle (info (elems st el)))))
        eqn:Fh.
      * cbn [bind] in E.
        apply (f_equal (fun r => match r with
                                 | Throw e s => Some (e, s)
                                 | Ok _ _ => None
                                 end)) in E.
        injection E as <- <-. split; [reflexivity|]. left.
        split; [first [exact Fh | reflexivity] | reflexivity].
      * destruct (selector_fails st (getAttribute (attr_dropzone (info (elems st el)))))
          eqn:Fz; [|discriminate E].
        cbn [bind] in E.
        apply (f_equal (fun r => match r with
                                 | Throw e s => Some (e, s)
                                 | Ok _ _ => None
                                 end)) in E.
        injection E as <- <-. split; [reflexivity|]. right.
        split; [first [exact Fh | reflexivity]|].
        split; [first [exact Fz | reflexivity] | reflexivity].
    + right. right. left.
      apply (f_equal (fun r => match r with
                               | Throw e s => Some (e, s)
                               | Ok _ _ => None
                               end)) in E.
      injection E as <- <-. split; reflexivity.
  - cbn [bind] in E.
    apply (f_equal (fun r => match r with
                             | Throw e s => Some (e, s)
                             | Ok _ _ => None
                             end)) in E.
    injection E as <- <-.
    destruct dragElement; cbn [resolve] in R; try discriminate R.
    + destruct (valid_selector st s0) eqn:V.
      * destruct (querySelector st s0); [discriminate R|].
        left. eexists.
        apply (f_equal (fun r => match r with
                                 | Throw e s => Some (e, s)
                                 | Ok _ _ => None
                                 end)) in R.
        injection R as <- <-. split; reflexivity.
      * right. left.
        apply (f_equal (fun r => match r with
                                 | Throw e s => Some (e, s)
                                 | Ok _ _ => None
                                 end)) in R.
        injection R as <- <-. cbn [selector_fails]. rewrite V.
        repeat split; reflexivity.
    + destruct (isHTMLElement (info (elems st e0))); discriminate R.
Qed.

(** The state a construction leaves when the handle attribute is no valid
    selector, and when the dropzone attribute is none: neither has moved
    anything, and the classes of a session are off. *)
Lemma failed_handle_has_class (id : nat) (value : JSValue) (this : DragAction)
  (s : State) (e : ElemId) (cls : string) :
  (Nat.eqb e (body (doc s)) && String.eqb cls CLOSE_HAND_CLASS
   || Nat.eqb e (_dragElement this) && String.eqb cls IS_DRAGGING_CLASS) = true ->
  has_class (set_handle_unbound id value (with_ctrls (upd (ctrls s) id this) s)) e cls
  = false.
Proof.
  intros H. rewrite set_handle_unbound_has_class.
  cbn [ctrls with_ctrls doc]. rewrite upd_same.
  apply orb_true_iff in H. destruct H as [H | H]; rewrite H; cbn [negb].
  - now rewrite andb_false_r.
  - now rewrite !andb_false_r.
Qed.

Lemma failed_dropZone_has_class (id : nat) (value z : JSValue) (this : DragAction)
  (s : State) (e : ElemId) (cls : string) :
  (Nat.eqb e (body (doc s)) && String.eqb cls CLOSE_HAND_CLASS
   || Nat.eqb e (_dragElement this) && String.eqb cls IS_DRAGGING_CLASS) = true ->
  has_class
    (set_dropZone_stored id z
       (set_handle id value (with_ctrls (upd (ctrls s) id this) s))) e cls
  = false.
Proof.
  intros H.
  change (has_class
            (set_dropZone_stored id z
               (set_handle id value (with_ctrls (upd (ctrls s) id this) s))) e cls)
    with (has_class (set_handle id value (with_ctrls (upd (ctrls s) id this) s)) e cls).
  rewrite set_handle_has_class, (failed_handle_has_class id value this s e cls H).
  cbn [orb].
  apply orb_true_iff in H.
  destruct H as [H | H]; apply andb_true_iff in H; destruct H as [_ H];
    apply String.eqb_eq in H; subst cls; now rewrite andb_false_r.
Qed.

(** X16.  A construction that fails has notified nothing and moved nothing.
    Failing with one of the two documented errors it has done nothing at
    all, and so when it fails because its selector argument does not parse;
    failing on a target that is no element it has only taken an id.  When it
    fails because the handle or the dropzone attribute of the element is no
    valid selector, it has taken an id and has already destroyed the
    controller the element had, whose window listeners are gone, and taken
    the marks of a session off the element and the body. *)
Theorem constructor_failure_leaves_page (dragElement : JSValue) (st : State)
  (err : JSError) (st' : State) :
  constructor dragElement st = Throw err st' ->
  dispatched st' = dispatched st
  /\ same_layout st st'
  /\ (forall i, style_position (style (elems st' i))
                = style_position (style (elems st i)))
  /\ (forall message, err = Error message -> st' = st)
  /\ (forall message, err = TypeError message -> st' = with_uid (S (uid st)) st)
  /\ (forall message, err = SyntaxError message ->
      (selector_fails st dragElement = true /\ st' = st)
      \/ exists el,
           resolve dragElement st = Ok (Some el) st
           /\ (selector_fails st (getAttribute (attr_handle (info (elems st el)))) = true
               \/ selector_fails st (getAttribute (attr_dropzone (info (elems st el))))
                  = true)
           /\ uid st' = S (uid st)
           /\ has_class st' el IS_DRAGGING_CLASS = false
           /\ has_class st' (body (doc st)) CLOSE_HAND_CLASS = false
           /\ forall prior,
                dragAction (elems st el) = Some prior ->
                forall l, In l (events st') ->
                  ns_eqb (l_ns l) (NsDragActionId (_id (ctrls st prior))) = false).
Proof.
  intros E.
  destruct (constructor_failure_cases _ _ _ _ E)
    as [(m & -> & ->) | [(-> & F & ->) | [(-> & ->) | (el & R & -> & C)]]].
  - split; [reflexivity|]. split; [apply same_layout_refl|]. split; [reflexivity|].
    split; [reflexivity|]. split; [discriminate|]. discriminate.
  - split; [reflexivity|]. split; [apply same_layout_refl|]. split; [reflexivity|].
    split; [discriminate|]. split; [discriminate|]. intros _ _. left. now split.
  - split; [reflexivity|].
    split; [split; [reflexivity | intros i; repeat split]|]. split; [reflexivity|].
    split; [discriminate|]. split; [reflexivity|]. discriminate.
  - cbv zeta in C.
    set (s := destroy_existing el (with_uid (S (uid st)) st)) in C.
    assert (Ds : doc s = doc st)
      by (unfold s; now rewrite destroy_existing_doc).
    assert (Us : uid s = S (uid st))
      by (unfold s; now rewrite destroy_existing_uid).
    assert (Ps : dispatched s = dispatched st)
      by (unfold s; now rewrite destroy_existing_dispatched).
    assert (Fs : forall {B : Type} (F : Element -> B) i,
               (forall v e, F (el_with_classList v e) = F e) ->
               (forall v e, F (el_with_dragEvents v e) = F e) ->
               (forall v e, F (el_with_overflow v e) = F e) ->
               (forall v e, F (el_with_style (with_style_overflow v (style e)) e) = F e) ->
               (forall v e, F (el_with_dragAction v e) = F e) ->
               F (elems s i) = F (elems st i)).
    { intros B F i H1 H2 H3 H4 H5. unfold s.
      now rewrite (destroy_existing_field F) by assumption. }
    assert (Es : forall prior,
               dragAction (elems st el) = Some prior ->
               forall l, In l (events s) ->
                 ns_eqb (l_ns l) (NsDragActionId (_id (ctrls st prior))) = false).
    { intros prior Hp l Hin. unfold s, destroy_existing in Hin.
      cbn [elems with_uid] in Hin. rewrite Hp, destroy_events in Hin.
      apply off_gone in Hin. exact Hin. }
    clearbody s.
    assert (K : dispatched st' = dispatched s
                /\ doc st' = doc s
                /\ uid st' = uid s
                /\ events st' = events s
                /\ (forall {B : Type} (F : Element -> B) i,
                      (forall v e, F (el_with_classList v e) = F e) ->
                      (forall v e, F (el_with_dragEvents v e) = F e) ->
                      F (elems st' i) = F (elems s i))
                /\ has_class st' el IS_DRAGGING_CLASS = false
                /\ has_class st' (body (doc s)) CLOSE_HAND_CLASS = false).
    { destruct C as [(_ & ->) | (_ & _ & ->)].
      - split; [now rewrite set_handle_unbound_dispatched|].
        split; [now rewrite set_handle_unbound_doc|].
        split; [now rewrite set_handle_unbound_uid|].
        split; [now rewrite set_handle_unbound_events|].
        split; [intros B F i H1 H2; now rewrite (set_handle_unbound_field F)|].
        split; apply failed_handle_has_class; cbn [new_instance _dragElement];
          rewrite Nat.eqb_refl; [apply orb_true_r | reflexivity].
      - unfold initialised_handle. cbv zeta.
        split; [exact (set_handle_dispatched _ _ _)|].
        split; [exact (set_handle_doc _ _ _)|].
        split; [exact (set_handle_uid _ _ _)|].
        split; [exact (set_handle_events _ _ _)|].
        split; [intros B F i H1 H2;
                exact (set_handle_field F _ _ _ i H1 H2)|].
        split; apply failed_dropZone_has_class; cbn [new_instance _dragElement];
          rewrite Nat.eqb_refl; [apply orb_true_r | reflexivity]. }
    destruct K as (K1 & K2 & K3 & K4 & K5 & K6 & K7).
    split; [now rewrite K1|].
    split.
    { split; [now rewrite K2|]. intros i.
      rewrite (K5 _ info), (K5 _ (fun e => style_top (style e))),
        (K5 _ (fun e => style_left (style e))), (K5 _ scrollTop), (K5 _ scrollLeft)
        by reflexivity.
      rewrite (Fs _ info), (Fs _ (fun e => style_top (style e))),
        (Fs _ (fun e => style_left (style e))), (Fs _ scrollTop), (Fs _ scrollLeft)
        by reflexivity.
      repeat split. }
    split.
    { intros i. rewrite (K5 _ (fun e => style_position (style e))) by reflexivity.
      now rewrite (Fs _ (fun e => style_position (style e))) by reflexivity. }
    split; [discriminate|]. split; [discriminate|].
    intros _ _. right. exists el. split; [exact R|].
    split; [destruct C as [(H & _) | (_ & H & _)]; auto|].
    split; [now rewrite K3|]. split; [exact K6|]. split; [now rewrite <- Ds|].
    intros prior Hp l Hin. rewrite K4 in Hin. exact (Es prior Hp l Hin).
Qed.

(** On a card whose handle attribute is empty the second construction
    fails after it has destroyed the first controller. *)
Lemma constructor_failure_leaves_page_witness :
  let st := state_of (constructor (VString "#card") (page free_card)) in
  let page' := with_elems (upd (elems st) card
                 (mkElement unhandled_card (classList (elems st card))
                    (style (elems st card)) 0 0 None (Some 1%nat) [])) st in
  exists st',
    constructor (VElement card) page' = Throw invalid_selector st'
    /\ dispatched st' = dispatched page'
    /\ uid st' = S (uid page')
    /\ forall l, In l (events st') -> ns_eqb (l_ns l) (NsDragActionId 1) = false.
Proof.
  intros st page'.
  exists (state_of (constructor (VElement card) page')).
  assert (E : constructor (VElement card) page'
              = Throw invalid_selector (state_of (constructor (VElement card) page')))
    by (vm_compute; reflexivity).
  split; [exact E|].
  destruct (constructor_failure_leaves_page _ _ _ _ E)
    as (H1 & _ & _ & _ & _ & H6).
  split; [exact H1|].
  destruct (H6 _ eq_refl) as [(F & _) | (el & R & _ & U & _ & _ & L)];
    [discriminate F|].
  split; [exact U|].
  assert (Hel : el = card).
  { assert (R' : resolve (VElement card) page' = Ok (Some card) page')
      by (vm_compute; reflexivity).
    rewrite R' in R.
    apply (f_equal (fun r => match r with Ok (Some a) _ => a | _ => card end)) in R.
    symmetry. exact R. }
  subst el.
  assert (Hp : dragAction (elems page' card) = Some 1%nat) by (vm_compute; reflexivity).
  assert (Hid : _id (ctrls page' 1%nat) = 1%nat) by (vm_compute; reflexivity).
  intros l Hin. rewrite <- Hid. exact (L 1%nat Hp l Hin).
Defined.

Lemma drag_scroll_elsewhere (c : CtrlId) (k : ElemId) (m : Measurement) (st : State)
  (i : ElemId) :
  i <> scroller st k -> elems (drag_scroll c k m st) i = elems st i.
Proof.
  unfold scroller, drag_scroll. cbv zeta. intros Hi.
  destruct (_scroll (ctrls st c)); [|reflexivity].
  destruct (Nat.eqb k (body (doc st)));
    branches; unfold write_scrollTop, write_scrollLeft;
    rewrite ?elems_modify_other by exact Hi; reflexivity.
Qed.

Lemma drag_scroll_off (c : CtrlId) (k : ElemId) (m : Measurement) (st : State) :
  _scroll (ctrls st c) = false -> drag_scroll c k m st = st.
Proof. intros H. unfold drag_scroll. cbv zeta. now rewrite H. Qed.

Lemma drag_scroll_events (c : CtrlId) (k : ElemId) (m : Measurement) (st : State) :
  events (drag_scroll c k m st) = events st.
Proof. unfold drag_scroll. branches; frames; reflexivity. Qed.

Lemma drag_dropzone_events (c : CtrlId) (p : PagePosition) (st : State) :
  events (drag_dropzone c p st) = events st.
Proof.
  unfold drag_dropzone. destruct (isOverDropZone st c); branches; reflexivity.
Qed.

Lemma drag_dropzone_ctrls_other (c : CtrlId) (p : PagePosition) (st : State)
  (j : CtrlId) :
  j <> c -> ctrls (drag_dropzone c p st) j = ctrls st j.
Proof.
  intros Hj. unfold drag_dropzone, dispatch.
  destruct (isOverDropZone st c); branches; records;
    rewrite ?ctrls_modify_other by exact Hj; reflexivity.
Qed.

Lemma drag_body_events (c : CtrlId) (k : ElemId) (event : PointerEvent) (st : State) :
  events (drag_body c k event st) = events st.
Proof.
  unfold drag_body. rewrite drag_dropzone_events.
  unfold drag_position.
  rewrite (write_style_left_state events) by reflexivity.
  rewrite (write_style_top_state events) by reflexivity.
  now rewrite drag_scroll_events.
Qed.

Lemma drag_body_ctrls_other (c : CtrlId) (k : ElemId) (event : PointerEvent)
  (st : State) (j : CtrlId) :
  j <> c -> ctrls (drag_body c k event st) j = ctrls st j.
Proof.
  intros Hj. unfold drag_body. rewrite drag_dropzone_ctrls_other by exact Hj.
  now rewrite drag_position_ctrls, drag_scroll_ctrls.
Qed.

Lemma drag_body_style_other (c : CtrlId) (k : ElemId) (event : PointerEvent)
  (st : State) (i : ElemId) :
  i <> _dragElement (ctrls st c) ->
  style (elems (drag_body c k event st) i) = style (elems st i).
Proof.
  intros Hi. unfold drag_body. rewrite drag_dropzone_elems.
  set (m := measure c k event st).
  set (s := drag_scroll c k m _).
  destruct (drag_position_style c m s) as (_ & _ & H).
  rewrite H.
  - unfold s. now rewrite (drag_scroll_field style).
  - unfold s. now rewrite drag_scroll_ctrls.
Qed.

Lemma drag_body_scroll_elsewhere (c : CtrlId) (k : ElemId) (event : PointerEvent)
  (st : State) (i : ElemId) :
  i <> scroller st k ->
  scrollTop (elems (drag_body c k event st) i) = scrollTop (elems st i)
  /\ scrollLeft (elems (drag_body c k event st) i) = scrollLeft (elems st i).
Proof.
  intros Hi. destruct (drag_body_scroll c k event st i) as (-> & ->).
  now rewrite drag_scroll_elsewhere.
Qed.

Lemma drag_body_scroll_off (c : CtrlId) (k : ElemId) (event : PointerEvent)
  (st : State) (i : ElemId) :
  _scroll (ctrls st c) = false ->
  scrollTop (elems (drag_body c k event st) i) = scrollTop (elems st i)
  /\ scrollLeft (elems (drag_body c k event st) i) = scrollLeft (elems st i).
Proof.
  intros Hs. destruct (drag_body_scroll c k event st i) as (-> & ->).
  now rewrite drag_scroll_off.
Qed.

Lemma drag_scroll_state {B : Type} (P : State -> B) (c : CtrlId) (k : ElemId)
  (m : Measurement) (st : State) :
  (forall e f s, P (modify_elem e f s) = P s) ->
  P (drag_scroll c k m st) = P st.
Proof.
  intros H. unfold drag_scroll, write_scrollTop, write_scrollLeft.
  branches; rewrite ?H; reflexivity.
Qed.

Lemma drag_dropzone_state {B : Type} (P : State -> B) (c : CtrlId) (p : PagePosition)
  (st : State) :
  (forall j f s, P (modify_ctrl j f s) = P s) ->
  (forall n s, P (dispatch n s) = P s) ->
  P (drag_dropzone c p st) = P st.
Proof.
  intros H1 H2. unfold drag_dropzone.
  destruct (isOverDropZone st c); branches; rewrite ?H1, ?H2, ?H1, ?H2; reflexivity.
Qed.

(** What of the page state is neither an element nor a controller: a move
    leaves it alone, but for the selection, which it empties. *)
Lemma drag_body_state {B : Type} (P : State -> B) (c : CtrlId) (k : ElemId)
  (event : PointerEvent) (st : State) :
  (forall e f s, P (modify_elem e f s) = P s) ->
  (forall j f s, P (modify_ctrl j f s) = P s) ->
  (forall n s, P (dispatch n s) = P s) ->
  P (drag_body c k event st) = P (removeAllRanges st).
Proof.
  intros H1 H2 H3. unfold drag_body.
  rewrite (drag_dropzone_state P) by assumption.
  unfold drag_position.
  rewrite (write_style_left_state P) by (intros; apply H1).
  rewrite (write_style_top_state P) by (intros; apply H1).
  rewrite (drag_scroll_state P) by assumption.
  change (removeAllRanges (dispatch ?n st)) with (dispatch n (removeAllRanges st)).
  apply H3.
Qed.

(** X17.  A move of a session writes nothing but the [top] and [left] of
    the drag element, the scroll offsets of the one element it may scroll
    (the container, or the document's scrolling element when the container
    is the body; none when scrolling is off), the zone it records on its
    own controller, and the window's selection, which it empties: the
    document, the listeners, every other controller, the box, classes,
    position, overflow and owner of every element, the style of every other
    element and every other scroll offset are as before, no id is taken and
    no default prevented. *)
Theorem drag_writes_only (c : CtrlId) (k : ElemId) (event : PointerEvent) (st : State) :
  is_dragging st c = true ->
  _container (ctrls st c) = Some k ->
  exists st',
    _drag c event st = Ok tt st'
    /\ doc st' = doc st
    /\ events st' = events st
    /\ (forall j, j <> c -> ctrls st' j = ctrls st j)
    /\ (forall i,
          info (elems st' i) = info (elems st i)
          /\ classList (elems st' i) = classList (elems st i)
          /\ dragAction (elems st' i) = dragAction (elems st i)
          /\ _overflow (elems st' i) = _overflow (elems st i)
          /\ style_position (style (elems st' i)) = style_position (style (elems st i))
          /\ style_overflow (style (elems st' i)) = style_overflow (style (elems st i)))
    /\ (forall i, i <> _dragElement (ctrls st c) ->
                  style (elems st' i) = style (elems st i))
    /\ (forall i, i <> scroller st k \/ _scroll (ctrls st c) = false ->
                  scrollTop (elems st' i) = scrollTop (elems st i)
                  /\ scrollLeft (elems st' i) = scrollLeft (elems st i))
    /\ rangeCount st' = 0%nat
    /\ uid st' = uid st
    /\ prevented st' = prevented st.
Proof.
  intros Hd Hk. exists (drag_body c k event st).
  split; [now apply drag_active|].
  assert (R : rangeCount (drag_body c k event st) = 0%nat
              /\ uid (drag_body c k event st) = uid st
              /\ prevented (drag_body c k event st) = prevented st).
  { rewrite (drag_body_state rangeCount), (drag_body_state uid),
      (drag_body_state prevented) by reflexivity.
    repeat split. }
  split; [apply drag_body_doc|]. split; [apply drag_body_events|].
  split; [intros j Hj; now apply drag_body_ctrls_other|].
  split.
  { intros i. repeat split.
    - now apply (drag_body_field info).
    - now apply (drag_body_field classList).
    - now apply (drag_body_field dragAction).
    - now apply (drag_body_field _overflow).
    - now apply (drag_body_field (fun el => style_position (style el))).
    - now apply (drag_body_field (fun el => style_overflow (style el))). }
  split; [intros i Hi; now apply drag_body_style_other|].
  split; [|exact R].
  intros i [Hi | Hs].
  - now apply drag_body_scroll_elsewhere.
  - now apply drag_body_scroll_off.
Qed.

Lemma drag_writes_only_witness :
  let st := pressed scroll_card 120 120 in
  rangeCount st = 1%nat
  /\ exists st',
       _drag 1%nat (mouse 250 245) st = Ok tt st'
       /\ style (elems st' panel) = style (elems st panel)
       /\ scrollTop (elems st' html) = scrollTop (elems st html)
       /\ rangeCount st' = 0%nat.
Proof.
  intros st. split; [vm_compute; reflexivity|].
  pose proof (drag_writes_only 1%nat panel (mouse 250 245) st) as H.
  assert (H1 : is_dragging st 1%nat = true) by (vm_compute; reflexivity).
  assert (H2 : _container (ctrls st 1%nat) = Some panel) by (vm_compute; reflexivity).
  destruct (H H1 H2) as (st' & E & _ & _ & _ & _ & Hs & Hc & Hr & _).
  exists st'. split; [exact E|]. split; [|split; [|exact Hr]].
  - apply Hs. vm_compute. discriminate.
  - apply Hc. left. vm_compute. discriminate.
Defined.

(** ** The classes over a session *)

Lemma start_classes_has_class (c : CtrlId) (b : ElemId) (st : State)
  (e : ElemId) (cls : string) :
  has_class (start_classes c b (_dragElement (ctrls st c)) st) e cls
  = (has_class st e cls || (Nat.eqb e b && String.eqb cls CLOSE_HAND_CLASS))
    && negb (mem e (grips (ctrls st c)) && String.eqb cls OPEN_HAND_CLASS)
    || (Nat.eqb e (_dragElement (ctrls st c)) && String.eqb cls IS_DRAGGING_CLASS).
Proof.
  unfold start_classes. cbv zeta. rewrite has_class_add. f_equal.
  change (ctrls (add_class b CLOSE_HAND_CLASS st)) with (ctrls st).
  rewrite mem_grips. destruct (nonempty (_handles (ctrls st c))).
  - rewrite (has_class_forEach_remove (fun _ s => s)) by reflexivity.
    now rewrite has_class_add.
  - now rewrite has_class_remove, has_class_add.
Qed.

Lemma end_classes_has_class (c : CtrlId) (b : ElemId) (st : State)
  (e : ElemId) (cls : string) :
  has_class (end_classes c b (_dragElement (ctrls st c)) st) e cls
  = has_class st e cls
    && negb (Nat.eqb e b && String.eqb cls CLOSE_HAND_CLASS)
    && negb (Nat.eqb e (_dragElement (ctrls st c)) && String.eqb cls IS_DRAGGING_CLASS)
    || (mem e (grips (ctrls st c)) && String.eqb cls OPEN_HAND_CLASS).
Proof.
  unfold end_classes. cbv zeta.
  change (ctrls (remove_class ?a ?x (remove_class ?a' ?x' st))) with (ctrls st).
  rewrite mem_grips. destruct (nonempty (_handles (ctrls st c))).
  - rewrite (has_class_forEach_add (fun _ s => s)) by reflexivity.
    now rewrite !has_class_remove.
  - now rewrite has_class_add, !has_class_remove.
Qed.

Lemma dragStart_has_class (c : CtrlId) (event : PointerEvent) (st : State)
  (e : ElemId) (cls : string) :
  has_class (_dragStart c event st) e cls
  = (has_class st e cls
     || (Nat.eqb e (body (doc st)) && String.eqb cls CLOSE_HAND_CLASS))
    && negb (mem e (grips (ctrls st c)) && String.eqb cls OPEN_HAND_CLASS)
    || (Nat.eqb e (_dragElement (ctrls st c)) && String.eqb cls IS_DRAGGING_CLASS).
Proof.
  rewrite dragStart_steps.
  set (d := _dragElement (ctrls st c)). set (k := container_of st c).
  set (s := start_offset c d (scrollingElement (doc st)) event
              (start_overflow c (body (doc st)) k (start_container c k event st))).
  assert (Hc : forall {B : Type} (G : DragAction -> B),
            (forall v this, G (with_container v this) = G this) ->
            (forall v this, G (with_dragPosition v this) = G this) ->
            G (ctrls s c) = G (ctrls st c)).
  { intros B G H1 H2. unfold s.
    rewrite (start_offset_ctrl_field G) by exact H2.
    rewrite start_overflow_ctrls. now apply start_container_ctrl_field. }
  assert (Hd : _dragElement (ctrls s c) = d) by now apply Hc.
  assert (Hg : grips (ctrls s c) = grips (ctrls st c)).
  { unfold grips. rewrite (Hc _ _handles) by reflexivity. fold d. now rewrite Hd. }
  assert (Hs : forall i x, has_class s i x = has_class st i x).
  { intros i x. apply has_class_ext. unfold s, start_offset.
    cbn [elems modify_ctrl with_ctrls].
    rewrite (start_overflow_field classList) by reflexivity.
    now rewrite start_container_elems. }
  transitivity (has_class (start_classes c (body (doc st)) d s) e cls).
  { apply has_class_ext. cbn [dispatch elems with_dispatched].
    now rewrite (start_relative_field classList). }
  rewrite <- Hd at 1. rewrite start_classes_has_class, Hs, Hg, Hd. reflexivity.
Qed.

(** The state a release leaves when a session is under way. *)
Lemma dragEnd_active (c : CtrlId) (k : ElemId) (up : PointerEvent) (st : State) :
  is_dragging st c = true ->
  _container (ctrls st c) = Some k ->
  let s1 := restore_overflow (body (doc st)) st in
  _dragEnd c up st
  = Ok tt (dragEnd_finish c (getPagePosition up)
             (if negb (matches_body s1 k) then restore_overflow k s1 else s1)).
Proof.
  intros Hd Hk s1. unfold _dragEnd. rewrite Hd. cbv zeta.
  rewrite restore_overflow_ctrls, Hk. reflexivity.
Qed.

Lemma dragEnd_has_class (c : CtrlId) (k : ElemId) (up : PointerEvent) (st : State)
  (e : ElemId) (cls : string) :
  is_dragging st c = true ->
  _container (ctrls st c) = Some k ->
  has_class (state_of (_dragEnd c up st)) e cls
  = has_class st e cls
    && negb (Nat.eqb e (body (doc st)) && String.eqb cls CLOSE_HAND_CLASS)
    && negb (Nat.eqb e (_dragElement (ctrls st c)) && String.eqb cls IS_DRAGGING_CLASS)
    || (mem e (grips (ctrls st c)) && String.eqb cls OPEN_HAND_CLASS).
Proof.
  intros Hd Hk. rewrite (dragEnd_active c k up st Hd Hk). cbv zeta. cbn [state_of].
  set (s := if negb _ then _ else _).
  assert (Hc : ctrls s = ctrls st).
  { unfold s. destruct (negb _); now rewrite ?restore_overflow_ctrls. }
  assert (Hdoc : doc s = doc st).
  { unfold s. destruct (negb _); now rewrite ?restore_overflow_doc. }
  assert (Hs : forall i x, has_class s i x = has_class st i x).
  { intros i x. apply has_class_ext. unfold s.
    destruct (negb _); now rewrite ?(restore_overflow_field classList). }
  unfold dragEnd_finish. cbv zeta.
  transitivity (has_class (end_classes c (body (doc s)) (_dragElement (ctrls s c)) s) e cls).
  { apply has_class_ext. cbn [dispatch elems with_dispatched].
    now rewrite end_drop_elems. }
  rewrite end_classes_has_class, Hs, Hc, Hdoc. reflexivity.
Qed.

(** X18.  While a session is under way the body shows the closed hand, the
    drag element carries the dragging mark and no element that took the
    pointer-down shows the open hand; once it has ended, from a page that
    was at rest (no closed hand on the body, no dragging mark, the open hand
    on every such element), every element has exactly the classes it had
    before the session. *)
Theorem session_restores_classes (c : CtrlId) (down : PointerEvent)
  (moves : list PointerEvent) (up : PointerEvent) (st : State) :
  has_class st (body (doc st)) CLOSE_HAND_CLASS = false ->
  is_dragging st c = false ->
  (forall g, In g (grips (ctrls st c)) -> has_class st g OPEN_HAND_CLASS = true) ->
  exists st2 st3,
    drag_moves c moves (_dragStart c down st) = Ok tt st2
    /\ _dragEnd c up st2 = Ok tt st3
    /\ session c down moves up st = Ok tt st3
    /\ has_class st2 (body (doc st)) CLOSE_HAND_CLASS = true
    /\ is_dragging st2 c = true
    /\ (forall g, In g (grips (ctrls st c)) -> has_class st2 g OPEN_HAND_CLASS = false)
    /\ forall e cls, has_class st3 e cls = has_class st e cls.
Proof.
  intros Hb Hi Hg.
  set (k := container_of st c). set (st1 := _dragStart c down st).
  destruct (drag_moves_ok c k moves st1) as (st2 & E2 & Hd2 & Hk2).
  { apply dragStart_dragging. }
  { apply dragStart_container. }
  assert (S2 : st2 = state_of (drag_moves c moves st1)) by now rewrite E2.
  assert (C2 : forall {B : Type} (G : DragAction -> B),
            (forall v this, G (with_dropElement v this) = G this) ->
            (forall v this, G (with_dropZoneEntered v this) = G this) ->
            (forall v this, G (with_container v this) = G this) ->
            (forall v this, G (with_dragPosition v this) = G this) ->
            G (ctrls st2 c) = G (ctrls st c)).
  { intros B G H1 H2 H3 H4. rewrite S2, (drag_moves_ctrl_field G) by assumption.
    unfold st1. now rewrite (dragStart_ctrl_field G). }
  assert (G2 : grips (ctrls st2 c) = grips (ctrls st c)).
  { unfold grips. rewrite (C2 _ _handles), (C2 _ _dragElement) by reflexivity.
    reflexivity. }
  assert (D2 : doc st2 = doc st).
  { rewrite S2, drag_moves_doc. apply dragStart_doc. }
  assert (H2 : forall e cls,
            has_class st2 e cls
            = (has_class st e cls
               || (Nat.eqb e (body (doc st)) && String.eqb cls CLOSE_HAND_CLASS))
              && negb (mem e (grips (ctrls st c)) && String.eqb cls OPEN_HAND_CLASS)
              || (Nat.eqb e (_dragElement (ctrls st c))
                  && String.eqb cls IS_DRAGGING_CLASS)).
  { intros e cls. rewrite <- dragStart_has_class with (event := down). fold st1.
    apply has_class_ext. rewrite S2. now apply (drag_moves_field classList). }
  pose proof (dragEnd_active c k up st2 Hd2 Hk2) as E3. cbv zeta in E3.
  eexists st2, _. split; [exact E2|]. split; [exact E3|]. split.
  { unfold session. fold st1. rewrite E2. exact E3. }
  split.
  { rewrite H2, Nat.eqb_refl.
    change (String.eqb CLOSE_HAND_CLASS CLOSE_HAND_CLASS) with true.
    change (String.eqb CLOSE_HAND_CLASS OPEN_HAND_CLASS) with false.
    change (String.eqb CLOSE_HAND_CLASS IS_DRAGGING_CLASS) with false.
    now rewrite !andb_false_r, orb_true_r. }
  split; [exact Hd2|]. split.
  { intros g Hin. rewrite H2, (mem_In g _ Hin).
    change (String.eqb OPEN_HAND_CLASS OPEN_HAND_CLASS) with true.
    change (String.eqb OPEN_HAND_CLASS IS_DRAGGING_CLASS) with false.
    cbn [andb negb]. now rewrite !andb_false_r. }
  intros e cls.
  pose proof (dragEnd_has_class c k up st2 e cls Hd2 Hk2) as H3.
  rewrite E3 in H3. cbn [state_of] in H3. rewrite H3. clear H3 E3.
  rewrite H2, G2, D2, (C2 _ _dragElement) by reflexivity.
  assert (F1 : (Nat.eqb e (body (doc st)) && String.eqb cls CLOSE_HAND_CLASS) = true ->
               has_class st e cls = false).
  { intros H. apply andb_true_iff in H. destruct H as [He Hc].
    apply Nat.eqb_eq in He. apply String.eqb_eq in Hc. now subst. }
  assert (F2 : (Nat.eqb e (_dragElement (ctrls st c))
                && String.eqb cls IS_DRAGGING_CLASS) = true ->
               has_class st e cls = false).
  { intros H. apply andb_true_iff in H. destruct H as [He Hc].
    apply Nat.eqb_eq in He. apply String.eqb_eq in Hc. now subst. }
  assert (F3 : (mem e (grips (ctrls st c)) && String.eqb cls OPEN_HAND_CLASS) = true ->
               has_class st e cls = true).
  { intros H. apply andb_true_iff in H. destruct H as [He Hc].
    apply String.eqb_eq in Hc. subst cls.
    apply existsb_exists in He. destruct He as (g & Hin & Eg).
    apply Nat.eqb_eq in Eg. subst g. now apply Hg. }
  destruct (mem e (grips (ctrls st c)) && String.eqb cls OPEN_HAND_CLASS).
  { rewrite orb_true_r. symmetry. now apply F3. }
  destruct (Nat.eqb e (body (doc st)) && String.eqb cls CLOSE_HAND_CLASS).
  { rewrite (F1 eq_refl).
    now destruct (Nat.eqb e (_dragElement (ctrls st c))
                  && String.eqb cls IS_DRAGGING_CLASS). }
  destruct (Nat.eqb e (_dragElement (ctrls st c)) && String.eqb cls IS_DRAGGING_CLASS).
  { rewrite (F2 eq_refl). reflexivity. }
  now destruct (has_class st e cls).
Qed.

Lemma session_restores_classes_witness :
  let st := built free_card in
  exists st2 st3,
    drag_moves 1%nat sweep (_dragStart 1%nat (mouse 120 120) st) = Ok tt st2
    /\ session 1%nat (mouse 120 120) sweep (mouse 120 120) st = Ok tt st3
    /\ has_class st2 (body (doc st)) CLOSE_HAND_CLASS = true
    /\ forall e cls, has_class st3 e cls = has_class st e cls.
Proof.
  intros st.
  pose proof (session_restores_classes 1%nat (mouse 120 120) sweep (mouse 120 120) st)
    as H.
  assert (H1 : has_class st (body (doc st)) CLOSE_HAND_CLASS = false)
    by (vm_compute; reflexivity).
  assert (H2 : is_dragging st 1%nat = false) by (vm_compute; reflexivity).
  assert (H3 : forall g, In g (grips (ctrls st 1%nat)) ->
                         has_class st g OPEN_HAND_CLASS = true).
  { assert (Eg : grips (ctrls st 1%nat) = [card]) by (vm_compute; reflexivity).
    rewrite Eg. intros g [<- | []]. vm_compute. reflexivity. }
  destruct (H H1 H2 H3) as (st2 & st3 & E2 & _ & E3 & Hb & _ & _ & Hr).
  exists st2, st3. auto.
Defined.

(** ** Destroying a controller after, or during, a session *)

Lemma end_drop_ctrl_field {B : Type} (G : DragAction -> B) (c : CtrlId) (e : ElemId)
  (p : PagePosition) (st : State) (i : CtrlId) :
  (forall v this, G (with_dropElement v this) = G this) ->
  G (ctrls (end_drop c e p st) i) = G (ctrls st i).
Proof.
  intros H. unfold end_drop, dispatch.
  destruct (_dropZoneEntered (ctrls st c)); [|reflexivity].
  destruct (isOverDropZone st c); [|reflexivity].
  records. now rewrite (ctrl_field G) by (intro; apply H).
Qed.

Lemma dragEnd_ctrl_field {B : Type} (G : DragAction -> B) (c : CtrlId)
  (up : PointerEvent) (st : State) (i : CtrlId) :
  (forall v this, G (with_dropElement v this) = G this) ->
  G (ctrls (state_of (_dragEnd c up st)) i) = G (ctrls st i).
Proof.
  intros H. unfold _dragEnd. destruct (is_dragging st c); [|reflexivity].
  cbv zeta. rewrite restore_overflow_ctrls.
  destruct (_container (ctrls st c)) as [k|]; cbn [state_of];
    [|now rewrite restore_overflow_ctrls].
  unfold dragEnd_finish. cbv zeta. cbn [dispatch ctrls with_dispatched].
  rewrite (end_drop_ctrl_field G) by exact H.
  rewrite end_classes_ctrls.
  destruct (negb _); now rewrite ?restore_overflow_ctrls.
Qed.

Lemma dragEnd_field {B : Type} (F : Element -> B) (c : CtrlId)
  (up : PointerEvent) (st : State) (i : ElemId) :
  (forall v el, F (el_with_classList v el) = F el) ->
  (forall v el, F (el_with_overflow v el) = F el) ->
  (forall s el, F (el_with_style (with_style_overflow s (style el)) el) = F el) ->
  F (elems (state_of (_dragEnd c up st)) i) = F (elems st i).
Proof.
  intros H1 H2 H3. unfold _dragEnd. destruct (is_dragging st c); [|reflexivity].
  cbv zeta. rewrite restore_overflow_ctrls.
  destruct (_container (ctrls st c)) as [k|]; cbn [state_of];
    [|now rewrite (restore_overflow_field F)].
  rewrite (dragEnd_finish_field F) by exact H1.
  destruct (negb _); now rewrite !(restore_overflow_field F).
Qed.

(** What a successful construction keeps of the instance it starts from. *)
Lemma constructor_kept {B : Type} (G : DragAction -> B) (dragElement : JSValue)
  (st : State) (c : CtrlId) (st1 : State) :
  constructor dragElement st = Ok c st1 ->
  (forall v this, G (with_handle v this) = G this) ->
  (forall v this, G (with_handles v this) = G this) ->
  (forall v this, G (with_dragEvents v this) = G this) ->
  (forall v this, G (with_dropZone v this) = G this) ->
  (forall v this, G (with_dropZoneEntered v this) = G this) ->
  (forall v this, G (with_dropZones v this) = G this) ->
  (forall v this, G (with_axis v this) = G this) ->
  (forall v this, G (with_scroll v this) = G this) ->
  (forall v this, G (with_containment v this) = G this) ->
  exists el,
    resolve dragElement st = Ok (Some el) st
    /\ G (ctrls st1 c)
       = G (new_instance c dragElement el
              (destroy_existing el (with_uid (S (uid st)) st))).
Proof.
  intros E H1 H2 H3 H4 H5 H6 H7 H8 H9.
  destruct (constructor_inv _ _ _ _ E) as (el & Hr & -> & ->).
  exists el. split; [exact Hr|].
  rewrite initialise_steps. cbv zeta.
  unfold set_dragAction, set_containment, set_scroll, set_axis.
  change (ctrls (modify_elem ?a ?f ?s)) with (ctrls s).
  cbn [ctrls with_events].
  rewrite (ctrl_field G) by (intro; apply H9).
  rewrite (ctrl_field G) by (intro; apply H8).
  rewrite (ctrl_field G) by (intro; apply H7).
  rewrite (set_dropZone_ctrl_field G) by assumption.
  now apply initialised_handle_ctrl_field.
Qed.

Lemma destroy_position_restored (this : DragAction) (st : State) :
  let s := style (elems (destroy_position this true st) (_dragElement this)) in
  style_position s = ip_position (_initialPosition this)
  /\ style_top s = ip_top (_initialPosition this)
  /\ style_left s = ip_left (_initialPosition this).
Proof.
  unfold destroy_position, set_dragAction. cbv zeta.
  rewrite (elem_field style) by reflexivity.
  cbn [write_style_top write_style_left]. unfold write_style_position.
  rewrite elems_modify_same. cbn [style el_with_style with_style_left style_left
                                    style_top style_position].
  rewrite elems_modify_same. cbn [style el_with_style with_style_top style_left
                                    style_top style_position].
  rewrite elems_modify_same. cbn. auto.
Qed.

(** X19.  [destroy(true)] takes the drag element back to where it was when
    the controller was constructed: after a construction and a session, its
    computed position, top and left are those it had before the
    construction.  [destroy(false)] leaves the position, top and left of
    every element as the session left them. *)
Theorem destroy_restores_position (dragElement : JSValue) (st : State) (c : CtrlId)
  (st1 : State) (down : PointerEvent) (moves : list PointerEvent) (up : PointerEvent)
  (st2 : State) :
  constructor dragElement st = Ok c st1 ->
  session c down moves up st1 = Ok tt st2 ->
  let e := _dragElement (ctrls st1 c) in
  (style_position (style (elems (destroy c true st2) e))
   = style_position (style (elems st e))
   /\ style_top (style (elems (destroy c true st2) e)) = style_top (style (elems st e))
   /\ style_left (style (elems (destroy c true st2) e)) = style_left (style (elems st e)))
  /\ forall i,
       style_position (style (elems (destroy c false st2) i))
       = style_position (style (elems st2 i))
       /\ style_top (style (elems (destroy c false st2) i))
          = style_top (style (elems st2 i))
       /\ style_left (style (elems (destroy c false st2) i))
          = style_left (style (elems st2 i)).
Proof.
  intros Ec Es e.
  assert (K : forall {B : Type} (G : DragAction -> B),
            (forall v this, G (with_dropElement v this) = G this) ->
            (forall v this, G (with_dropZoneEntered v this) = G this) ->
            (forall v this, G (with_container v this) = G this) ->
            (forall v this, G (with_dragPosition v this) = G this) ->
            G (ctrls st2 c) = G (ctrls st1 c)).
  { intros B G H1 H2 H3 H4.
    assert (S2 : st2 = state_of (session c down moves up st1)) by now rewrite Es.
    rewrite S2. unfold session.
    destruct (drag_moves_ok c (container_of st1 c) moves (_dragStart c down st1))
      as (sm & Em & _ & _).
    { apply dragStart_dragging. }
    { apply dragStart_container. }
    rewrite Em. cbn [bind].
    rewrite (dragEnd_ctrl_field G) by exact H1.
    assert (Sm : sm = state_of (drag_moves c moves (_dragStart c down st1)))
      by now rewrite Em.
    rewrite Sm, (drag_moves_ctrl_field G) by assumption.
    now apply dragStart_ctrl_field. }
  split.
  - destruct (constructor_kept (fun this => (_dragElement this, _initialPosition this))
                dragElement st c st1 Ec) as (el & _ & Hn); try reflexivity.
    cbn [new_instance _dragElement _initialPosition] in Hn.
    injection Hn as He Hp. fold e in He.
    set (s := destroy_existing el (with_uid (S (uid st)) st)) in Hp.
    assert (He2 : _dragElement (ctrls st2 c) = e) by now rewrite (K _ _dragElement).
    assert (Hp2 : _initialPosition (ctrls st2 c) = _initialPosition (ctrls st1 c))
      by now rewrite (K _ _initialPosition).
    rewrite destroy_steps.
    pose proof (destroy_position_restored (ctrls st2 c)
                  (destroy_overflow (ctrls st2 c) (destroy_unbound c st2))) as R.
    cbv zeta in R. rewrite He2, Hp2, Hp in R. cbn [ip_position ip_top ip_left] in R.
    destruct R as (R1 & R2 & R3). rewrite R1, R2, R3, He. unfold s.
    rewrite (destroy_existing_field (fun x => style_position (style x))) by reflexivity.
    rewrite (destroy_existing_field (fun x => style_top (style x))) by reflexivity.
    rewrite (destroy_existing_field (fun x => style_left (style x))) by reflexivity.
    auto.
  - intros i. rewrite destroy_steps. repeat split.
    + rewrite (destroy_position_kept (fun x => style_position (style x))) by reflexivity.
      rewrite (destroy_overflow_field (fun x => style_position (style x))) by reflexivity.
      now rewrite (destroy_unbound_field (fun x => style_position (style x))).
    + rewrite (destroy_position_kept (fun x => style_top (style x))) by reflexivity.
      rewrite (destroy_overflow_field (fun x => style_top (style x))) by reflexivity.
      now rewrite (destroy_unbound_field (fun x => style_top (style x))).
    + rewrite (destroy_position_kept (fun x => style_left (style x))) by reflexivity.
      rewrite (destroy_overflow_field (fun x => style_left (style x))) by reflexivity.
      now rewrite (destroy_unbound_field (fun x => style_left (style x))).
Qed.

Lemma destroy_restores_position_witness :
  let st := page free_card in
  exists st1 st2,
    constructor (VString "#card") st = Ok 1%nat st1
    /\ session 1%nat (mouse 120 120) [mouse 300 300] (mouse 300 300) st1 = Ok tt st2
    /\ style_position (style (elems st2 card)) = "relative"
    /\ style_top (style (elems st2 card)) = Px 180
    /\ style_position (style (elems (destroy 1%nat true st2) card)) = "static"
    /\ style_top (style (elems (destroy 1%nat true st2) card)) = Auto.
Proof.
  intros st.
  assert (E : constructor (VString "#card") st
              = Ok 1%nat
                  (initialise (uid st) (VString "#card") card
                     (destroy_existing card (with_uid (S (uid st)) st)))).
  { apply (constructor_resolved (VString "#card") st card); reflexivity. }
  set (st1 := initialise _ _ _ _) in E.
  destruct (session_overflow 1%nat (mouse 120 120) [mouse 300 300] (mouse 300 300) st1)
    as (st2 & E2 & _).
  { vm_compute. reflexivity. }
  assert (P : style_position
                (style (elems (state_of (session 1%nat (mouse 120 120) [mouse 300 300]
                                           (mouse 300 300) st1)) card)) = "relative"
              /\ style_top
                   (style (elems (state_of (session 1%nat (mouse 120 120)
                                              [mouse 300 300] (mouse 300 300) st1))
                             card)) = Px 180).
  { split; vm_compute; reflexivity. }
  rewrite E2 in P. cbn [state_of] in P. destruct P as (P1 & P2).
  assert (Ee : _dragElement (ctrls st1 1%nat) = card) by (vm_compute; reflexivity).
  destruct (destroy_restores_position (VString "#card") st 1%nat st1 _ _ _ st2 E E2)
    as ((R1 & R2 & _) & _).
  rewrite Ee in R1, R2.
  exists st1, st2. split; [exact E|]. split; [exact E2|].
  split; [exact P1|]. split; [exact P2|]. split.
  - rewrite R1. vm_compute. reflexivity.
  - rewrite R2. vm_compute. reflexivity.
Defined.

(** A session under way, from any state of a page whose body is a [body]
    element: what it has saved of the overflow, and where. *)
Lemma session_under_way (c : CtrlId) (down : PointerEvent) (moves : list PointerEvent)
  (st : State) :
  let b := body (doc st) in
  let k := container_of st c in
  matches_body st b = true ->
  exists st2,
    drag_moves c moves (_dragStart c down st) = Ok tt st2
    /\ is_dragging st2 c = true
    /\ _container (ctrls st2 c) = Some k
    /\ doc st2 = doc st
    /\ (forall e, info (elems st2 e) = info (elems st e))
    /\ _overflow (elems st2 b) = Some (style_overflow (style (elems st b)))
    /\ (matches_body st k = false ->
        _overflow (elems st2 k) = Some (style_overflow (style (elems st k))))
    /\ (forall e, e <> b -> e <> k \/ matches_body st k = true ->
                  style_overflow (style (elems st2 e))
                  = style_overflow (style (elems st e))).
Proof.
  intros b k Hbody. set (st1 := _dragStart c down st).
  destruct (drag_moves_ok c k moves st1) as (st2 & E2 & Hdr2 & Hk2).
  { apply dragStart_dragging. }
  { apply dragStart_container. }
  assert (S2 : st2 = state_of (drag_moves c moves st1)) by now rewrite E2.
  exists st2. split; [exact E2|]. split; [exact Hdr2|]. split; [exact Hk2|].
  assert (O2 : forall e, _overflow (elems st2 e)
               = _overflow (elems (start_overflow c b k (start_container c k down st)) e)).
  { intros e. rewrite S2, (drag_moves_field _overflow) by reflexivity.
    unfold st1. now rewrite (dragStart_after_overflow _overflow). }
  assert (V2 : forall e, style_overflow (style (elems st2 e))
               = style_overflow (style (elems (start_overflow c b k
                                                (start_container c k down st)) e))).
  { intros e.
    rewrite S2, (drag_moves_field (fun el => style_overflow (style el))) by reflexivity.
    unfold st1.
    now rewrite (dragStart_after_overflow (fun el => style_overflow (style el))). }
  assert (Hb0 : matches_body (start_container c k down st) b = true).
  { now rewrite matches_body_start_container. }
  split.
  { rewrite S2, drag_moves_doc. apply dragStart_doc. }
  split.
  { intros e. rewrite S2, (drag_moves_field info) by reflexivity.
    unfold st1. now rewrite (dragStart_field info). }
  split.
  { rewrite O2, start_overflow_saved_body by exact Hb0.
    now rewrite start_container_elems. }
  split.
  { intros Mk. assert (Hbk : b <> k).
    { intros E. rewrite <- E in Mk. congruence. }
    rewrite O2, start_overflow_saved_container, start_container_elems; auto.
    now rewrite matches_body_start_container. }
  intros e Hb Hk. rewrite V2, start_overflow_elsewhere, start_container_elems; auto.
  destruct Hk as [Hk | Hk]; [now left|right].
  now rewrite matches_body_start_container.
Qed.

Lemma truthy_string_some (s : string) : s <> "" -> truthy_string (Some s) = true.
Proof. intros H. cbn. apply negb_true_iff. now apply String.eqb_neq. Qed.

Lemma destroy_position_placed {B : Type} (F : Element -> B) (this : DragAction)
  (r : bool) (st : State) (i : ElemId) :
  (forall v el, F (el_with_dragAction v el) = F el) ->
  (forall v el, F (el_with_style (with_style_position v (style el)) el) = F el) ->
  (forall l el, F (el_with_style (with_style_top l (style el)) el) = F el) ->
  (forall l el, F (el_with_style (with_style_left l (style el)) el) = F el) ->
  F (elems (destroy_position this r st) i) = F (elems st i).
Proof.
  intros H1 H2 H3 H4. unfold destroy_position, set_dragAction. cbv zeta.
  rewrite (elem_field F) by (intro; apply H1).
  destruct r; [|reflexivity].
  rewrite (write_style_left_field F) by exact H4.
  rewrite (write_style_top_field F) by exact H3.
  unfold write_style_position. now rewrite (elem_field F) by (intro; apply H2).
Qed.

(** X20.  [destroy] in the middle of a session gives every element the
    overflow it had before the session began, the body and the container
    among them (the browser never computes an empty overflow). *)
Theorem destroy_restores_overflow (c : CtrlId) (r : bool) (down : PointerEvent)
  (moves : list PointerEvent) (st : State) :
  matches_body st (body (doc st)) = true ->
  (forall i, style_overflow (style (elems st i)) <> "") ->
  exists st2,
    drag_moves c moves (_dragStart c down st) = Ok tt st2
    /\ is_dragging st2 c = true
    /\ _overflow (elems st2 (body (doc st)))
       = Some (style_overflow (style (elems st (body (doc st)))))
    /\ forall e, style_overflow (style (elems (destroy c r st2) e))
                 = style_overflow (style (elems st e)).
Proof.
  intros Hbody Hne.
  destruct (session_under_way c down moves st Hbody)
    as (st2 & E2 & Hd2 & Hk2 & D2 & I2 & Ob & Ok & V2).
  set (b := body (doc st)) in *. set (k := container_of st c) in *.
  exists st2. split; [exact E2|]. split; [exact Hd2|]. split; [exact Ob|].
  intros e. rewrite destroy_steps.
  rewrite (destroy_position_placed (fun el => style_overflow (style el)))
    by reflexivity.
  set (u := destroy_unbound c st2).
  assert (Eu : forall i, _overflow (elems u i) = _overflow (elems st2 i)
                         /\ style_overflow (style (elems u i))
                            = style_overflow (style (elems st2 i))
                         /\ info (elems u i) = info (elems st i)).
  { intros i. unfold u. repeat split.
    - now rewrite (destroy_unbound_field _overflow).
    - now rewrite (destroy_unbound_field (fun el => style_overflow (style el))).
    - rewrite (destroy_unbound_field info) by reflexivity. apply I2. }
  assert (Du : doc u = doc st) by (unfold u; now rewrite destroy_unbound_doc).
  unfold destroy_overflow. cbv zeta. rewrite Hk2.
  cbn [doc elems with_events]. rewrite Du. fold b.
  set (u' := with_events _ u).
  assert (Eu' : forall i, elems u' i = elems u i) by reflexivity.
  assert (Tb : truthy_string (_overflow (elems u b)) = true).
  { rewrite (proj1 (Eu b)), Ob. now apply truthy_string_some. }
  rewrite Tb.
  set (s5 := restore_overflow b u').
  assert (M5 : matches_body s5 k = matches_body st k).
  { unfold matches_body, s5. rewrite (restore_overflow_field info) by reflexivity.
    rewrite Eu'. now rewrite (proj2 (proj2 (Eu k))). }
  rewrite M5.
  assert (Rb : style_overflow (style (elems s5 b)) = style_overflow (style (elems st b))).
  { unfold s5. apply restore_overflow_restores. rewrite Eu', (proj1 (Eu b)). exact Ob. }
  assert (Re : forall i, i <> b -> elems s5 i = elems u i).
  { intros i Hi. unfold s5. now rewrite restore_overflow_elsewhere. }
  destruct (matches_body st k) eqn:Mk; cbn [negb andb].
  - destruct (Nat.eq_dec e b) as [->|Hb]; [exact Rb|].
    rewrite Re by exact Hb. rewrite (proj1 (proj2 (Eu e))). apply V2; auto.
  - assert (Hbk : b <> k).
    { intros E. rewrite <- E in Mk. congruence. }
    assert (Tk : truthy_string (_overflow (elems s5 k)) = true).
    { rewrite Re by congruence. rewrite (proj1 (Eu k)), (Ok eq_refl).
      now apply truthy_string_some. }
    rewrite Tk.
    destruct (Nat.eq_dec e k) as [->|Hk].
    + apply restore_overflow_restores. rewrite Re by congruence.
      rewrite (proj1 (Eu k)). now apply Ok.
    + rewrite restore_overflow_elsewhere by exact Hk.
      destruct (Nat.eq_dec e b) as [->|Hb]; [exact Rb|].
      rewrite Re by exact Hb. rewrite (proj1 (proj2 (Eu e))). apply V2; auto.
Qed.

Lemma destroy_restores_overflow_witness :
  let st := built scroll_card in
  exists st2,
    drag_moves 1%nat [mouse 300 300] (_dragStart 1%nat (mouse 120 120) st) = Ok tt st2
    /\ style_overflow (style (elems st2 panel)) = "scroll"
    /\ style_overflow (style (elems (destroy 1%nat false st2) panel)) = "auto"
    /\ style_overflow (style (elems (destroy 1%nat false st2) page_body)) = "visible".
Proof.
  intros st.
  destruct (destroy_restores_overflow 1%nat false (mouse 120 120) [mouse 300 300] st)
    as (st2 & E2 & _ & _ & R).
  { vm_compute. reflexivity. }
  { intros i. do 5 (destruct i as [|i]; [vm_compute; discriminate|]).
    vm_compute. discriminate. }
  assert (P : style_overflow
                (style (elems (state_of (drag_moves 1%nat [mouse 300 300]
                                           (_dragStart 1%nat (mouse 120 120) st)))
                          panel)) = "scroll") by (vm_compute; reflexivity).
  rewrite E2 in P. cbn [state_of] in P.
  exists st2. split; [exact E2|]. split; [exact P|]. split.
  - rewrite R. vm_compute. reflexivity.
  - rewrite R. vm_compute. reflexivity.
Defined.

(** ** What a press sets up *)

Lemma dragStart_events (c : CtrlId) (event : PointerEvent) (st : State) :
  events (_dragStart c event st)
  = on "touchmove" NsDragAction H_preventDefault (events st).
Proof.
  rewrite dragStart_steps. cbn [dispatch events with_dispatched].
  assert (R : forall e s, events (start_relative e s) = events s).
  { intros e s. unfold start_relative. destruct (String.eqb _ _); reflexivity. }
  assert (C : forall b e s, events (start_classes c b e s) = events s).
  { intros b e s. unfold start_classes. frames. reflexivity. }
  assert (O : forall b k s, events (start_overflow c b k s) = events s).
  { intros b k s. unfold start_overflow. frames. reflexivity. }
  rewrite R, C. unfold start_offset. cbn [events modify_ctrl with_ctrls].
  rewrite O. unfold start_container, preventDefault.
  destruct (String.eqb _ _); reflexivity.
Qed.

Lemma drag_moves_events (c : CtrlId) (moves : list PointerEvent) (st : State) :
  events (state_of (drag_moves c moves st)) = events st.
Proof.
  apply (drag_moves_invariant (fun s => events s = events st) c); [|reflexivity].
  intros event s Hs.
  destruct (drag_cases c event s) as [(k & _ & _ & ->) | [[_ ->] | (_ & _ & ->)]];
    cbn [state_of]; [|exact Hs|exact Hs].
  now rewrite drag_body_events.
Qed.

Lemma dragEnd_events (c : CtrlId) (up : PointerEvent) (st : State) :
  events (state_of (_dragEnd c up st)) = events st.
Proof.
  assert (R : forall e s, events (restore_overflow e s) = events s).
  { intros e s. unfold restore_overflow. frames. reflexivity. }
  unfold _dragEnd. destruct (is_dragging st c); [|reflexivity].
  cbv zeta. rewrite restore_overflow_ctrls.
  destruct (_container (ctrls st c)) as [k|]; cbn [state_of]; [|apply R].
  unfold dragEnd_finish. cbv zeta. cbn [dispatch events with_dispatched].
  assert (D : forall e p s, events (end_drop c e p s) = events s).
  { intros e p s. unfold end_drop. destruct (_dropZoneEntered _); [|reflexivity].
    destruct (isOverDropZone s c); reflexivity. }
  assert (C : forall b e s, events (end_classes c b e s) = events s).
  { intros b e s. unfold end_classes. frames. reflexivity. }
  rewrite D, C. destruct (negb _); now rewrite ?R.
Qed.

Lemma guards_off (id : nat) (ls : list Listener) :
  filter is_guard (off (NsDragActionId id) ls) = filter is_guard ls.
Proof.
  unfold off. induction ls as [|l ls IH]; [reflexivity|].
  cbn [filter]. destruct (ns_eqb (l_ns l) (NsDragActionId id)) eqn:E; cbn [negb].
  - rewrite IH. unfold is_guard at 2.
    destruct (l_ns l); [discriminate E|]. cbn [ns_eqb].
    now rewrite andb_false_r.
  - cbn [filter]. now rewrite IH.
Qed.

(** X21.  Every press installs a guard on the window (a touchmove listener
    that prevents the default action, so that the page does not scroll while
    dragging) and nothing takes it away: neither the moves nor the release
    of the session, nor [destroy], which removes the listeners of the
    instance only.  After a session the window holds one guard more than
    before, and still does after the controller is destroyed. *)
Theorem touch_guard_stays (c : CtrlId) (down : PointerEvent)
  (moves : list PointerEvent) (up : PointerEvent) (r : bool) (st : State) :
  exists st',
    session c down moves up st = Ok tt st'
    /\ guards st' = S (guards st)
    /\ guards (destroy c r st') = S (guards st).
Proof.
  set (st1 := _dragStart c down st).
  destruct (drag_moves_ok c (container_of st c) moves st1) as (st2 & E2 & Hd2 & Hk2).
  { apply dragStart_dragging. }
  { apply dragStart_container. }
  pose proof (dragEnd_active c _ up st2 Hd2 Hk2) as E3. cbv zeta in E3.
  exists (state_of (_dragEnd c up st2)). split.
  { unfold session. fold st1. rewrite E2. cbn [bind]. now rewrite E3. }
  assert (G : guards (state_of (_dragEnd c up st2)) = S (guards st)).
  { unfold guards. rewrite dragEnd_events.
    assert (S2 : st2 = state_of (drag_moves c moves st1)) by now rewrite E2.
    rewrite S2, drag_moves_events. unfold st1. rewrite dragStart_events.
    unfold on. rewrite filter_app, length_app. cbn. apply Nat.add_1_r. }
  split; [exact G|].
  unfold guards in *. now rewrite destroy_events, guards_off.
Qed.

(** X22.  A press writes no box, no top, no left and no scroll offset of
    any element.  Of the layout properties it writes one: a drag element
    whose computed position is [static] becomes [relative]; any other
    position of the drag element, and the position of every other element,
    stay as they are. *)
Theorem dragStart_writes_no_offset (c : CtrlId) (event : PointerEvent) (st : State) :
  let st' := _dragStart c event st in
  let e := _dragElement (ctrls st c) in
  doc st' = doc st
  /\ (forall i,
        info (elems st' i) = info (elems st i)
        /\ style_top (style (elems st' i)) = style_top (style (elems st i))
        /\ style_left (style (elems st' i)) = style_left (style (elems st i))
        /\ scrollTop (elems st' i) = scrollTop (elems st i)
        /\ scrollLeft (elems st' i) = scrollLeft (elems st i))
  /\ style_position (style (elems st' e))
     = (if String.eqb (style_position (style (elems st e))) "static"
        then "relative" else style_position (style (elems st e)))
  /\ (forall i, i <> e ->
                style_position (style (elems st' i)) = style_position (style (elems st i))).
Proof.
  intros st' e.
  split; [apply dragStart_layout|].
  split; [apply dragStart_layout|].
  unfold st'. rewrite dragStart_steps. cbn [dispatch elems with_dispatched]. fold e.
  set (s := start_classes c _ e _).
  assert (Hs : forall i, style_position (style (elems s i))
                         = style_position (style (elems st i))).
  { intros i. unfold s.
    rewrite (start_classes_field (fun el => style_position (style el))) by reflexivity.
    unfold start_offset. cbn [elems modify_ctrl with_ctrls].
    rewrite (start_overflow_field (fun el => style_position (style el))) by reflexivity.
    now rewrite start_container_elems. }
  unfold start_relative. rewrite Hs. split.
  - destruct (String.eqb _ _); [|apply Hs].
    unfold write_style_position. now rewrite elems_modify_same.
  - intros i Hi. destruct (String.eqb _ _); [|apply Hs].
    unfold write_style_position. rewrite elems_modify_other by exact Hi. apply Hs.
Qed.

(** ** The listeners of the pointer-down *)

Lemma off_off (ns : Namespace) (ls : list Listener) : off ns (off ns ls) = off ns ls.
Proof.
  unfold off. induction ls as [|l ls IH]; [reflexivity|].
  cbn [filter]. destruct (negb (ns_eqb (l_ns l) ns)) eqn:E; [|exact IH].
  cbn [filter]. now rewrite E, IH.
Qed.

Lemma ns_eqb_eq (a b : Namespace) : ns_eqb a b = true <-> a = b.
Proof.
  destruct a as [|i], b as [|j]; cbn; try (split; [discriminate|discriminate]);
    try (split; reflexivity).
  rewrite Nat.eqb_eq. split; [now intros -> | now intros [= ->]].
Qed.

Lemma off_none (ns : Namespace) (ls : list Listener) (l : Listener) :
  In l (off ns ls) -> l_ns l <> ns.
Proof.
  intros H E. apply off_gone in H. apply ns_eqb_eq in E. congruence.
Qed.

Lemma forEach_vent_off (cls : string) (l : list ElemId) (st : State) (e : ElemId) :
  el_dragEvents (elems (forEach l (fun h s => remove_class h cls (vent_off h s)) st) e)
  = if mem e l then off NsDragAction (el_dragEvents (elems st e))
    else el_dragEvents (elems st e).
Proof.
  unfold forEach. revert st. induction l as [|h l IH]; intros st; [reflexivity|].
  cbn [fold_left mem existsb]. rewrite IH. fold (mem e l).
  unfold remove_class. rewrite (elem_field el_dragEvents) by (intro; reflexivity).
  unfold vent_off. destruct (Nat.eqb_spec e h) as [->|Hne].
  - rewrite elems_modify_same. cbn [el_dragEvents el_with_dragEvents orb].
    destruct (mem h l); [apply off_off|reflexivity].
  - now rewrite elems_modify_other.
Qed.

Lemma destroy_el_dragEvents (c : CtrlId) (r : bool) (st : State) (e : ElemId) :
  el_dragEvents (elems (destroy c r st) e)
  = if nonempty (_handles (ctrls st c)) && mem e (the_list (_handles (ctrls st c)))
    then off NsDragAction (el_dragEvents (elems st e))
    else el_dragEvents (elems st e).
Proof.
  rewrite destroy_steps.
  rewrite (destroy_position_field el_dragEvents) by reflexivity.
  rewrite (destroy_overflow_field el_dragEvents) by reflexivity.
  unfold destroy_unbound. cbv zeta.
  destruct (nonempty (_handles (ctrls st c))); cbn [andb].
  - rewrite forEach_vent_off. unfold remove_class.
    now rewrite !(elem_field el_dragEvents) by (intro; reflexivity).
  - unfold remove_class, this_vent_off.
    rewrite (elem_field el_dragEvents) by (intro; reflexivity).
    cbn [elems modify_ctrl with_ctrls].
    now rewrite !(elem_field el_dragEvents) by (intro; reflexivity).
Qed.

Lemma destroy_dragEvents (c : CtrlId) (r : bool) (st : State) :
  nonempty (_handles (ctrls st c)) = false ->
  _dragEvents (ctrls (destroy c r st) c) = off NsDragAction (_dragEvents (ctrls st c)).
Proof.
  intros H. rewrite destroy_steps, destroy_position_ctrls, destroy_overflow_ctrls.
  unfold destroy_unbound. cbv zeta. rewrite H.
  unfold remove_class, this_vent_off.
  change (ctrls (modify_elem ?a ?f ?s)) with (ctrls s).
  now rewrite ctrls_modify_same.
Qed.

(** X23.  [destroy] unbinds the pointer-down by namespace, not by instance:
    on each handle of the controller no listener of the DragAction namespace
    remains, whichever controller had registered it (a second controller
    that shares the handle loses its listeners too); a controller without
    handles empties its own registry; the registries of all other elements
    are left as they were. *)
Theorem destroy_unbinds_by_namespace (c : CtrlId) (r : bool) (st : State) :
  let st' := destroy c r st in
  let handles := the_list (_handles (ctrls st c)) in
  (forall h l, In h handles -> In l (el_dragEvents (elems st' h)) ->
               l_ns l <> NsDragAction)
  /\ (handles = [] ->
      forall l, In l (_dragEvents (ctrls st' c)) -> l_ns l <> NsDragAction)
  /\ (forall i, mem i handles = false ->
                el_dragEvents (elems st' i) = el_dragEvents (elems st i)).
Proof.
  intros st' handles.
  assert (N : handles = [] -> nonempty (_handles (ctrls st c)) = false).
  { unfold handles. destruct (_handles (ctrls st c)) as [[|]|]; [reflexivity| |reflexivity].
    discriminate. }
  split; [|split].
  - intros h l Hh Hl. unfold st' in Hl. rewrite destroy_el_dragEvents in Hl.
    fold handles in Hl. rewrite (mem_In h handles Hh) in Hl.
    assert (Hn : nonempty (_handles (ctrls st c)) = true).
    { unfold handles in Hh. destruct (_handles (ctrls st c)) as [[|]|];
        [destruct Hh|reflexivity|destruct Hh]. }
    rewrite Hn in Hl. cbn [andb] in Hl. now apply off_none in Hl.
  - intros He l Hl. unfold st' in Hl. rewrite (destroy_dragEvents c r st (N He)) in Hl.
    now apply off_none in Hl.
  - intros i Hi. unfold st'. rewrite destroy_el_dragEvents. fold handles.
    now rewrite Hi, andb_false_r.
Qed.

Lemma destroy_unbinds_by_namespace_witness :
  let second := mkListener "mousedown" NsDragAction (H_dragStart 2%nat) in
  In second (el_dragEvents (elems shared_handle card))
  /\ ~ In second (el_dragEvents (elems (destroy 1%nat false shared_handle) card)).
Proof.
  intros second. split.
  - vm_compute. left. reflexivity.
  - intros Hin.
    assert (Hh : In card (the_list (_handles (ctrls shared_handle 1%nat)))).
    { vm_compute. left. reflexivity. }
    exact (proj1 (destroy_unbinds_by_namespace 1%nat false shared_handle)
             card second Hh Hin eq_refl).
Defined.


(** ** The label of an anchor button *)

Lemma classList_add_idem (cls : string) (l : list string) :
  classList_add cls (classList_add cls l) = classList_add cls l.
Proof.
  unfold classList_add at 1. now rewrite classList_add_contains.
Qed.

(** X25.  Connecting an anchor button label gives it the label class and
    changes no other class of any element and nothing else of the element;
    connecting it again (as when the element is moved in the document)
    leaves its class list exactly as it is, the class is not added twice. *)
Theorem connectedCallback_marks_once (this : ElemId) (st : State) :
  let st' := connectedCallback this st in
  has_class st' this CLASSNAME = true
  /\ (forall e cls,
        has_class st' e cls
        = has_class st e cls || (Nat.eqb e this && String.eqb cls CLASSNAME))
  /\ (forall e, info (elems st' e) = info (elems st e)
                /\ style (elems st' e) = style (elems st e))
  /\ (forall e, classList (elems (connectedCallback this st') e)
                = classList (elems st' e))
  /\ (has_class st this CLASSNAME = true ->
      forall e, classList (elems st' e) = classList (elems st e)).
Proof.
  intros st'. unfold st', connectedCallback.
  split; [|split; [|split; [|split]]].
  - rewrite has_class_add, Nat.eqb_refl, String.eqb_refl. apply orb_true_r.
  - intros e cls. apply has_class_add.
  - intros e. unfold add_class. split; now rewrite elem_field.
  - intros e. unfold add_class. destruct (Nat.eq_dec e this) as [->|Hne].
    + rewrite !elems_modify_same. cbn [classList el_with_classList].
      apply classList_add_idem.
    + now rewrite !elems_modify_other.
  - intros H e. unfold add_class. destruct (Nat.eq_dec e this) as [->|Hne].
    + rewrite elems_modify_same. cbn [classList el_with_classList].
      unfold classList_add. unfold has_class in H. now rewrite H.
    + now rewrite elems_modify_other.
Qed.

(** ** A press during a session *)

Lemma container_not_body (c : CtrlId) (st : State) :
  matches_body st (body (doc st)) = true ->
  matches_body st (container_of st c) = false ->
  body (doc st) <> container_of st c.
Proof. intros Hb Hk E. rewrite <- E in Hk. congruence. Qed.

Lemma dragStart_hides_body (c : CtrlId) (event : PointerEvent) (st : State) :
  matches_body st (body (doc st)) = true ->
  style_overflow (style (elems (_dragStart c event st) (body (doc st)))) = "hidden".
Proof.
  intros Hb.
  rewrite (dragStart_after_overflow (fun el => style_overflow (style el)))
    by reflexivity.
  set (b := body (doc st)). set (k := container_of st c).
  set (s := start_container c k event st).
  unfold start_overflow. rewrite start_overflow_matches.
  assert (Mk : matches_body s k = matches_body st k)
    by apply matches_body_start_container.
  rewrite Mk. cbn [write_style_overflow].
  destruct (matches_body st k) eqn:E; cbn [negb].
  - now rewrite elems_modify_same.
  - assert (Hne : b <> k) by now apply container_not_body.
    rewrite elems_modify_other by exact Hne.
    unfold save_overflow at 1. rewrite elems_modify_other by exact Hne.
    now rewrite elems_modify_same.
Qed.

(** X26.  A second press before the release (two pointer-downs without a
    pointer-up between, as with two fingers) makes the session forget the
    overflow the body had: the second press saves the overflow the first one
    has set, and the release restores that.  After the release the body's
    overflow is [hidden], whatever it was before the first press. *)
Theorem second_press_forgets_overflow (c : CtrlId) (first second up : PointerEvent)
  (st : State) :
  matches_body st (body (doc st)) = true ->
  exists st',
    _dragEnd c up (_dragStart c second (_dragStart c first st)) = Ok tt st'
    /\ is_dragging st' c = false
    /\ style_overflow (style (elems st' (body (doc st)))) = "hidden".
Proof.
  intros Hb.
  set (b := body (doc st)). set (s1 := _dragStart c first st).
  assert (D1 : doc s1 = doc st) by apply dragStart_doc.
  assert (I1 : forall e, info (elems s1 e) = info (elems st e)).
  { intros e. unfold s1. now rewrite (dragStart_field info). }
  assert (Hb1 : matches_body s1 (body (doc s1)) = true).
  { rewrite D1. unfold matches_body in *. now rewrite I1. }
  destruct (session_under_way c second [] s1 Hb1)
    as (s2 & E2 & Hd2 & Hk2 & D2 & I2 & Ob & _).
  cbn [drag_moves] in E2. apply Ok_state in E2. subst s2.
  set (s2 := _dragStart c second s1) in *.
  rewrite D1 in Ob, D2. fold b in Ob.
  assert (H1 : style_overflow (style (elems s1 b)) = "hidden")
    by now apply dragStart_hides_body.
  rewrite H1 in Ob.
  set (k := container_of s1 c) in *.
  pose proof (dragEnd_active c k up s2 Hd2 Hk2) as E3. cbv zeta in E3.
  rewrite D2 in E3. fold b in E3.
  eexists. split; [exact E3|].
  set (r1 := restore_overflow b s2) in *.
  assert (R1 : style_overflow (style (elems r1 b)) = "hidden").
  { unfold r1. now apply restore_overflow_restores. }
  assert (M1 : matches_body r1 k = matches_body s2 k).
  { unfold matches_body, r1. now rewrite (restore_overflow_field info). }
  assert (Mb : matches_body s2 b = true).
  { unfold matches_body in *. rewrite I2, I1. exact Hb. }
  split.
  - pose proof (dragEnd_has_class c k up s2 (_dragElement (ctrls s2 c))
                  IS_DRAGGING_CLASS Hd2 Hk2) as H.
    rewrite (dragEnd_active c k up s2 Hd2 Hk2) in H. cbv zeta in H.
    cbn [state_of] in H. rewrite D2 in H. fold b r1 in H.
    unfold is_dragging.
    assert (Ee : _dragElement
                   (ctrls (dragEnd_finish c (getPagePosition up)
                             (if negb (matches_body r1 k)
                              then restore_overflow k r1 else r1)) c)
                 = _dragElement (ctrls s2 c)).
    { pose proof (dragEnd_ctrl_field _dragElement c up s2 c) as F.
      rewrite (dragEnd_active c k up s2 Hd2 Hk2) in F. cbv zeta in F.
      cbn [state_of] in F. rewrite D2 in F. fold b r1 in F. now apply F. }
    rewrite Ee, H, Nat.eqb_refl.
    change (String.eqb IS_DRAGGING_CLASS IS_DRAGGING_CLASS) with true.
    change (String.eqb IS_DRAGGING_CLASS OPEN_HAND_CLASS) with false.
    cbn [andb negb]. now rewrite !andb_false_r.
  - rewrite (dragEnd_finish_field (fun el => style_overflow (style el))) by reflexivity.
    rewrite M1. destruct (matches_body s2 k) eqn:Mk; cbn [negb]; [exact R1|].
    assert (Hne : b <> k).
    { intros E. rewrite <- E in Mk. congruence. }
    now rewrite restore_overflow_elsewhere.
Qed.

Lemma second_press_forgets_overflow_witness :
  let st := built free_card in
  style_overflow (style (elems st (body (doc st)))) = "visible"
  /\ exists st',
       _dragEnd 1%nat (mouse 130 130)
         (_dragStart 1%nat (mouse 125 125) (_dragStart 1%nat (mouse 120 120) st))
       = Ok tt st'
       /\ style_overflow (style (elems st' (body (doc st)))) = "hidden".
Proof.
  intros st. split; [vm_compute; reflexivity|].
  destruct (second_press_forgets_overflow 1%nat (mouse 120 120) (mouse 125 125)
              (mouse 130 130) st) as (st' & E & _ & H).
  { vm_compute. reflexivity. }
  exists st'. split; [exact E | exact H].
Defined.

(** ** What a release leaves in place *)

(** X27.  A release moves nothing and does not put the drag element back:
    every element keeps its box, its top and left, its scroll offsets and
    its computed position (a drag element made relative by the press stays
    relative), so every element is where the last move left it. *)
Theorem dragEnd_moves_nothing (c : CtrlId) (up : PointerEvent) (st : State) :
  let st' := state_of (_dragEnd c up st) in
  same_layout st st'
  /\ (forall i, bounds st' i = bounds st i)
  /\ (forall i, style_position (style (elems st' i))
                = style_position (style (elems st i)))
  /\ (forall j, _dragPosition (ctrls st' j) = _dragPosition (ctrls st j)
                /\ _container (ctrls st' j) = _container (ctrls st j)
                /\ _dropZoneEntered (ctrls st' j) = _dropZoneEntered (ctrls st j)).
Proof.
  intros st'.
  assert (L : same_layout st st').
  { split.
    - unfold st', _dragEnd. destruct (is_dragging st c); [|reflexivity].
      cbv zeta. rewrite restore_overflow_ctrls.
      destruct (_container (ctrls st c)) as [k|]; cbn [state_of];
        [|apply restore_overflow_doc].
      rewrite dragEnd_finish_doc.
      destruct (negb _); now rewrite ?restore_overflow_doc.
    - intros i. unfold st'. repeat split.
      + now apply (dragEnd_field info).
      + now apply (dragEnd_field (fun el => style_top (style el))).
      + now apply (dragEnd_field (fun el => style_left (style el))).
      + now apply (dragEnd_field scrollTop).
      + now apply (dragEnd_field scrollLeft). }
  split; [exact L|]. split; [intros i; now apply bounds_ext|]. split.
  - intros i. unfold st'.
    now apply (dragEnd_field (fun el => style_position (style el))).
  - intros j. unfold st'. repeat split.
    + now apply (dragEnd_ctrl_field _dragPosition).
    + now apply (dragEnd_ctrl_field _container).
    + now apply (dragEnd_ctrl_field _dropZoneEntered).
Qed.

(** * The methods as they are called

    What the constructor and the setters do when a selector they look up
    does not parse. *)

(** ** Construction *)

Lemma resolve_cases (dragElement : JSValue) (st : State) :
  truthy dragElement = true ->
  documented_argument st dragElement ->
  unresolved st dragElement
  \/ selector_fails st dragElement = true
  \/ exists el, resolve dragElement st = Ok (Some el) st.
Proof.
  intros H [Hm | [Hs | Hi]].
  - congruence.
  - destruct dragElement; try discriminate. cbn [resolve selector_fails].
    destruct (valid_selector st s) eqn:V; [|right; left; reflexivity].
    unfold unresolved. destruct (querySelector st s) as [el|] eqn:E.
    + right. right. now exists el.
    + left. now exists s.
  - destruct dragElement; try discriminate. simpl in *. rewrite Hi.
    right. right. now exists e.
Qed.

Lemma constructor_malformed (dragElement : JSValue) (st : State) :
  truthy dragElement = true ->
  malformed st dragElement ->
  exists st', constructor dragElement st = Throw invalid_selector st'.
Proof.
  intros Ht [F | (el & R & F)].
  - destruct (selector_fails_string st dragElement F) as (s & -> & V).
    exists st. now apply constructor_invalid.
  - rewrite (constructor_continues _ _ _ Ht R).
    rewrite initialise_call_cases. cbv zeta.
    rewrite (destroy_existing_fails el _ attr_handle).
    rewrite (destroy_existing_fails el _ attr_dropzone).
    change (selector_fails (with_uid (S (uid st)) st)) with (selector_fails st).
    change (elems (with_uid (S (uid st)) st)) with (elems st).
    destruct (selector_fails st (getAttribute (attr_handle (info (elems st el))))).
    + eexists. reflexivity.
    + destruct F as [F | F]; [discriminate F|]. rewrite F. eexists. reflexivity.
Qed.

(** C4, as amended.  The constructor raises one of its two documented errors
    exactly when no target is supplied or a selector, well formed, resolves
    to no element.  It raises the selector parser's [SyntaxError] exactly
    when a target is supplied and a selector does not parse: the selector
    argument, or the handle or dropzone attribute of the element resolved.
    For an argument of the documented type these are the only cases in which
    it raises.  A target that already owns a controller has that controller
    destroyed, its window listeners and its back-reference gone, before the
    options of the new one are assigned. *)
Theorem constructor_raises (dragElement : JSValue) (st : State) :
  (raises_documented (constructor dragElement st)
   <-> missing dragElement \/ unresolved st dragElement)
  /\ (raises_syntax (constructor dragElement st)
      <-> truthy dragElement = true /\ malformed st dragElement)
  /\ (documented_argument st dragElement ->
      (raises (constructor dragElement st)
       <-> missing dragElement \/ unresolved st dragElement
           \/ malformed st dragElement))
  /\ (forall el prior,
        truthy dragElement = true ->
        resolve dragElement st = Ok (Some el) st ->
        dragAction (elems st el) = Some prior ->
        let destroyed := destroy prior false (with_uid (S (uid st)) st) in
        constructor dragElement st
        = bind (initialise_call (uid st) dragElement el destroyed)
            (fun _ s => Ok (uid st) s)
        /\ dragAction (elems destroyed (_dragElement (ctrls st prior))) = None
        /\ forall l, In l (events destroyed) ->
                     ns_eqb (l_ns l) (NsDragActionId (_id (ctrls st prior))) = false).
Proof.
  assert (Hback : missing dragElement \/ unresolved st dragElement ->
                  raises_documented (constructor dragElement st)).
  { intros [Hm | (selector & -> & Hv & Hq)].
    - rewrite (constructor_missing _ _ Hm). now eexists _, _.
    - destruct (truthy (VString selector)) eqn:Ht.
      + rewrite (constructor_unresolved _ _ Ht Hv Hq). now eexists _, _.
      + rewrite (constructor_missing _ _ Ht). now eexists _, _. }
  assert (Hdoc : raises_documented (constructor dragElement st) ->
                 missing dragElement \/ unresolved st dragElement).
  { intros (message & st' & E). destruct (truthy dragElement) eqn:Ht; [|now left].
    right.
    destruct (constructor_failure_cases _ _ _ _ E)
      as [(m & _ & ->) | [(C & _) | [(C & _) | (el & _ & C & _)]]];
      try discriminate C.
    unfold constructor in E. rewrite Ht in E. cbn [negb] in E.
    destruct dragElement; cbn [resolve bind] in E; try discriminate E.
    - exists s. split; [reflexivity|].
      destruct (valid_selector st s); [|discriminate E]. split; [reflexivity|].
      destruct (querySelector st s) as [el|]; [|reflexivity].
      cbn [bind] in E. rewrite initialise_call_cases in E. cbv zeta in E.
      repeat match type of E with
             | context [if ?b then _ else _] => destruct b
             end; discriminate E.
    - destruct (isHTMLElement (info (elems st e))); cbn [bind] in E;
        [|discriminate E].
      rewrite initialise_call_cases in E. cbv zeta in E.
      repeat match type of E with
             | context [if ?b then _ else _] => destruct b
             end; discriminate E. }
  assert (Hsyn : raises_syntax (constructor dragElement st) ->
                 truthy dragElement = true /\ malformed st dragElement).
  { intros (message & st' & E).
    destruct (truthy dragElement) eqn:Ht.
    - split; [reflexivity|].
      destruct (constructor_failure_cases _ _ _ _ E)
        as [(m & C & _) | [(_ & F & _) | [(C & _) | (el & R & _ & C)]]];
        try discriminate C.
      + now left.
      + right. exists el. split; [exact R|]. cbv zeta in C.
        destruct C as [(F & _) | (_ & F & _)]; auto.
    - rewrite (constructor_missing _ _ Ht) in E. discriminate E. }
  split; [split; assumption|]. split; [|split].
  - split; [exact Hsyn|]. intros [Ht Hm].
    destruct (constructor_malformed _ _ Ht Hm) as (st' & E).
    rewrite E. now eexists _, _.
  - intros Hd. split.
    + intros (e & st' & E). destruct (truthy dragElement) eqn:Ht; [|now left].
      right. destruct (resolve_cases dragElement st Ht Hd) as [Hu | [F | [el Hr]]].
      * now left.
      * right. now left.
      * right. right. exists el. split; [exact Hr|].
        rewrite (constructor_continues _ _ _ Ht Hr) in E.
        rewrite initialise_call_cases in E. cbv zeta in E.
        rewrite (destroy_existing_fails el _ attr_handle) in E.
        rewrite (destroy_existing_fails el _ attr_dropzone) in E.
        change (selector_fails (with_uid (S (uid st)) st)) with (selector_fails st) in E.
        change (elems (with_uid (S (uid st)) st)) with (elems st) in E.
        destruct (selector_fails st (getAttribute (attr_handle (info (elems st el)))));
          [now left|].
        destruct (selector_fails st (getAttribute (attr_dropzone (info (elems st el)))));
          [now right|].
        discriminate E.
    + intros [Hm | [Hu | Hm]].
      * destruct (Hback (or_introl Hm)) as (message & st' & E).
        now exists (Error message), st'.
      * destruct (Hback (or_intror Hu)) as (message & st' & E).
        now exists (Error message), st'.
      * destruct (truthy dragElement) eqn:Ht.
        -- destruct (constructor_malformed _ _ Ht Hm) as (st' & E).
           now exists invalid_selector, st'.
        -- rewrite (constructor_missing _ _ Ht). now eexists _, _.
  - intros el prior Ht Hr Hp destroyed. split; [|split].
    + rewrite (constructor_continues _ _ _ Ht Hr). unfold destroy_existing.
      cbn [elems with_uid]. rewrite Hp. reflexivity.
    + exact (destroy_dragAction prior false (with_uid (S (uid st)) st)).
    + intros l Hin. unfold destroyed in Hin. rewrite destroy_events in Hin.
      apply off_gone in Hin. exact Hin.
Qed.

(** C4, as stated, fails on a number: the constructor raises although a
    target is supplied and no selector is involved.  It fails too on an
    element whose handle attribute is empty. *)
Lemma constructor_raises_on_number :
  raises (constructor (VNumber (Num 42)) (page free_card))
  /\ ~ (missing (VNumber (Num 42)) \/ unresolved (page free_card) (VNumber (Num 42)))
  /\ raises (constructor (VElement card) (page unhandled_card))
  /\ ~ (missing (VElement card)
        \/ unresolved (page unhandled_card) (VElement card)).
Proof.
  split; [|split; [|split]].
  - rewrite constructor_null by reflexivity. now eexists _, _.
  - intros [H | (selector & H & _)]; discriminate H.
  - assert (E : constructor (VElement card) (page unhandled_card)
                = Throw invalid_selector
                    (state_of (constructor (VElement card) (page unhandled_card))))
      by (vm_compute; reflexivity).
    rewrite E. now eexists _, _.
  - intros [H | (selector & H & _)]; discriminate H.
Qed.

(** The second construction on the card destroys the first controller. *)
Lemma constructor_raises_witness :
  let st := built free_card in
  constructor (VElement card) st
  = bind (initialise_call (uid st) (VElement card) card
            (destroy 1%nat false (with_uid (S (uid st)) st)))
      (fun _ s => Ok (uid st) s).
Proof.
  intros st.
  pose proof (constructor_raises (VElement card) st) as (_ & _ & _ & H).
  assert (H1 : truthy (VElement card) = true) by reflexivity.
  assert (H2 : resolve (VElement card) st = Ok (Some card) st)
    by (vm_compute; reflexivity).
  assert (H3 : dragAction (elems st card) = Some 1%nat) by (vm_compute; reflexivity).
  pose proof (H card 1%nat H1 H2 H3) as K. cbv zeta in K.
  exact (proj1 K).
Defined.

(** ** Configuration setters *)

Lemma raises_throw {A : Type} (e : JSError) (st : State) : raises (@Throw A e st).
Proof. now exists e, st. Qed.

Lemma raises_ok {A : Type} (a : A) (st : State) : ~ raises (Ok a st).
Proof. intros (e & s & H). discriminate H. Qed.

(** C9, as amended.  The [axis], [scroll] and [containment] setters never
    raise: whatever the value, [axis] ends as one of free, horizontal,
    vertical, as free when the value is none of the three and as the value
    when it is one; [scroll] and [containment] end as the value's conversion
    to boolean, a boolean being kept as it is.  The [handle] and [dropZone]
    setters raise exactly when the value is a string that is no valid
    selector, with the [SyntaxError] of the lookup, the handle setter having
    unbound the old handles and the dropZone setter having stored the value
    and forgotten the zone entered; for any other value they run to their
    end, a value that is no string, element or node list giving no handle
    but the drag element and no drop zone. *)
Theorem setters_fall_back (c : CtrlId) (value : JSValue) (st : State) :
  (set_axis_call c value st = Ok tt (set_axis c value st)
   /\ set_scroll_call c value st = Ok tt (set_scroll c value st)
   /\ set_containment_call c value st = Ok tt (set_containment c value st))
  /\ In (_axis (ctrls (set_axis c value st) c)) [FREE; HORIZONTAL; VERTICAL]
  /\ ((forall s, value = VString s -> ~ In s [FREE; HORIZONTAL; VERTICAL]) ->
      _axis (ctrls (set_axis c value st) c) = FREE)
  /\ (forall s, In s [FREE; HORIZONTAL; VERTICAL] ->
      _axis (ctrls (set_axis c (VString s) st) c) = s)
  /\ _scroll (ctrls (set_scroll c value st) c) = truthy value
  /\ _containment (ctrls (set_containment c value st) c) = truthy value
  /\ (forall b, _scroll (ctrls (set_scroll c (VBool b) st) c) = b
                /\ _containment (ctrls (set_containment c (VBool b) st) c) = b)
  /\ (raises (set_handle_call c value st)
      <-> exists s, value = VString s /\ valid_selector st s = false)
  /\ (raises (set_dropZone_call c value st)
      <-> exists s, value = VString s /\ valid_selector st s = false)
  /\ (forall s, value = VString s -> valid_selector st s = false ->
      set_handle_call c value st
      = Throw invalid_selector (set_handle_unbound c value st)
      /\ set_dropZone_call c value st
         = Throw invalid_selector (set_dropZone_stored c value st))
  /\ ((forall s, value = VString s -> valid_selector st s = true) ->
      set_handle_call c value st = Ok tt (set_handle c value st)
      /\ set_dropZone_call c value st = Ok tt (set_dropZone c value st))
  /\ (accepts st value = false ->
      _handles (ctrls (set_handle c value st) c) = Some []
      /\ _dropZones (ctrls (set_dropZone c value st) c) = []).
Proof.
  split; [repeat split|].
  assert (Hf : selector_fails st value = true
               <-> exists s, value = VString s /\ valid_selector st s = false).
  { split.
    - apply selector_fails_string.
    - intros (s & -> & V). cbn [selector_fails]. now rewrite V. }
  assert (Hn : (forall s, value = VString s -> valid_selector st s = true) ->
               selector_fails st value = false).
  { intros H. destruct value; try reflexivity. cbn [selector_fails].
    now rewrite (H s eq_refl). }
  rewrite set_handle_call_cases, set_dropZone_call_cases.
  split; [|split; [|split; [|split; [|split; [|split]]]]].
  - unfold set_axis, modify_ctrl. cbn [ctrls with_ctrls]. rewrite upd_same. cbn.
    pose proof (axis_of_enumerated value) as H. simpl in H. tauto.
  - intros H. unfold set_axis, modify_ctrl. cbn [ctrls with_ctrls].
    rewrite upd_same. cbn. apply axis_of_unrecognized. intros s E Hin.
    apply (H s E). simpl in *. tauto.
  - intros s Hs. unfold set_axis, modify_ctrl. cbn [ctrls with_ctrls].
    rewrite upd_same. cbn. apply axis_of_recognized. simpl in *. tauto.
  - unfold set_scroll, modify_ctrl. cbn [ctrls with_ctrls]. now rewrite upd_same.
  - unfold set_containment, modify_ctrl. cbn [ctrls with_ctrls]. now rewrite upd_same.
  - intros b. unfold set_scroll, set_containment, modify_ctrl.
    cbn [ctrls with_ctrls]. rewrite !upd_same. split; reflexivity.
  - split; [|split; [|split; [|split]]].
    + rewrite <- Hf. destruct (selector_fails st value).
      * split; [reflexivity | intros _; apply raises_throw].
      * split; [intros H; now apply raises_ok in H | discriminate].
    + rewrite <- Hf. destruct (selector_fails st value).
      * split; [reflexivity | intros _; apply raises_throw].
      * split; [intros H; now apply raises_ok in H | discriminate].
    + intros s E V. assert (F : selector_fails st value = true)
        by (apply Hf; now exists s).
      rewrite F. split; reflexivity.
    + intros H. rewrite (Hn H). split; reflexivity.
    + intros Ha. split.
      * rewrite set_handle_handles. now rewrite (designated_rejected st value Ha).
      * rewrite set_dropZone_cases, ctrls_modify_same. cbn [_dropZones with_dropZones].
        apply (designated_rejected st value Ha).
Qed.

(** C9, as stated, fails on the [handle] and [dropZone] setters: given the
    empty string, or text that is no selector, they raise. *)
Lemma handle_setter_raises :
  raises (set_handle_call 1%nat (VString "") (built free_card))
  /\ raises (set_dropZone_call 1%nat (VString "#") (built free_card))
  /\ set_handle_call 1%nat (VString "") (built free_card)
     = Throw invalid_selector (set_handle_unbound 1%nat (VString "") (built free_card)).
Proof.
  assert (F1 : selector_fails (built free_card) (VString "") = true)
    by (vm_compute; reflexivity).
  assert (F2 : selector_fails (built free_card) (VString "#") = true)
    by (vm_compute; reflexivity).
  pose proof (set_handle_call_cases 1%nat (VString "") (built free_card)) as E1.
  pose proof (set_dropZone_call_cases 1%nat (VString "#") (built free_card)) as E2.
  rewrite F1 in E1. rewrite F2 in E2.
  split; [rewrite E1; apply raises_throw|]. split; [rewrite E2; apply raises_throw|].
  exact E1.
Qed.


Lemma setters_fall_back_witness :
  _axis (ctrls (set_axis 1%nat (VString "diagonal") (built free_card)) 1%nat) = FREE
  /\ set_handle_call 1%nat (VString "#card") (built free_card)
     = Ok tt (set_handle 1%nat (VString "#card") (built free_card)).
Proof.
  split.
  - apply (proj1 (proj2 (proj2 (setters_fall_back 1%nat (VString "diagonal")
                                  (built free_card))))).
    intros s E. injection E as <-. simpl.
    intros [X | [X | [X | []]]]; discriminate X.
  - pose proof (setters_fall_back 1%nat (VString "#card") (built free_card))
      as (_ & _ & _ & _ & _ & _ & _ & _ & _ & _ & K & _).
    destruct K as [K _]; [|exact K].
    intros s E. injection E as <-. vm_compute. reflexivity.
Defined.

(** ** Drop-zone notifications and the entered flag *)

Lemma initialise_entered (id : nat) (dragElement : JSValue) (el : ElemId) (st : State) :
  _dropZoneEntered (ctrls (initialise id dragElement el st) id) = false.
Proof.
  rewrite initialise_steps. cbv zeta.
  unfold set_dragAction, set_containment, set_scroll, set_axis.
  cbn [ctrls modify_elem with_elems with_events].
  rewrite !(ctrl_field _dropZoneEntered) by (intro; reflexivity).
  rewrite set_dropZone_cases.
  rewrite (ctrl_field _dropZoneEntered) by (intro; reflexivity).
  now rewrite ctrls_modify_same.
Qed.

Lemma set_dropZone_entered (c : CtrlId) (value : JSValue) (st : State) :
  _dropZoneEntered (ctrls (set_dropZone c value st) c) = false.
Proof.
  rewrite set_dropZone_cases.
  rewrite (ctrl_field _dropZoneEntered) by (intro; reflexivity).
  now rewrite ctrls_modify_same.
Qed.

Lemma last_cons {A : Type} (a : A) (l : list A) (d : A) :
  last (a :: l) d = last l a.
Proof.
  revert a d. induction l as [|b l IH]; intros a d; [reflexivity|].
  change (last (a :: b :: l) d) with (last (b :: l) d).
  now rewrite !IH.
Qed.

(** The flag after the moves of a session under way is what the last move
    observed. *)
Lemma drag_moves_entered (c : CtrlId) (k : ElemId) (moves : list PointerEvent) :
  forall st,
    is_dragging st c = true ->
    _container (ctrls st c) = Some k ->
    _dropZoneEntered (ctrls (state_of (drag_moves c moves st)) c)
    = last (observations c moves st) (_dropZoneEntered (ctrls st c)).
Proof.
  induction moves as [|event rest IH]; intros st Hdr Hk; [reflexivity|].
  assert (E : _drag c event st = Ok tt (drag_body c k event st)).
  { unfold _drag. now rewrite Hdr, Hk. }
  cbn [drag_moves observations]. rewrite E. cbn [bind state_of].
  destruct (drag_body_zone c k event st) as (l1 & _ & _ & H3 & _).
  rewrite IH.
  - now rewrite H3, last_cons.
  - now rewrite drag_body_dragging.
  - now rewrite (drag_body_ctrl_field _container).
Qed.

(** C3, as amended.  Over the moves of a session the drop-zone
    notifications follow the entered flag the session starts with: each move
    gives drag-enter then drag-over when a zone intersects and the flag is
    clear, drag-over alone when the flag is set, drag-leave when no zone
    intersects and the flag is set.  So enter and leave alternate, every
    overlap interval that begins during the moves gets one drag-enter and
    every one that ends one drag-leave; a session that starts with the flag
    clear gets a drag-enter for each of its overlap intervals.  The flag is
    clear after a construction and after an assignment of [dropZone]; the
    press and the release leave it as it is, and after the moves it tells
    whether a zone intersected on the last of them. *)
Theorem drop_zone_notifications_alternate (c : CtrlId) (down : PointerEvent)
  (moves : list PointerEvent) (st0 : State) :
  let st := _dragStart c down st0 in
  let st' := state_of (drag_moves c moves st) in
  let entered := _dropZoneEntered (ctrls st0 c) in
  let overs := observations c moves st in
  zone_events st st' = zone_trace entered overs
  /\ alternates entered (zone_events st st') = true
  /\ count dragenter (zone_events st st') = beginnings entered overs
  /\ count dragleave (zone_events st st') = endings entered overs
  /\ _dropZoneEntered (ctrls st c) = entered
  /\ _dropZoneEntered (ctrls st' c) = last overs entered
  /\ (forall up s,
        _dropZoneEntered (ctrls (state_of (_dragEnd c up s)) c)
        = _dropZoneEntered (ctrls s c))
  /\ (forall value s, _dropZoneEntered (ctrls (set_dropZone c value s) c) = false)
  /\ (forall dragElement s id s1,
        constructor dragElement s = Ok id s1 ->
        _dropZoneEntered (ctrls s1 id) = false).
Proof.
  intros st st' entered overs.
  assert (Hst : _dropZoneEntered (ctrls st c) = entered).
  { unfold st. now rewrite (dragStart_ctrl_field _dropZoneEntered). }
  destruct (drag_moves_zone c (container_of st0 c) moves st) as (s & l & H1 & H2 & H3 & _).
  - apply dragStart_dragging.
  - apply dragStart_container.
  - assert (E : zone_events st st' = zone_trace entered overs).
    { unfold zone_events, st'. rewrite H1. cbn [state_of].
      rewrite (emitted_app _ _ _ H2), H3. now rewrite Hst. }
    rewrite E. split; [reflexivity|].
    split; [apply zone_trace_alternates|].
    split; [apply zone_trace_beginnings|].
    split; [apply zone_trace_endings|].
    split; [exact Hst|].
    split.
    { unfold st', overs. rewrite <- Hst.
      apply (drag_moves_entered c (container_of st0 c)).
      - apply dragStart_dragging.
      - apply dragStart_container. }
    split; [intros up s0; now apply (dragEnd_ctrl_field _dropZoneEntered)|].
    split; [intros value s0; apply set_dropZone_entered|].
    intros dragElement s0 id s1 C.
    destruct (constructor_inv _ _ _ _ C) as (el & _ & -> & ->).
    apply initialise_entered.
Qed.

(** C3, as stated, fails on the session that follows a drop: the flag is
    still set when it starts, so its first overlap interval gets drag-over
    and no drag-enter. *)
Lemma second_session_enters_silently :
  _dropZoneEntered (ctrls dropped 1%nat) = true
  /\ observations 1%nat [mouse 470 470] pressed_again = [true]
  /\ zone_events pressed_again
       (state_of (drag_moves 1%nat [mouse 470 470] pressed_again)) = [dragover]
  /\ zone_trace false [true] = [dragenter; dragover]
  /\ count dragenter
       (zone_events pressed_again
          (state_of (drag_moves 1%nat [mouse 470 470] pressed_again))) = 0%nat
  /\ beginnings false [true] = 1%nat.
Proof. vm_compute. repeat split. Qed.
